(** * The moving-average signal job of [run.py]

    A shallow embedding of [run.py] (configuration loader, data loader,
    signal processor, run reporter) and the properties its specification
    states about it.

    Modelling choices, fixed once for the whole development:

    - A float64 of the table is a finite rational or NaN ([cell], [None] is
      NaN); the infinities are outside the model.  The rolling mean and the
      signal rate are computed in exact arithmetic, where pandas rounds to
      float64: a mean of the model is the number the program holds up to
      that rounding, and a comparison with a mean is the program's where
      float64 arithmetic is exact on the column ([exact_prices], which the
      scenario of the specification satisfies: rounding the means to
      float64 changes no signal there, [rounded_means_keep_signals]) or
      where nothing is rounded (undefined means, windows of one row).  The
      two readings of the clock are float64 numbers, and the elapsed time
      is computed with float64 rounding ([round_f64]).
    - A pandas DataFrame is its row count and its named columns; a column is
      numeric (a list of cells) or of object dtype (a list of strings).
    - A value read from the YAML document or written into the JSON record is
      a [pyval]: [None], a bool, an int, a float, a str or a dict with string
      keys.
    - The interpreter state is a [World]: the regular files on disk other
      than the log file, what was written to standard output, the records
      appended to the log file and the last seed given to NumPy's global
      generator.  The log file is kept apart from the other files: this is
      the program when the log path is none of the paths the job reads or
      writes ([log_file_apart]).  A Python function that may raise is a [Py]
      computation over it.
    - [yaml.safe_load], [pandas.read_csv] and [json.dumps] are not part of
      the repository: they are parameters of the pipeline.  Opening an
      existing regular file, opening the output path for writing and
      [setup_logging] are taken to succeed. *)

From Stdlib Require Import ZArith QArith Qround List String Lia.
From stdpp Require Import base option list gmap strings pretty.

Local Open Scope string_scope.

(* ------------------------------------------------------------------ *)
(** ** Numbers and series *)

(** A float64 cell: [None] is NaN. *)
Definition cell : Type := option Q.

(** Equality of cells up to the representation of a rational; NaN is only
    related to NaN (this is identity of cells, not Python's [==]). *)
Definition cell_eq (a b : cell) : Prop :=
  match a, b with
  | Some x, Some y => (x == y)%Q
  | None, None => True
  | _, _ => False
  end.

(** [y < x] on rationals, as a boolean. *)
Definition Qlt_bool (y x : Q) : bool := negb (Qle_bool x y).

(** Python's [a > b] on float64: false as soon as one side is NaN. *)
Definition cell_gt (a b : cell) : bool :=
  match a, b with
  | Some x, Some y => Qlt_bool y x
  | _, _ => false
  end.

Definition Qsum (l : list Q) : Q := foldr Qplus 0%Q l.

(** The non-NaN observations of a window. *)
Definition observations (win : list cell) : list Q := omap id win.

(** The trailing window of row [i]: rows [i - w + 1 .. i], cut at row 0. *)
Definition window_at {A} (w : nat) (xs : list A) (i : nat) : list A :=
  drop (S i - w) (take (S i) xs).

(** pandas' rolling mean of one window: NaN unless the window holds at least
    [min_periods] observations and at least one; else their mean.  The mean
    is the exact one; pandas keeps a running float64 sum and divides it by
    the number of observations, which gives the float64 nearest to this
    mean on [exact_prices] and can differ from it in the last place
    elsewhere. *)
Definition mean_obs (min_periods : nat) (win : list cell) : cell :=
  let obs := observations win in
  let nobs := length obs in
  if (min_periods <=? nobs)%nat && (0 <? nobs)%nat
  then Some (Qsum obs / inject_Z (Z.of_nat nobs))%Q
  else None.

(** [series.rolling(window=w).mean()] for an integer [w >= 0]:
    [min_periods] defaults to the window size. *)
Definition roll_mean (w : nat) (xs : list cell) : list cell :=
  imap (fun i _ => mean_obs w (window_at w xs i)) xs.

(** [(close > rolling_mean).astype(int)]: both series carry the same index. *)
Definition gt_astype_int (close rolling : list cell) : list Z :=
  zip_with (fun c m => if cell_gt c m then 1%Z else 0%Z) close rolling.

Definition Zsum (l : list Z) : Z := foldr Z.add 0%Z l.

(** [signals.mean()] of an int64 series: NaN for the empty series (the
    quotient is the exact one; the program holds the float64 nearest to
    it). *)
Definition series_mean (signals : list Z) : cell :=
  match signals with
  | [] => None
  | _ => Some (inject_Z (Zsum signals) / inject_Z (Z.of_nat (length signals)))%Q
  end.

(** The signal series of a numeric close column. *)
Definition signal_series (w : nat) (close : list cell) : list Z :=
  gt_astype_int close (roll_mean w close).

(** [Q2c] reads an integer literal of a test table as a cell. *)
Definition Q2c (z : Z) : cell := Some (inject_Z z).

(* ------------------------------------------------------------------ *)
(** ** Python values and exceptions *)

#[warnings="-register-all"]
Inductive pyval : Type :=
| PNone
| PBool (b : bool)
| PInt (z : Z)
| PFloat (x : cell)
| PStr (s : string)
| PDict (items : list (string * pyval)).

Definition type_name (v : pyval) : string :=
  match v with
  | PNone => "NoneType"
  | PBool _ => "bool"
  | PInt _ => "int"
  | PFloat _ => "float"
  | PStr _ => "str"
  | PDict _ => "dict"
  end.

(** The exception classes the job can meet.  The specification's NotFound is
    [FileNotFoundError], its ValidationError is [ValueError]; a failure of a
    parser is a [LibraryError] with the name of its class. *)
Inductive exn_class : Type :=
| FileNotFoundError
| ValueError
| TypeError
| KeyError
| DataError
| OverflowError
| LibraryError (name : string).

(** An exception: its class and [str(e)]. *)
Record exn : Type := Exn { exn_class_of : exn_class; exn_str : string }.

Inductive result (A : Type) : Type :=
| Ok (a : A)
| Raise (e : exn).
Arguments Ok {A} a.
Arguments Raise {A} e.

(** [needle in haystack] on two strings: a substring test. *)
Definition str_contains (needle haystack : string) : bool :=
  match needle with
  | EmptyString => true
  | _ => bool_decide (is_Some (String.index 0 needle haystack))
  end.

Fixpoint dict_get (items : list (string * pyval)) (key : string) : option pyval :=
  match items with
  | [] => None
  | (k, v) :: rest => if String.eqb k key then Some v else dict_get rest key
  end.

(** [key in container] for a string key. *)
Definition py_contains (key : string) (container : pyval) : result bool :=
  match container with
  | PDict items => Ok (bool_decide (is_Some (dict_get items key)))
  | PStr s => Ok (str_contains key s)
  | v => Raise (Exn TypeError
                  ("argument of type '" +:+ type_name v +:+ "' is not iterable"))
  end.

(** [container[key]] for a string key. *)
Definition py_getitem (container : pyval) (key : string) : result pyval :=
  match container with
  | PDict items =>
      match dict_get items key with
      | Some v => Ok v
      | None => Raise (Exn KeyError ("'" +:+ key +:+ "'"))
      end
  | PStr _ => Raise (Exn TypeError "string indices must be integers, not 'str'")
  | v => Raise (Exn TypeError
                  ("'" +:+ type_name v +:+ "' object is not subscriptable"))
  end.

(** [int(x)] of a float: truncation towards zero. *)
Definition py_int (x : Q) : Z := Z.quot (Qnum x) (Zpos (Qden x)).

(* ------------------------------------------------------------------ *)
(** ** float64 arithmetic on the clock

    A finite float64 is the rational it denotes.  [round_f64] is IEEE 754
    rounding to the nearest binary64 number, ties to even, with gradual
    underflow; numbers beyond the largest float64 are outside the model
    (the readings of a clock in seconds are far below). *)

(** The integer nearest to [n / d], ties to even, for [0 <= n] and [0 < d]. *)
Definition round_half_even (n d : Z) : Z :=
  let q := (n / d)%Z in
  let r := (n mod d)%Z in
  match (2 * r ?= d)%Z with
  | Lt => q
  | Gt => (q + 1)%Z
  | Eq => if Z.even q then q else (q + 1)%Z
  end.

(** The exponent [e] with [2 ^ e <= n / d < 2 ^ (e + 1)], for [0 < n], [0 < d]. *)
Definition binade (n d : Z) : Z :=
  let k := (Z.log2 n - Z.log2 d)%Z in
  if (n * 2 ^ Z.max 0 (- k) <? d * 2 ^ Z.max 0 k)%Z then (k - 1)%Z else k.

(** The float64 nearest to [n / d], for [0 < n] and [0 < d]: a multiple
    [m * 2 ^ e] of the unit in the last place, 53 bits wide from the binade
    of [n / d], and no finer than [2 ^ -1074]. *)
Definition round_pos (n d : Z) : Q :=
  let e := Z.max (binade n d - 52) (-1074) in
  let m := round_half_even (n * 2 ^ Z.max 0 (- e)) (d * 2 ^ Z.max 0 e) in
  (inject_Z (m * 2 ^ Z.max 0 e) / inject_Z (2 ^ Z.max 0 (- e)))%Q.

Definition round_f64 (x : Q) : Q :=
  match Qnum x with
  | Z0 => 0%Q
  | Zpos n => round_pos (Zpos n) (Zpos (Qden x))
  | Zneg n => (- round_pos (Zpos n) (Zpos (Qden x)))%Q
  end.

(** [a - b] and [a * b] on float64. *)
Definition f64_sub (a b : Q) : Q := round_f64 (a - b).
Definition f64_mul (a b : Q) : Q := round_f64 (a * b).

(** [int((now - start_time) * 1000)] for two readings of [time.time()]. *)
Definition latency_of (start_time now : Q) : Z :=
  py_int (f64_mul (f64_sub now start_time) 1000).

(* ------------------------------------------------------------------ *)
(** ** Data frames *)

(** A column of a parsed table: numbers (int64 or float64 dtype), or texts
    that do not read as numbers (object dtype). *)
Inductive column : Type :=
| NumCol (vals : list cell)
| ObjCol (vals : list string).

Definition column_len (c : column) : nat :=
  match c with
  | NumCol vals => length vals
  | ObjCol vals => length vals
  end.

Record DataFrame : Type := mkDataFrame {
  df_len : nat;                          (* len(df): the number of data rows *)
  df_columns : list (string * column)    (* in header order *)
}.

(** Every column has one entry per row. *)
Definition df_wf (df : DataFrame) : Prop :=
  Forall (fun nc => column_len nc.2 = df_len df) (df_columns df).

(** [df.empty]: some axis has length 0. *)
Definition df_empty (df : DataFrame) : bool :=
  (df_len df =? 0)%nat || (length (df_columns df) =? 0)%nat.

Fixpoint columns_get (cols : list (string * column)) (name : string) : option column :=
  match cols with
  | [] => None
  | (k, c) :: rest => if String.eqb k name then Some c else columns_get rest name
  end.

(** [name in df.columns]. *)
Definition df_has_column (df : DataFrame) (name : string) : bool :=
  bool_decide (is_Some (columns_get (df_columns df) name)).

(** A Series taken from a frame: it carries the frame's index, so its length
    is the frame's row count. *)
Record Series : Type := mkSeries {
  sr_len : nat;
  sr_values : column
}.

(** [df[name]]. *)
Definition df_getitem (df : DataFrame) (name : string) : result Series :=
  match columns_get (df_columns df) name with
  | Some c => Ok (mkSeries (df_len df) c)
  | None => Raise (Exn KeyError ("'" +:+ name +:+ "'"))
  end.

(** [series.rolling(window=window)]: pandas accepts a fixed window only when
    it is an integer (not a bool) that is 0 or greater.  (For an empty series
    pandas first tries to read a string window as a time offset; [load_data]
    lets no empty frame through.) *)
Definition series_rolling (s : Series) (window : pyval) : result (Series * Z) :=
  match window with
  | PInt z =>
      if (z <? 0)%Z
      then Raise (Exn ValueError "window must be an integer 0 or greater")
      else Ok (s, z)
  | _ => Raise (Exn ValueError "window must be an integer 0 or greater")
  end.

(** [rolling.mean()], in the order pandas works: the values are cast to
    float64, which texts refuse (a series without rows has nothing to refuse
    and is returned as it is, whatever its dtype); the bounds of the windows
    are int64 numbers, which a window of [2 ** 63] or more overflows (the
    text of that error is NumPy's and differs between its versions; no
    statement below depends on it); then the means are computed. *)
Definition rolling_obj_mean (r : Series * Z) : result (list cell) :=
  if (sr_len r.1 =? 0)%nat then Ok []
  else
    match sr_values r.1 with
    | ObjCol _ => Raise (Exn DataError "No numeric types to aggregate")
    | NumCol vals =>
        if (2 ^ 63 <=? r.2)%Z
        then Raise (Exn OverflowError
                      ("Python integer " +:+ pretty r.2 +:+ " out of bounds for int64"))
        else Ok (roll_mean (Z.to_nat r.2) vals)
    end.

(* ------------------------------------------------------------------ *)
(** ** The interpreter state and computations that may raise *)

Inductive log_level : Type := INFO | ERROR.

#[global] Instance log_level_eq_dec : EqDecision log_level.
Proof. solve_decision. Defined.

(** The message of a log record, before formatting. *)
Inductive log_msg : Type :=
| Job_started
| Config_loaded (seed window version : pyval)
| Data_loaded (rows : nat)
| Rolling_mean_calculated (window : pyval)
| Signals_generated
| Metrics_computed (signal_rate : cell) (rows_processed : nat)
| Job_completed (latency_ms : Z)
| Job_failed (msg : string).

Record log_record : Type := LogRecord { levelname : log_level; message : log_msg }.

(** What reaches standard output: a log line of the stream handler, or a
    string given to [print]. *)
Inductive out_item : Type :=
| LogLine (r : log_record)
| Printed (s : string).

Record World : Type := mkWorld {
  files : gmap string string;     (* regular files: path to text *)
  stdout : list out_item;
  log_file : list log_record;     (* what the file handler has appended *)
  np_seed : option Z              (* last integer seed of NumPy's generator *)
}.

Definition Py (A : Type) : Type := World -> result A * World.

Definition py_ret {A} (a : A) : Py A := fun w => (Ok a, w).
Definition py_raise {A} (e : exn) : Py A := fun w => (Raise e, w).
Definition py_lift {A} (r : result A) : Py A := fun w => (r, w).
Definition py_bind {A B} (m : Py A) (k : A -> Py B) : Py B :=
  fun w =>
    match m w with
    | (Ok a, w') => k a w'
    | (Raise e, w') => (Raise e, w')
    end.

Notation "'let!' x ':=' m 'in' k" := (py_bind m (fun x => k))
  (at level 10, x pattern, m at level 100, k at level 200).

(** [for a in l: body(a)]. *)
Fixpoint py_for {A} (l : list A) (body : A -> Py unit) : Py unit :=
  match l with
  | [] => py_ret tt
  | a :: rest => let! _ := body a in py_for rest body
  end.

(** [os.path.exists(path)]. *)
Definition os_path_exists (path : string) : Py bool :=
  fun w => (Ok (bool_decide (is_Some (files w !! path))), w).

(** [open(path, 'r')] and reading the whole file. *)
Definition read_file (path : string) : Py string :=
  fun w =>
    match files w !! path with
    | Some text => (Ok text, w)
    | None => (Raise (Exn FileNotFoundError
                        ("[Errno 2] No such file or directory: '" +:+ path +:+ "'")), w)
    end.

(** [open(path, 'w')] and writing [text]: the file is replaced. *)
Definition write_file (path text : string) : Py unit :=
  fun w => (Ok tt, mkWorld (<[path := text]> (files w)) (stdout w) (log_file w) (np_seed w)).

(** [print(s)]. *)
Definition print (s : string) : Py unit :=
  fun w => (Ok tt, mkWorld (files w) (stdout w ++ [Printed s]) (log_file w) (np_seed w)).

(** A record goes to both handlers of [setup_logging]: the log file and
    standard output. *)
Definition logger_emit (r : log_record) : Py unit :=
  fun w => (Ok tt, mkWorld (files w) (stdout w ++ [LogLine r]) (log_file w ++ [r]) (np_seed w)).

Definition logger_info (m : log_msg) : Py unit := logger_emit (LogRecord INFO m).
Definition logger_error (m : log_msg) : Py unit := logger_emit (LogRecord ERROR m).

(** The dtype NumPy gives a scalar that is not an integer. *)
Definition np_dtype (v : pyval) : string :=
  match v with
  | PFloat _ => "float64"
  | PStr s => "<U" +:+ pretty (Nat.max 1 (String.length s))
  | _ => "O"
  end.

(** [np.random.seed(seed)]: [None] reseeds from the operating system, an
    integer must lie in [0, 2**32 - 1], anything else cannot be cast. *)
Definition np_random_seed (seed : pyval) : Py unit :=
  fun w =>
    let seeded (s : option Z) := (Ok tt, mkWorld (files w) (stdout w) (log_file w) s) in
    let ranged (z : Z) :=
      if ((z <? 0) || (2 ^ 32 - 1 <? z))%Z
      then (Raise (Exn ValueError "Seed must be between 0 and 2**32 - 1"), w)
      else seeded (Some z) in
    match seed with
    | PNone => seeded None
    | PInt z => ranged z
    | PBool b => ranged (if b then 1 else 0)%Z
    | v => (Raise (Exn TypeError
                     ("Cannot cast scalar from dtype('" +:+ np_dtype v +:+
                      "') to dtype('int64') according to the rule 'safe'")), w)
    end.

(* ------------------------------------------------------------------ *)
(** ** The pipeline *)

Record Args : Type := mkArgs {
  arg_input : string;
  arg_config : string;
  arg_output : string;
  arg_log_file : string
}.

Definition required_keys : list string := ["seed"; "window"; "version"].

Section Pipeline.

(** The library functions the job calls on file contents. *)
Variable yaml_safe_load : string -> result pyval.
Variable read_csv : string -> result DataFrame.
Variable json_dumps : pyval -> string.

Definition load_config (config_path : string) : Py pyval :=
  let! present := os_path_exists config_path in
  if negb present
  then py_raise (Exn FileNotFoundError ("Config file not found: " +:+ config_path))
  else
    let! text := read_file config_path in
    let! config := py_lift (yaml_safe_load text) in
    let! _ := py_for required_keys (fun key =>
      let! found := py_lift (py_contains key config) in
      if negb found
      then py_raise (Exn ValueError ("Missing required config key: " +:+ key))
      else py_ret tt) in
    py_ret config.

Definition load_data (input_path : string) : Py DataFrame :=
  let! present := os_path_exists input_path in
  if negb present
  then py_raise (Exn FileNotFoundError ("Input file not found: " +:+ input_path))
  else
    let! text := read_file input_path in
    let! df := py_lift (read_csv text) in
    if df_empty df
    then py_raise (Exn ValueError "Input CSV is empty")
    else
      if negb (df_has_column df "close")
      then py_raise (Exn ValueError "Required 'close' column missing")
      else py_ret df.

Definition process_data (df : DataFrame) (seed window : pyval)
  : Py (nat * cell * list Z) :=
  let! _ := np_random_seed seed in
  let! close := py_lift (df_getitem df "close") in
  let! rolling := py_lift (series_rolling close window) in
  let! rolling_mean := py_lift (rolling_obj_mean rolling) in
  let signals :=
    match sr_values close with
    | NumCol vals => gt_astype_int vals rolling_mean
    | ObjCol _ => []          (* reached without rows only: [mean] raises *)
    end in
  let rows_processed := df_len df in
  let signal_rate := series_mean signals in
  py_ret (rows_processed, signal_rate, signals).

(** The dict written on success. *)
Definition success_metrics (version : pyval) (rows_processed : nat)
    (signal_rate : cell) (latency_ms : Z) (seed : pyval) : pyval :=
  PDict [("version", version);
         ("rows_processed", PInt (Z.of_nat rows_processed));
         ("metric", PStr "signal_rate");
         ("value", PFloat signal_rate);
         ("latency_ms", PInt latency_ms);
         ("seed", seed);
         ("status", PStr "success")].

(** The dict written on failure. *)
Definition error_metrics (e : exn) : pyval :=
  PDict [("version", PStr "v1");
         ("status", PStr "error");
         ("error_message", PStr (exn_str e))].

(** The first part of [main]'s [try] block, from "Job started" to "Signals
    generated": what the three stages hand to the report.  The reads of
    [config[...]] are bound once; they have no effect. *)
Definition main_pipeline (args : Args) : Py (pyval * pyval * nat * cell) :=
  let! _ := logger_info Job_started in
  let! config := load_config (arg_config args) in
  let! seed := py_lift (py_getitem config "seed") in
  let! window := py_lift (py_getitem config "window") in
  let! version := py_lift (py_getitem config "version") in
  let! _ := logger_info (Config_loaded seed window version) in
  let! _ := np_random_seed seed in
  let! df := load_data (arg_input args) in
  let! _ := logger_info (Data_loaded (df_len df)) in
  let! _ := logger_info (Rolling_mean_calculated window) in
  let! (rows_processed, signal_rate, signals) := process_data df seed window in
  let! _ := logger_info Signals_generated in
  py_ret (version, seed, rows_processed, signal_rate).

(** The rest of the [try] block: the metrics are assembled, written and
    printed.  [now] is what [time.time()] returns here. *)
Definition main_report (args : Args) (start_time now : Q)
    (version seed : pyval) (rows_processed : nat) (signal_rate : cell) : Py unit :=
  let latency_ms := latency_of start_time now in
  let! _ := logger_info (Metrics_computed signal_rate rows_processed) in
  let metrics := success_metrics version rows_processed signal_rate latency_ms seed in
  let! _ := write_file (arg_output args) (json_dumps metrics) in
  let! _ := logger_info (Job_completed latency_ms) in
  print (json_dumps metrics).

(** The body of [main]'s [try]. *)
Definition main_try (args : Args) (start_time now : Q) : Py unit :=
  let! (version, seed, rows_processed, signal_rate) := main_pipeline args in
  main_report args start_time now version seed rows_processed signal_rate.

(** The [except Exception as e] handler, up to [sys.exit(1)]. *)
Definition main_except (args : Args) (e : exn) : Py unit :=
  let! _ := logger_error (Job_failed (exn_str e)) in
  let! _ := write_file (arg_output args) (json_dumps (error_metrics e)) in
  print (json_dumps (error_metrics e)).

(** [main] after argument parsing and [setup_logging]: the exit status of
    the process and the world it leaves.  [start_time] and [now] are the
    two readings of the clock of one run (the second one is taken in the
    [try] block or in the handler). *)
Definition main (args : Args) (start_time now : Q) (w : World) : Z * World :=
  match main_try args start_time now w with
  | (Ok _, w') => (0%Z, w')
  | (Raise e, w') => (1%Z, (main_except args e w').2)
  end.

End Pipeline.

(* ------------------------------------------------------------------ *)
(** ** Notions used to state the properties *)

(** A seed [np.random.seed] accepts. *)
Definition seed_ok (seed : pyval) : bool :=
  match seed with
  | PNone | PBool _ => true
  | PInt z => (0 <=? z)%Z && (z <=? 2 ^ 32 - 1)%Z
  | _ => false
  end.

(** The generator state [np.random.seed] leaves for an accepted seed. *)
Definition seed_state (seed : pyval) : option Z :=
  match seed with
  | PInt z => Some z
  | PBool b => Some (if b then 1 else 0)%Z
  | _ => None
  end.

Definition set_np_seed (w : World) (s : option Z) : World :=
  mkWorld (files w) (stdout w) (log_file w) s.

(** The rolling mean and the signal in the words of the specification,
    row by row and without the code's windows.  [rows_total xs lo n] is the
    total of the close values of the [n] rows from row [lo] on, undefined as
    soon as one of them is missing or NaN; the rolling mean of row [i] is the
    total of rows [i - w + 1 .. i] over [w], undefined on the first [w - 1]
    rows; the signal is 1 when the close value is strictly greater than a
    defined rolling mean, and 0 otherwise. *)
Fixpoint rows_total (xs : list cell) (lo n : nat) : cell :=
  match n with
  | O => Some 0%Q
  | S n' =>
      match (xs !! lo : option cell) with
      | Some close =>
          match close, rows_total xs (S lo) n' with
          | Some x, Some t => Some (x + t)%Q
          | _, _ => None
          end
      | None => None
      end
  end.

Definition spec_rolling_mean (w : nat) (xs : list cell) (i : nat) : cell :=
  if (S i <? w)%nat then None
  else (fun t => t / inject_Z (Z.of_nat w))%Q <$> rows_total xs (S i - w) w.

Definition spec_signal (w : nat) (xs : list cell) (i : nat) : Z :=
  match (xs !! i : option cell) with
  | Some close =>
      match close, spec_rolling_mean w xs i with
      | Some x, Some m => if Qlt_le_dec m x then 1%Z else 0%Z
      | _, _ => 0%Z
      end
  | None => 0%Z
  end.

(** Close values on which float64 arithmetic is exact for a window of [w]
    rows: every value is NaN or an integer [n] with [|n| * w < 2 ** 53].
    Then every window total is an integer below [2 ** 53], which float64
    holds exactly ([round_f64_integer]), and the rounding of a mean cannot
    carry it across an integer close value ([round_f64_keeps_side]): the
    comparisons of the program are those of exact arithmetic. *)
Definition exact_price (w : Z) (c : cell) : bool :=
  match c with
  | None => true
  | Some q =>
      (Qnum q mod Zpos (Qden q) =? 0)%Z &&
      (Z.abs (Qnum q / Zpos (Qden q)) * w <? 2 ^ 53)%Z
  end.

Definition exact_prices (w : Z) (vals : list cell) : bool :=
  forallb (exact_price w) vals.

(** The rolling means as the program holds them on exact prices: the sums
    are exact there, and the division gives the float64 nearest to the
    mean. *)
Definition cell_f64 (c : cell) : cell := round_f64 <$> c.

Definition roll_mean_f64 (w : nat) (xs : list cell) : list cell :=
  cell_f64 <$> roll_mean w xs.

(** The log path is none of the paths the job reads or writes. *)
Definition log_file_apart (args : Args) : bool :=
  negb (String.eqb (arg_log_file args) (arg_config args)) &&
  negb (String.eqb (arg_log_file args) (arg_input args)) &&
  negb (String.eqb (arg_log_file args) (arg_output args)).

(** The mean of a list of numbers. *)
Definition arithmetic_mean (l : list Q) : Q :=
  (Qsum l / inject_Z (Z.of_nat (length l)))%Q.

(** A 0/1 entry of a signal series. *)
Definition binary (s : Z) : Prop := s = 0%Z \/ s = 1%Z.

(** Two worlds hold the same configuration and the same input table. *)
Definition same_inputs (args : Args) (w1 w2 : World) : Prop :=
  files w1 !! arg_config args = files w2 !! arg_config args /\
  files w1 !! arg_input args = files w2 !! arg_input args.

(** The ERROR records of a log. *)
Definition error_records (l : list log_record) : list log_record :=
  filter (fun r => levelname r = ERROR) l.

(** One of the two paths the job reads. *)
Definition input_path (args : Args) (p : string) : Prop :=
  p = arg_config args \/ p = arg_input args.

(** The required keys a mapping lacks, in the order the loader checks them. *)
Definition missing_keys (items : list (string * pyval)) : list string :=
  filter (fun k => dict_get items k = None) required_keys.

(** A computation that leaves the files alone, logs no ERROR record and
    whose result is a function of the two input files only. *)
Definition stage (args : Args) {A} (m : Py A) : Prop :=
  (forall w, files (m w).2 = files w /\
             error_records (log_file (m w).2) = error_records (log_file w)) /\
  (forall w1 w2, same_inputs args w1 w2 -> (m w1).1 = (m w2).1).

(** A close value rescaled to [a * x + k]; NaN stays NaN. *)
Definition cell_affine (a k : Q) (c : cell) : cell := (fun x => a * x + k)%Q <$> c.

(** A column without NaN that never rises, and one that always rises. *)
Definition never_rises (qs : list Q) : Prop :=
  forall (j i : nat) (qj qi : Q),
    (j <= i)%nat -> qs !! j = Some qj -> qs !! i = Some qi -> (qi <= qj)%Q.
Definition always_rises (qs : list Q) : Prop :=
  forall (j i : nat) (qj qi : Q),
    (j < i)%nat -> qs !! j = Some qj -> qs !! i = Some qi -> (qj < qi)%Q.

(** The field of a written record, [None] when the record lacks it. *)
Definition field (r : pyval) (key : string) : option pyval :=
  match r with
  | PDict items => dict_get items key
  | _ => None
  end.

(** [main_pipeline] from the second call of [np.random.seed] on, for the
    three values read from the configuration: a name for the rest of the
    pipeline once the configuration is accepted. *)
Definition pipeline_after_config (read_csv : string -> result DataFrame)
    (args : Args) (seed window version : pyval) : Py (pyval * pyval * nat * cell) :=
  let! _ := np_random_seed seed in
  let! df := load_data read_csv (arg_input args) in
  let! _ := logger_info (Data_loaded (df_len df)) in
  let! _ := logger_info (Rolling_mean_calculated window) in
  let! (rows_processed, signal_rate, signals) := process_data df seed window in
  let! _ := logger_info Signals_generated in
  py_ret (version, seed, rows_processed, signal_rate).

(** The world after the records [l] were logged. *)
Definition log_world (w : World) (l : list log_record) : World :=
  mkWorld (files w) (stdout w ++ (LogLine <$> l)) (log_file w ++ l) (np_seed w).

(** The run finds a configuration that parses to a mapping with the three
    keys, holding [seed], [window] and [version]. *)
Definition config_read (yaml_safe_load : string -> result pyval) (args : Args)
    (w : World) (seed window version : pyval) : Prop :=
  exists (ctext : string) (items : list (string * pyval)),
    files w !! arg_config args = Some ctext /\
    yaml_safe_load ctext = Ok (PDict items) /\
    dict_get items "seed" = Some seed /\
    dict_get items "window" = Some window /\
    dict_get items "version" = Some version.

(** The run finds an input file that parses to the table [df]. *)
Definition table_read (read_csv : string -> result DataFrame) (args : Args)
    (w : World) (df : DataFrame) : Prop :=
  exists dtext : string,
    files w !! arg_input args = Some dtext /\ read_csv dtext = Ok df.

(** The outcome of a run that failed with [e]: exit status 1, and the error
    record of [e] written to the output path and printed last. *)
Definition fails_with (json_dumps : pyval -> string) (args : Args)
    (outcome : Z * World) (e : exn) : Prop :=
  outcome.1 = 1%Z /\
  files outcome.2 !! arg_output args = Some (json_dumps (error_metrics e)) /\
  last (stdout outcome.2) = Some (Printed (json_dumps (error_metrics e))).

(** A window [rolling] accepts as a fixed window ([mean] then refuses those
    from [2 ** 63] on, on a numeric column with rows). *)
Definition window_ok (window : pyval) : bool :=
  match window with
  | PInt z => (0 <=? z)%Z
  | _ => false
  end.

(* ------------------------------------------------------------------ *)
(** ** A small instance of the library parameters

    Stand-ins for the three library functions, enough to run the pipeline
    on the documents of the specification's scenario. *)

Definition nl : string := String (Ascii.ascii_of_nat 10) "".
Definition dquote : string := String (Ascii.ascii_of_nat 34) "".

Fixpoint unlines (l : list string) : string :=
  match l with
  | [] => ""
  | x :: rest => x +:+ nl +:+ unlines rest
  end.

Definition scenario_yaml : string := "{seed: 42, window: 3, version: v1}".
Definition scenario_csv : string := unlines ["close"; "1"; "2"; "3"; "2"; "5"].

Definition scenario_config : pyval :=
  PDict [("seed", PInt 42); ("window", PInt 3); ("version", PStr "v1")].
Definition scenario_df : DataFrame :=
  mkDataFrame 5 [("close", NumCol (map Q2c [1; 2; 3; 2; 5]%Z))].

(** A parser that knows the documents of a table and rejects the rest. *)
Definition table_parser {A} (tbl : list (string * A)) (text : string) : result A :=
  match list_find (fun kv => String.eqb kv.1 text = true) tbl with
  | Some (_, (_, a)) => Ok a
  | None => Raise (Exn (LibraryError "ParserError") "unknown document")
  end.

(** A configuration without [window], and a table with headers only. *)
Definition incomplete_yaml : string := "{seed: 42, version: v1}".
Definition incomplete_items : list (string * pyval) :=
  [("seed", PInt 42); ("version", PStr "v1")].
Definition headers_only_csv : string := unlines ["close"].
Definition headers_only_df : DataFrame := mkDataFrame 0 [("close", ObjCol [])].

Definition toy_yaml : string -> result pyval :=
  table_parser [(scenario_yaml, scenario_config);
                (incomplete_yaml, PDict incomplete_items)].

Definition toy_csv : string -> result DataFrame :=
  table_parser [(scenario_csv, scenario_df);
                (headers_only_csv, headers_only_df)].

(** A one-line JSON writer (rationals are written as fractions). *)
Fixpoint toy_dumps (v : pyval) : string :=
  match v with
  | PNone => "null"
  | PBool b => if b then "true" else "false"
  | PInt z => pretty z
  | PFloat None => "NaN"
  | PFloat (Some q) => pretty (Qnum q) +:+ "/" +:+ pretty (Zpos (Qden q))
  | PStr s => dquote +:+ s +:+ dquote
  | PDict items =>
      "{" +:+
      (fix members (l : list (string * pyval)) : string :=
         match l with
         | [] => ""
         | (k, x) :: rest =>
             dquote +:+ k +:+ dquote +:+ ": " +:+ toy_dumps x +:+
             match rest with [] => "" | _ => ", " +:+ members rest end
         end) items +:+ "}"
  end.

Definition scenario_args : Args :=
  mkArgs "data.csv" "config.yaml" "metrics.json" "run.log".

Definition scenario_world : World :=
  mkWorld {[ "config.yaml" := scenario_yaml; "data.csv" := scenario_csv ]} [] [] None.

(** Tables for the further properties: one with a missing close value,
    the scenario's prices rescaled to [2 * x + 10], one that falls and one
    that rises. *)
Definition gap_df : DataFrame :=
  mkDataFrame 5 [("close", NumCol [Some 1%Q; None; Some 3%Q; Some 2%Q; Some 5%Q])].
Definition rescaled_df : DataFrame :=
  mkDataFrame 5 [("close", NumCol (cell_affine 2 10 <$> map Q2c [1; 2; 3; 2; 5]%Z))].
Definition falling_prices : list Q := [5%Q; 3%Q; 3%Q; 1%Q].
Definition falling_df : DataFrame :=
  mkDataFrame 4 [("close", NumCol (Some <$> falling_prices))].
Definition rising_prices : list Q := [1%Q; 2%Q; 4%Q; 7%Q].
Definition rising_df : DataFrame :=
  mkDataFrame 4 [("close", NumCol (Some <$> rising_prices))].

(** More documents for the further properties, and parsers that know them
    beside the scenario's. *)
Definition disk (config_text csv_text : string) : World :=
  mkWorld {[ "config.yaml" := config_text; "data.csv" := csv_text ]} [] [] None.

Definition negative_seed_yaml : string := "{seed: -1, window: 3, version: v1}".
Definition text_window_yaml : string := "{seed: 42, window: wide, version: v1}".
Definition huge_window_yaml : string :=
  "{seed: 42, window: 9223372036854775808, version: v1}".
Definition annotated_yaml : string := "{seed: 42, window: 3, version: v1, note: x}".
Definition words_yaml : string := "seed window version".
Definition text_close_csv : string := unlines ["close"; "high"; "low"].
Definition no_close_csv : string := unlines ["open"; "1"; "2"].
Definition broken_csv : string := unlines ["close,open"; "1"; "2,3,4"].

Definition demo_yaml : string -> result pyval :=
  table_parser
    [(scenario_yaml, scenario_config);
     (incomplete_yaml, PDict incomplete_items);
     (negative_seed_yaml,
      PDict [("seed", PInt (-1)); ("window", PInt 3); ("version", PStr "v1")]);
     (text_window_yaml,
      PDict [("seed", PInt 42); ("window", PStr "wide"); ("version", PStr "v1")]);
     (huge_window_yaml,
      PDict [("seed", PInt 42); ("window", PInt (2 ^ 63)); ("version", PStr "v1")]);
     (annotated_yaml,
      PDict [("seed", PInt 42); ("window", PInt 3); ("version", PStr "v1");
             ("note", PStr "x")]);
     (words_yaml, PStr "seed window version");
     ("", PNone)].

Definition demo_csv : string -> result DataFrame :=
  table_parser
    [(scenario_csv, scenario_df);
     (headers_only_csv, headers_only_df);
     (text_close_csv, mkDataFrame 2 [("close", ObjCol ["high"; "low"])]);
     (no_close_csv, mkDataFrame 2 [("open", NumCol [Some 1%Q; Some 2%Q])])].

(** A disk with the incomplete configuration and the table without rows. *)
Definition headers_only_world : World :=
  mkWorld {[ "config.yaml" := incomplete_yaml; "data.csv" := headers_only_csv ]}
          [] [] None.

(** The scenario's disk without the input table. *)
Definition no_input_world : World :=
  mkWorld {[ "config.yaml" := scenario_yaml ]} [] [] None.

(* ================================================================== *)
(** * Properties *)

(* ------------------------------------------------------------------ *)
(** ** Rolling windows *)

Lemma length_roll_mean (w : nat) (xs : list cell) :
  length (roll_mean w xs) = length xs.
Proof. unfold roll_mean. apply length_imap. Qed.

Lemma roll_mean_lookup (w : nat) (xs : list cell) (i : nat) (c : cell) :
  xs !! i = Some c ->
  roll_mean w xs !! i = Some (mean_obs w (window_at w xs i)).
Proof.
  intros Hi. unfold roll_mean. rewrite list_lookup_imap, Hi. reflexivity.
Qed.

Lemma length_signal_series (w : nat) (xs : list cell) :
  length (signal_series w xs) = length xs.
Proof.
  unfold signal_series, gt_astype_int.
  rewrite length_zip_with, length_roll_mean. lia.
Qed.

Lemma signal_series_lookup (w : nat) (xs : list cell) (i : nat) (c : cell) :
  xs !! i = Some c ->
  signal_series w xs !! i =
    Some (if cell_gt c (mean_obs w (window_at w xs i)) then 1%Z else 0%Z).
Proof.
  intros Hi. unfold signal_series, gt_astype_int.
  rewrite lookup_zip_with, Hi. simpl.
  rewrite (roll_mean_lookup w xs i c Hi). reflexivity.
Qed.

Lemma length_window_at {A} (w : nat) (xs : list A) (i : nat) :
  (i < length xs)%nat -> length (window_at w xs i) = Nat.min (S i) w.
Proof.
  intros Hi. unfold window_at. rewrite length_drop, length_take. lia.
Qed.

Lemma length_observations (win : list cell) :
  (length (observations win) <= length win)%nat.
Proof.
  induction win as [|[x|] win IH]; simpl; lia.
Qed.

Lemma mean_obs_short (w : nat) (win : list cell) :
  (length win < w)%nat -> mean_obs w win = None.
Proof.
  intros Hlen. unfold mean_obs. cbv zeta.
  pose proof (length_observations win) as Hobs.
  destruct (Nat.leb_spec w (length (observations win))) as [Hle|Hlt]; [lia|].
  reflexivity.
Qed.

(** Rows before the window is full have no rolling mean. *)
Lemma mean_obs_warm_up (w : nat) (xs : list cell) (i : nat) :
  (i < length xs)%nat -> (S i < w)%nat -> mean_obs w (window_at w xs i) = None.
Proof.
  intros Hi Hw. apply mean_obs_short. rewrite length_window_at by exact Hi. lia.
Qed.

(** The total the specification takes over rows [lo .. lo + n - 1] is the
    sum of the observations of the code's window, when the window is full of
    numbers, and undefined otherwise. *)
Lemma rows_total_take (xs : list cell) (lo n : nat) :
  (lo + n <= length xs)%nat ->
  rows_total xs lo n =
    if decide (length (observations (take n (drop lo xs))) = n)
    then Some (Qsum (observations (take n (drop lo xs)))) else None.
Proof.
  revert lo. induction n as [|n IH]; intros lo Hlen.
  - rewrite take_0. reflexivity.
  - destruct (lookup_lt_is_Some_2 xs lo) as [c Hc]; [lia|].
    rewrite (drop_S xs c lo Hc). cbn [rows_total take].
    rewrite Hc, IH by lia.
    pose proof (length_observations (take n (drop (S lo) xs))) as Hobs.
    pose proof (length_take_le (drop (S lo) xs) n) as Htake.
    destruct c as [x|].
    + change (observations (Some x :: take n (drop (S lo) xs)))
        with (x :: observations (take n (drop (S lo) xs))).
      cbn [length].
      destruct (decide (length (observations (take n (drop (S lo) xs))) = n)) as [E|E];
        destruct (decide (S (length (observations (take n (drop (S lo) xs)))) = S n))
          as [E'|E']; try reflexivity; lia.
    + change (observations (None :: take n (drop (S lo) xs)))
        with (observations (take n (drop (S lo) xs))).
      destruct (decide (length (observations (take n (drop (S lo) xs))) = S n)) as [E|E].
      * rewrite length_drop in Htake. lia.
      * destruct (decide (length (observations (take n (drop (S lo) xs))) = n));
          reflexivity.
Qed.

(** The rolling mean of the code is the one the specification words. *)
Lemma spec_rolling_mean_correct (w : nat) (xs : list cell) (i : nat) :
  (0 < w)%nat -> (i < length xs)%nat ->
  mean_obs w (window_at w xs i) = spec_rolling_mean w xs i.
Proof.
  intros Hw Hi. unfold spec_rolling_mean.
  destruct (Nat.ltb_spec (S i) w) as [Hlt|Hge].
  - apply mean_obs_warm_up; assumption.
  - rewrite rows_total_take by lia.
    rewrite take_drop_commute.
    replace (S i - w + w)%nat with (S i) by lia.
    fold (window_at w xs i).
    pose proof (length_window_at w xs i Hi) as Hlen.
    pose proof (length_observations (window_at w xs i)) as Hobs.
    unfold mean_obs. cbv zeta.
    destruct (decide (length (observations (window_at w xs i)) = w)) as [E|E].
    + rewrite E, Nat.leb_refl.
      destruct (Nat.ltb_spec 0 w) as [_|?]; [|lia].
      reflexivity.
    + destruct (Nat.leb_spec w (length (observations (window_at w xs i))))
        as [Hle|Hgt]; [lia|]. reflexivity.
Qed.

(** The signal of the code is the one the specification words. *)
Lemma spec_signal_correct (w : nat) (xs : list cell) (i : nat) (c : cell) :
  (0 < w)%nat -> xs !! i = Some c ->
  (if cell_gt c (mean_obs w (window_at w xs i)) then 1%Z else 0%Z) = spec_signal w xs i.
Proof.
  intros Hw Hc.
  assert (Hi : (i < length xs)%nat) by (eapply lookup_lt_Some; exact Hc).
  unfold spec_signal. rewrite Hc, spec_rolling_mean_correct by assumption.
  destruct c as [x|]; [|reflexivity].
  destruct (spec_rolling_mean w xs i) as [m|]; [|reflexivity].
  unfold cell_gt, Qlt_bool.
  destruct (Qlt_le_dec m x) as [Hlt|Hle].
  - destruct (Qle_bool x m) eqn:E; [|reflexivity].
    apply Qle_bool_iff in E. exfalso. exact (Qlt_not_le _ _ Hlt E).
  - apply Qle_bool_iff in Hle. rewrite Hle. reflexivity.
Qed.

Lemma observations_numbers (qs : list Q) : observations (Some <$> qs) = qs.
Proof.
  induction qs as [|q qs IH]; [reflexivity|].
  rewrite fmap_cons. change (observations (Some q :: (Some <$> qs)))
    with (q :: observations (Some <$> qs)). rewrite IH. reflexivity.
Qed.

(** On a column without NaN, from row [w - 1] on, the rolling mean is the
    arithmetic mean of the [w] close values that end at the row. *)
Lemma mean_obs_numbers (w : nat) (qs : list Q) (i : nat) :
  (0 < w)%nat -> (w <= S i)%nat -> (i < length qs)%nat ->
  mean_obs w (window_at w (Some <$> qs) i) = Some (arithmetic_mean (window_at w qs i)) /\
  length (window_at w qs i) = w.
Proof.
  intros Hw Hfull Hi.
  assert (Hlen : length (window_at w qs i) = w)
    by (rewrite length_window_at by exact Hi; lia).
  split; [|exact Hlen].
  unfold window_at at 1. rewrite <- fmap_take, <- fmap_drop.
  fold (window_at w qs i).
  unfold mean_obs. cbv zeta. rewrite observations_numbers, Hlen.
  rewrite Nat.leb_refl.
  destruct (Nat.ltb_spec 0 w) as [_|?]; [|lia].
  unfold arithmetic_mean. rewrite Hlen. reflexivity.
Qed.

(* ------------------------------------------------------------------ *)
(** ** The signal series and its mean *)

Lemma cell_gt_spec (c m : cell) :
  cell_gt c m = true <-> exists x y, c = Some x /\ m = Some y /\ (y < x)%Q.
Proof.
  unfold cell_gt, Qlt_bool. split.
  - destruct c as [x|], m as [y|]; try discriminate.
    intros H. exists x, y. repeat split.
    apply Qnot_le_lt. intros Hle. apply Qle_bool_iff in Hle.
    rewrite Hle in H. discriminate.
  - intros (x & y & -> & -> & Hlt).
    destruct (Qle_bool x y) eqn:E; [|reflexivity].
    apply Qle_bool_iff in E. exfalso. exact (Qlt_not_le _ _ Hlt E).
Qed.

Lemma gt_astype_int_binary (close rolling : list cell) :
  Forall binary (gt_astype_int close rolling).
Proof.
  unfold gt_astype_int. revert rolling.
  induction close as [|c close IH]; intros [|m rolling]; simpl; try constructor.
  - unfold binary. destruct (cell_gt c m); auto.
  - apply IH.
Qed.

Lemma Zsum_binary (l : list Z) :
  Forall binary l ->
  Zsum l = Z.of_nat (length (filter (fun s => s = 1%Z) l)) /\
  (0 <= Zsum l <= Z.of_nat (length l))%Z.
Proof.
  induction 1 as [|s l Hs _ [IH1 IH2]]; simpl.
  - split; [reflexivity | lia].
  - rewrite filter_cons. destruct Hs as [-> | ->]; simpl.
    + destruct (decide (0 = 1)%Z) as [?|_]; [lia|]. split; lia.
    + destruct (decide (1 = 1)%Z) as [_|?]; [|lia]. simpl length. split; lia.
Qed.

(** The mean of a non-empty 0/1 series is a number between 0 and 1. *)
Lemma series_mean_binary (l : list Z) :
  l <> [] -> Forall binary l ->
  exists r, series_mean l = Some r /\
            r = (inject_Z (Zsum l) / inject_Z (Z.of_nat (length l)))%Q /\
            (0 <= r)%Q /\ (r <= 1)%Q.
Proof.
  intros Hne Hbin. destruct (Zsum_binary l Hbin) as [_ [Hlo Hhi]].
  destruct l as [|s l]; [congruence|].
  eexists. split; [reflexivity|]. split; [reflexivity|].
  assert (Hpos : (0 < inject_Z (Z.of_nat (length (s :: l))))%Q).
  { rewrite <- (Zlt_Qlt 0). simpl length. lia. }
  split.
  - apply Qle_shift_div_l; [exact Hpos|].
    rewrite Qmult_0_l. rewrite <- (Zle_Qle 0). exact Hlo.
  - apply Qle_shift_div_r; [exact Hpos|].
    rewrite Qmult_1_l. rewrite <- Zle_Qle. exact Hhi.
Qed.

Lemma window_at_one (xs : list cell) (i : nat) (c : cell) :
  xs !! i = Some c -> window_at 1 xs i = [c].
Proof.
  intros Hi. unfold window_at.
  replace (S i - 1)%nat with i by lia.
  replace (S i) with (i + 1)%nat by lia.
  rewrite <- take_drop_commute.
  rewrite (drop_S xs c i Hi). reflexivity.
Qed.

(** With a window of one row the rolling mean is the row itself. *)
Lemma mean_obs_one (c : cell) : cell_eq (mean_obs 1 [c]) c.
Proof.
  destruct c as [x|]; simpl; [|exact I].
  unfold Qsum. simpl. field.
Qed.

Lemma cell_gt_eq (c m : cell) : cell_eq m c -> cell_gt c m = false.
Proof.
  intros Heq. destruct (cell_gt c m) eqn:E; [|reflexivity].
  apply cell_gt_spec in E. destruct E as (x & y & -> & -> & Hlt).
  simpl in Heq. rewrite Heq in Hlt. exfalso. exact (Qlt_irrefl _ Hlt).
Qed.

(* ------------------------------------------------------------------ *)
(** ** Stages: what a run reads and what it leaves untouched *)

Section Stages.

Variable args : Args.

Lemma same_inputs_files (w1 w2 w1' w2' : World) :
  files w1' = files w1 -> files w2' = files w2 ->
  same_inputs args w1 w2 -> same_inputs args w1' w2'.
Proof. unfold same_inputs. intros -> ->. tauto. Qed.

Lemma stage_ret {A} (a : A) : stage args (py_ret a).
Proof. split; [split|]; reflexivity. Qed.

Lemma stage_raise {A} (e : exn) : stage args (@py_raise A e).
Proof. split; [split|]; reflexivity. Qed.

Lemma stage_lift {A} (r : result A) : stage args (py_lift r).
Proof. split; [split|]; reflexivity. Qed.

Lemma stage_bind {A B} (m : Py A) (k : A -> Py B) :
  stage args m -> (forall a, stage args (k a)) -> stage args (py_bind m k).
Proof.
  intros [Hm1 Hm2] Hk. split.
  - intros w. unfold py_bind. specialize (Hm1 w).
    destruct (m w) as [[a|e] w'] eqn:E; simpl in *.
    + destruct (Hk a) as [Hk1 _]. specialize (Hk1 w').
      destruct Hm1 as [<- <-]. exact Hk1.
    + exact Hm1.
  - intros w1 w2 Hw. unfold py_bind.
    pose proof (Hm2 w1 w2 Hw) as Hres.
    pose proof (Hm1 w1) as [Hf1 _]. pose proof (Hm1 w2) as [Hf2 _].
    destruct (m w1) as [[a1|e1] w1'], (m w2) as [[a2|e2] w2']; simpl in *;
      try discriminate.
    + injection Hres as ->. destruct (Hk a2) as [_ Hk2].
      apply Hk2. exact (same_inputs_files _ _ _ _ Hf1 Hf2 Hw).
    + injection Hres as ->. reflexivity.
Qed.

Lemma stage_if {A} (b : bool) (m1 m2 : Py A) :
  stage args m1 -> stage args m2 -> stage args (if b then m1 else m2).
Proof. destruct b; auto. Qed.

Lemma stage_for {A} (l : list A) (body : A -> Py unit) :
  (forall a, stage args (body a)) -> stage args (py_for l body).
Proof.
  intros Hbody. induction l as [|a l IH]; simpl.
  - apply stage_ret.
  - apply stage_bind; [apply Hbody | intros _; exact IH].
Qed.

Lemma stage_logger_info (m : log_msg) : stage args (logger_info m).
Proof.
  split; [split|]; try reflexivity. simpl.
  unfold error_records. rewrite filter_app, filter_cons. simpl.
  destruct (decide (INFO = ERROR)) as [?|_]; [discriminate|].
  rewrite filter_nil, app_nil_r. reflexivity.
Qed.

Lemma stage_np_random_seed (seed : pyval) : stage args (np_random_seed seed).
Proof.
  split; [split|].
  - unfold np_random_seed. destruct seed as [| [|] |z| | |]; simpl;
      try reflexivity;
      destruct ((z <? 0)%Z || (2 ^ 32 - 1 <? z)%Z); reflexivity.
  - unfold np_random_seed. destruct seed as [| [|] |z| | |]; simpl;
      try reflexivity;
      destruct ((z <? 0)%Z || (2 ^ 32 - 1 <? z)%Z); reflexivity.
  - intros w1 w2 _. unfold np_random_seed. destruct seed as [| [|] |z| | |]; simpl;
      try reflexivity;
      destruct ((z <? 0)%Z || (2 ^ 32 - 1 <? z)%Z); reflexivity.
Qed.

Lemma same_inputs_lookup (p : string) (w1 w2 : World) :
  input_path args p -> same_inputs args w1 w2 -> files w1 !! p = files w2 !! p.
Proof. intros [-> | ->] [H1 H2]; assumption. Qed.

Lemma stage_os_path_exists (p : string) :
  input_path args p -> stage args (os_path_exists p).
Proof.
  intros Hp. split; [split; reflexivity|].
  intros w1 w2 Hw. unfold os_path_exists. simpl.
  rewrite (same_inputs_lookup p w1 w2 Hp Hw). reflexivity.
Qed.

Lemma stage_read_file (p : string) :
  input_path args p -> stage args (read_file p).
Proof.
  intros Hp. split.
  - intros w. unfold read_file. destruct (files w !! p); split; reflexivity.
  - intros w1 w2 Hw. unfold read_file.
    rewrite (same_inputs_lookup p w1 w2 Hp Hw).
    destruct (files w2 !! p); reflexivity.
Qed.

End Stages.

Create HintDb stage discriminated.
#[export] Hint Resolve stage_ret stage_raise stage_lift stage_logger_info
  stage_np_random_seed stage_os_path_exists stage_read_file : stage.

Ltac stage_tac :=
  repeat first
    [ solve [eauto with stage]
    | apply stage_bind; [| intros ?]
    | apply stage_if
    | apply stage_for; intros ?
    | match goal with
      | |- stage _ (match ?x with _ => _ end) => destruct x
      | |- stage _ (let (_, _) := ?x in _) => destruct x
      end ].

Section PipelineStages.

Variable yaml_safe_load : string -> result pyval.
Variable read_csv : string -> result DataFrame.
Variable args : Args.

Lemma stage_load_config :
  stage args (load_config yaml_safe_load (arg_config args)).
Proof.
  assert (input_path args (arg_config args)) by (left; reflexivity).
  unfold load_config. stage_tac.
Qed.

Lemma stage_load_data :
  stage args (load_data read_csv (arg_input args)).
Proof.
  assert (input_path args (arg_input args)) by (right; reflexivity).
  unfold load_data. stage_tac.
Qed.

Lemma stage_process_data (df : DataFrame) (seed window : pyval) :
  stage args (process_data df seed window).
Proof. unfold process_data. stage_tac. Qed.

Lemma stage_main_pipeline :
  stage args (main_pipeline yaml_safe_load read_csv args).
Proof.
  pose proof stage_load_config. pose proof stage_load_data.
  pose proof stage_process_data.
  unfold main_pipeline. stage_tac.
Qed.

End PipelineStages.

(* ------------------------------------------------------------------ *)
(** ** The loaders and the processor, stage by stage *)

Lemma np_random_seed_ok (seed : pyval) (w : World) :
  seed_ok seed = true ->
  np_random_seed seed w = (Ok tt, set_np_seed w (seed_state seed)).
Proof.
  unfold np_random_seed, set_np_seed.
  destruct seed as [| [|] |z| | |]; simpl; try discriminate; try reflexivity.
  intros H. apply andb_true_iff in H. destruct H as [H1 H2].
  apply Z.leb_le in H1. apply Z.leb_le in H2.
  destruct (Z.ltb_spec z 0) as [?|_]; [lia|].
  destruct (Z.ltb_spec (2 ^ 32 - 1) z) as [?|_]; [lia|]. reflexivity.
Qed.

Lemma np_random_seed_bad (seed : pyval) (w : World) :
  seed_ok seed = false -> exists e, np_random_seed seed w = (Raise e, w).
Proof.
  unfold np_random_seed.
  destruct seed as [| [|] |z| | |]; simpl; try discriminate;
    try (intros _; eexists; reflexivity).
  intros H. apply andb_false_iff in H.
  destruct (Z.ltb_spec z 0) as [?|Hz]; simpl; [eexists; reflexivity|].
  destruct (Z.ltb_spec (2 ^ 32 - 1) z) as [?|Hz']; [eexists; reflexivity|].
  destruct H as [H|H]; [apply Z.leb_gt in H | apply Z.leb_gt in H]; lia.
Qed.

Section Loaders.

Variable yaml_safe_load : string -> result pyval.
Variable read_csv : string -> result DataFrame.

Lemma load_config_missing (p : string) (w : World) :
  files w !! p = None ->
  load_config yaml_safe_load p w =
    (Raise (Exn FileNotFoundError ("Config file not found: " +:+ p)), w).
Proof.
  intros Hp. unfold load_config, py_bind, os_path_exists. rewrite Hp.
  reflexivity.
Qed.

Lemma load_config_unparsed (p text : string) (e : exn) (w : World) :
  files w !! p = Some text -> yaml_safe_load text = Raise e ->
  load_config yaml_safe_load p w = (Raise e, w).
Proof.
  intros Hp He. unfold load_config, py_bind, os_path_exists, read_file, py_lift.
  rewrite Hp. simpl. rewrite Hp, He. reflexivity.
Qed.

Lemma load_config_dict (p text : string) (items : list (string * pyval)) (w : World) :
  files w !! p = Some text -> yaml_safe_load text = Ok (PDict items) ->
  load_config yaml_safe_load p w =
    (match missing_keys items with
     | [] => Ok (PDict items)
     | key :: _ => Raise (Exn ValueError ("Missing required config key: " +:+ key))
     end, w).
Proof.
  intros Hp Hdoc.
  unfold load_config, py_bind, os_path_exists, read_file, py_lift.
  rewrite Hp. simpl. rewrite Hp, Hdoc.
  unfold missing_keys, required_keys. rewrite !filter_cons, filter_nil.
  unfold py_for, py_bind, py_contains, py_ret, py_raise.
  destruct (dict_get items "seed") as [v1|];
    destruct (dict_get items "window") as [v2|];
    destruct (dict_get items "version") as [v3|]; reflexivity.
Qed.

Lemma load_data_missing (p : string) (w : World) :
  files w !! p = None ->
  load_data read_csv p w =
    (Raise (Exn FileNotFoundError ("Input file not found: " +:+ p)), w).
Proof.
  intros Hp. unfold load_data, py_bind, os_path_exists. rewrite Hp.
  reflexivity.
Qed.

Lemma load_data_parsed (p text : string) (df : DataFrame) (w : World) :
  files w !! p = Some text -> read_csv text = Ok df ->
  load_data read_csv p w =
    (if df_empty df then Raise (Exn ValueError "Input CSV is empty")
     else if df_has_column df "close" then Ok df
          else Raise (Exn ValueError "Required 'close' column missing"), w).
Proof.
  intros Hp Hdoc.
  unfold load_data, py_bind, os_path_exists, read_file, py_lift.
  rewrite Hp. simpl. rewrite Hp, Hdoc.
  destruct (df_empty df); [reflexivity|].
  destruct (df_has_column df "close"); reflexivity.
Qed.

(** The loaders change nothing. *)
Lemma load_config_world (p : string) (w : World) :
  (load_config yaml_safe_load p w).2 = w.
Proof.
  destruct (files w !! p) as [text|] eqn:Hp.
  - destruct (yaml_safe_load text) as [cfg|e] eqn:Hdoc.
    + unfold load_config, py_bind, os_path_exists, read_file, py_lift.
      rewrite Hp. simpl. rewrite Hp, Hdoc.
      unfold required_keys, py_for, py_bind, py_ret, py_raise.
      destruct (py_contains "seed" cfg) as [[|]|]; simpl; try reflexivity.
      destruct (py_contains "window" cfg) as [[|]|]; simpl; try reflexivity.
      destruct (py_contains "version" cfg) as [[|]|]; reflexivity.
    + rewrite (load_config_unparsed p text e w Hp Hdoc). reflexivity.
  - rewrite (load_config_missing p w Hp). reflexivity.
Qed.

Lemma load_data_world (p : string) (w : World) :
  (load_data read_csv p w).2 = w.
Proof.
  destruct (files w !! p) as [text|] eqn:Hp.
  - destruct (read_csv text) as [df|e] eqn:Hdoc.
    + rewrite (load_data_parsed p text df w Hp Hdoc). reflexivity.
    + unfold load_data, py_bind, os_path_exists, read_file, py_lift.
      rewrite Hp. simpl. rewrite Hp, Hdoc. reflexivity.
  - rewrite (load_data_missing p w Hp). reflexivity.
Qed.

End Loaders.

(** On a table with rows and a numeric close column, an accepted seed and an
    integer window from 0 to [2 ** 63 - 1], the processor returns: the row
    count, the mean of the signal series, and the series. *)
Lemma process_data_numeric (df : DataFrame) (seed : pyval) (z : Z)
    (vals : list cell) (w : World) :
  seed_ok seed = true ->
  df_len df <> 0%nat ->
  columns_get (df_columns df) "close" = Some (NumCol vals) ->
  (0 <= z < 2 ^ 63)%Z ->
  process_data df seed (PInt z) w =
    (Ok (df_len df,
         series_mean (signal_series (Z.to_nat z) vals),
         signal_series (Z.to_nat z) vals),
     set_np_seed w (seed_state seed)).
Proof.
  intros Hseed Hrows Hclose Hz. unfold process_data, py_bind.
  rewrite (np_random_seed_ok seed w Hseed).
  unfold py_lift, df_getitem. rewrite Hclose.
  unfold series_rolling.
  destruct (Z.ltb_spec z 0) as [?|_]; [lia|].
  unfold rolling_obj_mean. cbn [fst snd sr_len sr_values].
  destruct (Nat.eqb_spec (df_len df) 0) as [?|_]; [contradiction|].
  destruct (Z.leb_spec (2 ^ 63) z) as [?|_]; [lia|].
  reflexivity.
Qed.

(** A window of [2 ** 63] or more overflows the window bounds. *)
Lemma process_data_overflow (df : DataFrame) (seed : pyval) (z : Z)
    (vals : list cell) (w : World) :
  seed_ok seed = true ->
  df_len df <> 0%nat ->
  columns_get (df_columns df) "close" = Some (NumCol vals) ->
  (2 ^ 63 <= z)%Z ->
  exists msg, (process_data df seed (PInt z) w).1 = Raise (Exn OverflowError msg).
Proof.
  intros Hseed Hrows Hclose Hz. unfold process_data, py_bind.
  rewrite (np_random_seed_ok seed w Hseed).
  unfold py_lift, df_getitem. rewrite Hclose.
  unfold series_rolling.
  destruct (Z.ltb_spec z 0) as [?|_]; [lia|].
  unfold rolling_obj_mean. cbn [fst snd sr_len sr_values].
  destruct (Nat.eqb_spec (df_len df) 0) as [?|_]; [contradiction|].
  destruct (Z.leb_spec (2 ^ 63) z) as [_|?]; [|lia].
  eexists. reflexivity.
Qed.

(** What the processor has done when it returns for an integer window: it
    has taken the seed, and the signal series is empty on a table without
    rows and is the signal series of a numeric close column otherwise. *)
Lemma process_data_returns (df : DataFrame) (seed : pyval) (z : Z) (w w' : World)
    (rows : nat) (rate : cell) (signals : list Z) :
  process_data df seed (PInt z) w = (Ok (rows, rate, signals), w') ->
  rows = df_len df /\ rate = series_mean signals /\
  ((df_len df = 0%nat /\ signals = []) \/
   (df_len df <> 0%nat /\ (0 <= z < 2 ^ 63)%Z /\
    exists vals : list cell,
      columns_get (df_columns df) "close" = Some (NumCol vals) /\
      signals = signal_series (Z.to_nat z) vals)).
Proof.
  unfold process_data, py_bind.
  destruct (np_random_seed seed w) as [[[]|e] w1]; [|discriminate].
  unfold py_lift, df_getitem.
  destruct (columns_get (df_columns df) "close") as [c|]; [|discriminate].
  unfold series_rolling.
  destruct (Z.ltb_spec z 0) as [?|Hz0]; [discriminate|].
  unfold rolling_obj_mean. cbn [fst snd sr_len sr_values].
  destruct (Nat.eqb_spec (df_len df) 0) as [Hrows|Hrows].
  - unfold py_ret. intros [= <- <- <- _].
    assert (Hnil : match c with
                   | NumCol vals => gt_astype_int vals []
                   | ObjCol _ => []
                   end = []).
    { destruct c as [vals|texts]; [|reflexivity].
      unfold gt_astype_int. destruct vals; reflexivity. }
    rewrite Hnil. split; [reflexivity|]. split; [reflexivity|].
    left. split; [exact Hrows | reflexivity].
  - destruct c as [vals|texts]; [|discriminate].
    destruct (Z.leb_spec (2 ^ 63) z) as [?|Hz63]; [discriminate|].
    unfold py_ret. intros [= <- <- <- _].
    split; [reflexivity|]. split; [reflexivity|].
    right. split; [exact Hrows|]. split; [lia|].
    exists vals. split; reflexivity.
Qed.

(* ------------------------------------------------------------------ *)
(** ** The run reporter *)

Section Reporter.

Variable yaml_safe_load : string -> result pyval.
Variable read_csv : string -> result DataFrame.
Variable json_dumps : pyval -> string.
Variable args : Args.

Abbreviation pipeline := (main_pipeline yaml_safe_load read_csv args).
Abbreviation try_block := (main_try yaml_safe_load read_csv json_dumps args).
Abbreviation run := (main yaml_safe_load read_csv json_dumps args).

(** The report itself never raises. *)
Lemma main_try_raises (t0 t1 : Q) (w w1 : World) (e : exn) :
  try_block t0 t1 w = (Raise e, w1) <-> pipeline w = (Raise e, w1).
Proof.
  unfold main_try, py_bind.
  destruct (pipeline w) as [[[[[version seed] rows] rate]|e'] w'].
  - split; intros H; discriminate H.
  - split; intros H; injection H as -> ->; reflexivity.
Qed.

Lemma main_success (t0 t1 : Q) (w w1 : World)
    (version seed : pyval) (rows : nat) (rate : cell) :
  pipeline w = (Ok (version, seed, rows, rate), w1) ->
  (run t0 t1 w).1 = 0%Z /\
  files (run t0 t1 w).2 =
    <[arg_output args :=
        json_dumps (success_metrics version rows rate
                      (latency_of t0 t1) seed)]> (files w) /\
  last (stdout (run t0 t1 w).2) =
    Some (Printed (json_dumps (success_metrics version rows rate
                                 (latency_of t0 t1) seed))) /\
  error_records (log_file (run t0 t1 w).2) = error_records (log_file w).
Proof.
  intros Hp.
  destruct (stage_main_pipeline yaml_safe_load read_csv args) as [Hkeep _].
  specialize (Hkeep w). rewrite Hp in Hkeep. simpl in Hkeep.
  destruct Hkeep as [Hfiles Hlog].
  unfold main, main_try, py_bind. rewrite Hp. simpl.
  rewrite Hfiles. repeat split.
  - apply last_snoc.
  - unfold error_records in *. rewrite <- !app_assoc, filter_app, Hlog.
    simpl. rewrite app_nil_r. reflexivity.
Qed.

Lemma main_failure (t0 t1 : Q) (w w1 : World) (e : exn) :
  pipeline w = (Raise e, w1) ->
  (run t0 t1 w).1 = 1%Z /\
  files (run t0 t1 w).2 =
    <[arg_output args := json_dumps (error_metrics e)]> (files w) /\
  last (stdout (run t0 t1 w).2) = Some (Printed (json_dumps (error_metrics e))) /\
  error_records (log_file (run t0 t1 w).2) =
    (error_records (log_file w) ++ [LogRecord ERROR (Job_failed (exn_str e))])%list.
Proof.
  intros Hp.
  destruct (stage_main_pipeline yaml_safe_load read_csv args) as [Hkeep _].
  specialize (Hkeep w). rewrite Hp in Hkeep. simpl in Hkeep.
  destruct Hkeep as [Hfiles Hlog].
  unfold main, main_try, py_bind. rewrite Hp. simpl.
  rewrite Hfiles. repeat split.
  - apply last_snoc.
  - unfold error_records in *. rewrite filter_app, Hlog. reflexivity.
Qed.

End Reporter.

(* ------------------------------------------------------------------ *)
(** ** Failures of the stages reach the handler *)

Section Failures.

Variable yaml_safe_load : string -> result pyval.
Variable read_csv : string -> result DataFrame.
Variable args : Args.

Abbreviation pipeline := (main_pipeline yaml_safe_load read_csv args).

(** A failure of the configuration loader is the failure of the pipeline. *)
Lemma pipeline_config_failure (w : World) (e : exn) :
  (load_config yaml_safe_load (arg_config args) w).1 = Raise e ->
  exists w1, pipeline w = (Raise e, w1).
Proof.
  intros Hcfg. unfold main_pipeline, py_bind.
  destruct (logger_info Job_started w) as [[[]|e0] w0] eqn:E0;
    [|discriminate E0].
  assert (Hres : (load_config yaml_safe_load (arg_config args) w0).1 = Raise e).
  { rewrite <- Hcfg.
    apply (stage_load_config yaml_safe_load args).
    apply (same_inputs_files args w w); [|reflexivity|split; reflexivity].
    injection E0 as <-. reflexivity. }
  destruct (load_config yaml_safe_load (arg_config args) w0) as [r w1].
  simpl in Hres. subst r. eexists. reflexivity.
Qed.

(** Without the input file the pipeline cannot succeed. *)
Lemma pipeline_input_missing (w : World) :
  files w !! arg_input args = None ->
  exists e w1, pipeline w = (Raise e, w1).
Proof.
  intros Hin. unfold main_pipeline, py_bind.
  destruct (logger_info Job_started w) as [[[]|e0] w0] eqn:E0;
    [|discriminate E0].
  assert (Hf0 : files w0 = files w) by (injection E0 as <-; reflexivity).
  pose proof (load_config_world yaml_safe_load (arg_config args) w0) as Hw1.
  destruct (load_config yaml_safe_load (arg_config args) w0) as [[cfg|e1] w1];
    [|eauto].
  simpl in Hw1. subst w1. unfold py_lift.
  destruct (py_getitem cfg "seed") as [seed|e2]; [|eauto].
  destruct (py_getitem cfg "window") as [window|e3]; [|eauto].
  destruct (py_getitem cfg "version") as [version|e4]; [|eauto].
  destruct (logger_info (Config_loaded seed window version) w0)
    as [[[]|e5] w2] eqn:E2; [|discriminate E2].
  assert (Hf2 : files w2 = files w0) by (injection E2 as <-; reflexivity).
  destruct (stage_np_random_seed args seed) as [Hseed _].
  specialize (Hseed w2).
  destruct (np_random_seed seed w2) as [[[]|e6] w3]; [|eauto].
  simpl in Hseed. destruct Hseed as [Hf3 _].
  rewrite (load_data_missing read_csv (arg_input args) w3)
    by (rewrite Hf3, Hf2, Hf0; exact Hin).
  eauto.
Qed.

End Failures.

(* ------------------------------------------------------------------ *)
(** ** A valid run *)

Lemma missing_keys_nil (items : list (string * pyval)) (seed window version : pyval) :
  dict_get items "seed" = Some seed ->
  dict_get items "window" = Some window ->
  dict_get items "version" = Some version ->
  missing_keys items = [].
Proof.
  intros H1 H2 H3. unfold missing_keys, required_keys.
  rewrite !filter_cons, filter_nil, H1, H2, H3.
  reflexivity.
Qed.

Lemma df_has_close (df : DataFrame) (c : column) :
  columns_get (df_columns df) "close" = Some c -> df_has_column df "close" = true.
Proof. intros H. unfold df_has_column. rewrite H. reflexivity. Qed.

Lemma df_empty_rows (df : DataFrame) : df_empty df = false -> df_len df <> 0%nat.
Proof.
  unfold df_empty. intros H E. rewrite E in H. discriminate H.
Qed.

Section ValidRun.

Variable yaml_safe_load : string -> result pyval.
Variable read_csv : string -> result DataFrame.
Variable args : Args.

(** A mapping with the three keys, an accepted seed, an integer window from
    0 to [2 ** 63 - 1], and a table with rows and a numeric close column: the
    pipeline hands the report its four values. *)
Lemma pipeline_valid (w : World) (ctext dtext : string)
    (items : list (string * pyval)) (seed version : pyval) (z : Z)
    (df : DataFrame) (vals : list cell) :
  files w !! arg_config args = Some ctext ->
  yaml_safe_load ctext = Ok (PDict items) ->
  dict_get items "seed" = Some seed ->
  dict_get items "window" = Some (PInt z) ->
  dict_get items "version" = Some version ->
  seed_ok seed = true ->
  (0 <= z < 2 ^ 63)%Z ->
  files w !! arg_input args = Some dtext ->
  read_csv dtext = Ok df ->
  df_empty df = false ->
  columns_get (df_columns df) "close" = Some (NumCol vals) ->
  exists w1,
    main_pipeline yaml_safe_load read_csv args w =
      (Ok (version, seed, df_len df,
           series_mean (signal_series (Z.to_nat z) vals)), w1).
Proof.
  intros Hc Hdoc Hseed Hwin Hver Hok Hz Hd Htab Hne Hclose.
  unfold main_pipeline, py_bind.
  destruct (logger_info Job_started w) as [[[]|e0] w0] eqn:E0;
    [|discriminate E0].
  assert (Hf0 : files w0 = files w) by (injection E0 as <-; reflexivity).
  rewrite (load_config_dict yaml_safe_load (arg_config args) ctext items w0)
    by (rewrite ?Hf0; assumption).
  rewrite (missing_keys_nil items seed (PInt z) version) by assumption.
  unfold py_lift, py_getitem. rewrite Hseed, Hwin, Hver.
  destruct (logger_info (Config_loaded seed (PInt z) version) w0)
    as [[[]|e1] w2] eqn:E2; [|discriminate E2].
  assert (Hf2 : files w2 = files w0) by (injection E2 as <-; reflexivity).
  rewrite (np_random_seed_ok seed w2 Hok).
  rewrite (load_data_parsed read_csv (arg_input args) dtext df)
    by (simpl; rewrite ?Hf2, ?Hf0; assumption).
  rewrite Hne, (df_has_close df _ Hclose).
  destruct (logger_info (Data_loaded (df_len df)) (set_np_seed w2 (seed_state seed)))
    as [[[]|e3] w3] eqn:E3; [|discriminate E3].
  destruct (logger_info (Rolling_mean_calculated (PInt z)) w3)
    as [[[]|e4] w4] eqn:E4; [|discriminate E4].
  rewrite (process_data_numeric df seed z vals w4 Hok (df_empty_rows df Hne) Hclose Hz).
  eexists. reflexivity.
Qed.

End ValidRun.

(* ================================================================== *)
(** * The claims of the specification *)

Lemma df_wf_column (df : DataFrame) (name : string) (c : column) :
  df_wf df -> columns_get (df_columns df) name = Some c ->
  column_len c = df_len df.
Proof.
  unfold df_wf. generalize (df_len df) as n. intros n Hwf.
  induction Hwf as [|[k c'] cols Hc _ IH]; simpl; [discriminate|].
  destruct (String.eqb k name); [|exact IH].
  intros [= <-]. exact Hc.
Qed.

Lemma Zsum_replicate_zero (n : nat) : Zsum (replicate n 0%Z) = 0%Z.
Proof. induction n as [|n IH]; simpl; [reflexivity | exact IH]. Qed.

Lemma signal_series_one (vals : list cell) :
  signal_series 1 vals = replicate (length vals) 0%Z.
Proof.
  apply list_eq. intros i.
  destruct (vals !! i) as [c|] eqn:Hi.
  - rewrite (signal_series_lookup 1 vals i c Hi).
    rewrite (window_at_one vals i c Hi).
    rewrite (cell_gt_eq c _ (mean_obs_one c)).
    symmetry. apply lookup_replicate_2. eapply lookup_lt_Some. exact Hi.
  - apply lookup_ge_None in Hi.
    rewrite (lookup_ge_None_2 (signal_series 1 vals))
      by (rewrite length_signal_series; exact Hi).
    symmetry. apply lookup_ge_None_2. rewrite length_replicate. exact Hi.
Qed.

(** C1. The scenario of the specification: seed 42, window 3 and the close
    column [1, 2, 3, 2, 5].  The rolling mean is undefined on rows 0 and 1 and
    is 2, 7/3 and 10/3 on rows 2, 3 and 4; the processor returns 5 rows
    processed, the signal rate 2/5 and the signal series [0, 0, 1, 0, 1]. *)
Theorem scenario_signals_and_rate :
  Forall2 cell_eq (roll_mean 3 (map Q2c [1; 2; 3; 2; 5]%Z))
    [None; None; Some 2%Q; Some (7 # 3)%Q; Some (10 # 3)%Q] /\
  forall w : World,
    process_data scenario_df (PInt 42) (PInt 3) w =
      (Ok (5%nat, Some (2 # 5)%Q, [0; 0; 1; 0; 1]%Z), set_np_seed w (Some 42%Z)).
Proof.
  split.
  - repeat constructor.
  - intros w. reflexivity.
Qed.

(** C2. For every table and every positive window: whenever the processor
    returns a signal series, every row among the first [window - 1] rows has
    signal 0 in it, whatever its close value (the comparison with the
    undefined rolling mean is false, it raises nothing).  And the processor
    does return, with one signal per row, for every accepted seed and every
    numeric close column when the window is below [2 ** 63]; from there on
    pandas refuses the window and there is no signal series. *)
Theorem warm_up_rows_have_signal_zero (df : DataFrame) (seed : pyval) (z : Z)
    (w : World) :
  (0 < z)%Z ->
  (forall (rows : nat) (rate : cell) (signals : list Z) (w' : World) (i : nat),
     process_data df seed (PInt z) w = (Ok (rows, rate, signals), w') ->
     (i < length signals)%nat -> (Z.of_nat i < z - 1)%Z ->
     signals !! i = Some 0%Z) /\
  (forall vals : list cell,
     df_wf df ->
     seed_ok seed = true ->
     columns_get (df_columns df) "close" = Some (NumCol vals) ->
     (z < 2 ^ 63)%Z ->
     exists (rate : cell) (signals : list Z) (w' : World),
       process_data df seed (PInt z) w = (Ok (df_len df, rate, signals), w') /\
       length signals = df_len df).
Proof.
  intros Hz. split.
  - intros rows rate signals w' i Hrun Hi Hwarm.
    destruct (process_data_returns df seed z w w' rows rate signals Hrun)
      as (_ & _ & [[_ ->] | (_ & _ & vals & _ & ->)]).
    + simpl in Hi. lia.
    + rewrite length_signal_series in Hi.
      destruct (lookup_lt_is_Some_2 vals i Hi) as [c Hc].
      rewrite (signal_series_lookup _ vals i c Hc).
      rewrite mean_obs_warm_up by (try exact Hi; lia).
      destruct c; reflexivity.
  - intros vals Hwf Hseed Hclose Hz63.
    pose proof (df_wf_column df "close" _ Hwf Hclose) as Hlen. simpl in Hlen.
    destruct (decide (df_len df = 0%nat)) as [Hrows|Hrows].
    + destruct vals; [|rewrite Hrows in Hlen; discriminate Hlen].
      exists None, [], (set_np_seed w (seed_state seed)).
      split; [|symmetry; exact Hrows].
      unfold process_data, py_bind.
      rewrite (np_random_seed_ok seed w Hseed).
      unfold py_lift, df_getitem. rewrite Hclose. unfold series_rolling.
      destruct (Z.ltb_spec z 0) as [?|_]; [lia|].
      unfold rolling_obj_mean. cbn [fst snd sr_len sr_values].
      rewrite Hrows. reflexivity.
    + eexists _, _, _. split.
      * apply (process_data_numeric df seed z vals w Hseed Hrows Hclose). lia.
      * rewrite length_signal_series. exact Hlen.
Qed.

Lemma warm_up_rows_witness :
  (forall (rows : nat) (rate : cell) (signals : list Z) (w' : World) (i : nat),
     process_data scenario_df (PInt 42) (PInt 3) scenario_world
       = (Ok (rows, rate, signals), w') ->
     (i < length signals)%nat -> (Z.of_nat i < 3 - 1)%Z ->
     signals !! i = Some 0%Z) /\
  (forall vals : list cell,
     df_wf scenario_df ->
     seed_ok (PInt 42) = true ->
     columns_get (df_columns scenario_df) "close" = Some (NumCol vals) ->
     (3 < 2 ^ 63)%Z ->
     exists (rate : cell) (signals : list Z) (w' : World),
       process_data scenario_df (PInt 42) (PInt 3) scenario_world
         = (Ok (df_len scenario_df, rate, signals), w') /\
       length signals = df_len scenario_df).
Proof.
  apply (warm_up_rows_have_signal_zero scenario_df (PInt 42) 3 scenario_world).
  lia.
Defined.

(** C4. For every non-empty table and every positive window: whenever the
    processor returns, the signal rate is a number, the arithmetic mean of
    the 0/1 signal series over all the rows of the table, warm-up rows
    included (the number of rows with signal 1 over the row count), and it
    lies between 0 and 1.  And the processor does return for every accepted
    seed and every numeric close column when the window is below [2 ** 63];
    from there on pandas refuses the window and there is no signal rate. *)
Theorem signal_rate_is_mean_within_unit_interval (df : DataFrame) (seed : pyval)
    (z : Z) (w : World) :
  df_wf df ->
  df_len df <> 0%nat ->
  (0 < z)%Z ->
  (forall (rows : nat) (rate : cell) (signals : list Z) (w' : World),
     process_data df seed (PInt z) w = (Ok (rows, rate, signals), w') ->
     exists r : Q,
       rate = Some r /\
       length signals = df_len df /\
       Forall binary signals /\
       Zsum signals = Z.of_nat (length (filter (fun s => s = 1%Z) signals)) /\
       r = (inject_Z (Zsum signals) / inject_Z (Z.of_nat (df_len df)))%Q /\
       (0 <= r)%Q /\ (r <= 1)%Q) /\
  (forall vals : list cell,
     seed_ok seed = true ->
     columns_get (df_columns df) "close" = Some (NumCol vals) ->
     (z < 2 ^ 63)%Z ->
     exists (r : Q) (signals : list Z) (w' : World),
       process_data df seed (PInt z) w = (Ok (df_len df, Some r, signals), w')).
Proof.
  intros Hwf Hrows Hz.
  assert (Hrate : forall vals : list cell,
             columns_get (df_columns df) "close" = Some (NumCol vals) ->
             exists r : Q,
               series_mean (signal_series (Z.to_nat z) vals) = Some r /\
               length (signal_series (Z.to_nat z) vals) = df_len df /\
               Forall binary (signal_series (Z.to_nat z) vals) /\
               Zsum (signal_series (Z.to_nat z) vals) =
                 Z.of_nat (length (filter (fun s => s = 1%Z)
                                     (signal_series (Z.to_nat z) vals))) /\
               r = (inject_Z (Zsum (signal_series (Z.to_nat z) vals)) /
                    inject_Z (Z.of_nat (df_len df)))%Q /\
               (0 <= r)%Q /\ (r <= 1)%Q).
  { intros vals Hclose.
    pose proof (df_wf_column df "close" _ Hwf Hclose) as Hlen. simpl in Hlen.
    pose proof (length_signal_series (Z.to_nat z) vals) as Hsig.
    assert (Hbin : Forall binary (signal_series (Z.to_nat z) vals))
      by apply gt_astype_int_binary.
    assert (Hne : signal_series (Z.to_nat z) vals <> []).
    { intros E. rewrite E in Hsig. simpl in Hsig. lia. }
    destruct (series_mean_binary _ Hne Hbin) as (r & Hr & Hval & Hlo & Hhi).
    exists r. split; [exact Hr|]. split; [lia|]. split; [exact Hbin|].
    split; [apply Zsum_binary; exact Hbin|].
    split; [rewrite Hval, Hsig, Hlen; reflexivity|].
    split; assumption. }
  split.
  - intros rows rate signals w' Hrun.
    destruct (process_data_returns df seed z w w' rows rate signals Hrun)
      as (_ & -> & [[H0 _] | (_ & _ & vals & Hclose & ->)]); [contradiction|].
    apply Hrate. exact Hclose.
  - intros vals Hseed Hclose Hz63.
    destruct (Hrate vals Hclose) as (r & Hr & _).
    exists r, (signal_series (Z.to_nat z) vals), (set_np_seed w (seed_state seed)).
    rewrite <- Hr.
    apply (process_data_numeric df seed z vals w Hseed Hrows Hclose). lia.
Qed.

Lemma signal_rate_witness :
  (forall (rows : nat) (rate : cell) (signals : list Z) (w' : World),
     process_data scenario_df (PInt 42) (PInt 3) scenario_world
       = (Ok (rows, rate, signals), w') ->
     exists r : Q,
       rate = Some r /\
       length signals = df_len scenario_df /\
       Forall binary signals /\
       Zsum signals = Z.of_nat (length (filter (fun s => s = 1%Z) signals)) /\
       r = (inject_Z (Zsum signals) / inject_Z (Z.of_nat (df_len scenario_df)))%Q /\
       (0 <= r)%Q /\ (r <= 1)%Q) /\
  (forall vals : list cell,
     seed_ok (PInt 42) = true ->
     columns_get (df_columns scenario_df) "close" = Some (NumCol vals) ->
     (3 < 2 ^ 63)%Z ->
     exists (r : Q) (signals : list Z) (w' : World),
       process_data scenario_df (PInt 42) (PInt 3) scenario_world
         = (Ok (df_len scenario_df, Some r, signals), w')).
Proof.
  apply (signal_rate_is_mean_within_unit_interval scenario_df (PInt 42) 3
           scenario_world);
    [repeat constructor | discriminate | lia].
Defined.

(** C10. With window 1, on every non-empty table with a numeric close column:
    the rolling mean of each row is the row's own close value, so no close
    value is strictly greater than it, every signal is 0 and the signal rate
    is 0. *)
Theorem window_one_never_signals (df : DataFrame) (seed : pyval)
    (vals : list cell) (w : World) :
  df_wf df ->
  df_len df <> 0%nat ->
  seed_ok seed = true ->
  columns_get (df_columns df) "close" = Some (NumCol vals) ->
  Forall2 cell_eq (roll_mean 1 vals) vals /\
  exists (r : Q) (w' : World),
    process_data df seed (PInt 1) w =
      (Ok (df_len df, Some r, replicate (df_len df) 0%Z), w') /\
    (r == 0)%Q.
Proof.
  intros Hwf Hrows Hseed Hclose.
  pose proof (df_wf_column df "close" _ Hwf Hclose) as Hlen. simpl in Hlen.
  split.
  - apply Forall2_same_length_lookup_2; [apply length_roll_mean|].
    intros i m c Hm Hc.
    rewrite (roll_mean_lookup 1 vals i c Hc) in Hm. injection Hm as <-.
    rewrite (window_at_one vals i c Hc). apply mean_obs_one.
  - pose proof (process_data_numeric df seed 1 vals w Hseed Hrows Hclose) as Hrun.
    change (Z.to_nat 1) with 1%nat in Hrun.
    rewrite signal_series_one, Hlen in Hrun.
    destruct (df_len df) as [|n] eqn:En; [congruence|].
    eexists _, _. split; [apply Hrun; lia|].
    rewrite Zsum_replicate_zero. unfold Qdiv. apply Qmult_0_l.
Qed.

Lemma window_one_witness :
  Forall2 cell_eq (roll_mean 1 (map Q2c [1; 2; 3; 2; 5]%Z)) (map Q2c [1; 2; 3; 2; 5]%Z) /\
  exists (r : Q) (w' : World),
    process_data scenario_df (PInt 42) (PInt 1) scenario_world =
      (Ok (df_len scenario_df, Some r, replicate (df_len scenario_df) 0%Z), w') /\
    (r == 0)%Q.
Proof.
  apply (window_one_never_signals scenario_df (PInt 42)
           (map Q2c [1; 2; 3; 2; 5]%Z) scenario_world);
    [repeat constructor | discriminate | reflexivity | reflexivity].
Defined.

(** C6, as amended.  Given a configuration file that exists and parses to a
    mapping and an input file that exists and parses to a table: the
    configuration loader fails exactly when [seed], [window] or [version] is
    absent from the mapping, and then with a ValueError, and returns the
    mapping unchanged otherwise; the data loader fails exactly when the table
    has no data row or no column named [close], and then with a ValueError,
    and returns the table unchanged otherwise. *)
Theorem loaders_validate
    (yaml_safe_load : string -> result pyval)
    (read_csv : string -> result DataFrame)
    (cpath ipath ctext dtext : string)
    (items : list (string * pyval)) (df : DataFrame) (w : World) :
  files w !! cpath = Some ctext ->
  yaml_safe_load ctext = Ok (PDict items) ->
  files w !! ipath = Some dtext ->
  read_csv dtext = Ok df ->
  ((dict_get items "seed" = None \/ dict_get items "window" = None \/
    dict_get items "version" = None) <->
   (exists e, load_config yaml_safe_load cpath w = (Raise e, w))) /\
  ((dict_get items "seed" = None \/ dict_get items "window" = None \/
    dict_get items "version" = None) ->
   exists msg, load_config yaml_safe_load cpath w = (Raise (Exn ValueError msg), w)) /\
  (~ (dict_get items "seed" = None \/ dict_get items "window" = None \/
      dict_get items "version" = None) ->
   load_config yaml_safe_load cpath w = (Ok (PDict items), w)) /\
  ((df_len df = 0%nat \/ columns_get (df_columns df) "close" = None) <->
   (exists e, load_data read_csv ipath w = (Raise e, w))) /\
  ((df_len df = 0%nat \/ columns_get (df_columns df) "close" = None) ->
   exists msg, load_data read_csv ipath w = (Raise (Exn ValueError msg), w)) /\
  (~ (df_len df = 0%nat \/ columns_get (df_columns df) "close" = None) ->
   load_data read_csv ipath w = (Ok df, w)).
Proof.
  intros Hc Hcdoc Hd Hddoc.
  assert (Hcfg :
    load_config yaml_safe_load cpath w =
      (match dict_get items "seed", dict_get items "window",
             dict_get items "version" with
       | None, _, _ => Raise (Exn ValueError "Missing required config key: seed")
       | Some _, None, _ => Raise (Exn ValueError "Missing required config key: window")
       | Some _, Some _, None =>
           Raise (Exn ValueError "Missing required config key: version")
       | Some _, Some _, Some _ => Ok (PDict items)
       end, w)).
  { unfold load_config, py_bind, os_path_exists, read_file, py_lift.
    rewrite Hc. simpl. rewrite Hc, Hcdoc.
    unfold required_keys, py_for, py_bind, py_contains, py_ret, py_raise.
    destruct (dict_get items "seed") as [v1|];
      destruct (dict_get items "window") as [v2|];
      destruct (dict_get items "version") as [v3|]; reflexivity. }
  rewrite Hcfg.
  rewrite (load_data_parsed read_csv ipath dtext df w Hd Hddoc).
  assert (Hbad : (df_len df = 0%nat \/ columns_get (df_columns df) "close" = None)
                 <-> (df_empty df = true \/ df_has_column df "close" = false)).
  { unfold df_empty, df_has_column. split.
    - intros [H0 | Hnone].
      + left. rewrite H0. reflexivity.
      + right. rewrite Hnone. reflexivity.
    - intros [He | Hcol].
      + apply orb_true_iff in He. destruct He as [He | He].
        * left. apply Nat.eqb_eq in He. exact He.
        * right. apply Nat.eqb_eq in He.
          destruct (df_columns df); [reflexivity | discriminate He].
      + right. destruct (columns_get (df_columns df) "close");
          [discriminate Hcol | reflexivity]. }
  rewrite Hbad.
  destruct (dict_get items "seed") as [v1|];
    destruct (dict_get items "window") as [v2|];
    destruct (dict_get items "version") as [v3|];
    destruct (df_empty df); destruct (df_has_column df "close");
    repeat split; intros; eauto; try congruence;
    repeat match goal with
           | H : _ \/ _ |- _ => destruct H
           | H : exists _, _ |- _ => destruct H
           | H : ~ _ |- _ => exfalso; apply H; clear H
           end; try congruence; auto.
Qed.

Lemma loaders_validate_witness :
  ((dict_get incomplete_items "seed" = None \/
    dict_get incomplete_items "window" = None \/
    dict_get incomplete_items "version" = None) <->
   (exists e, load_config toy_yaml "config.yaml" headers_only_world
              = (Raise e, headers_only_world))) /\
  ((dict_get incomplete_items "seed" = None \/
    dict_get incomplete_items "window" = None \/
    dict_get incomplete_items "version" = None) ->
   exists msg, load_config toy_yaml "config.yaml" headers_only_world
               = (Raise (Exn ValueError msg), headers_only_world)) /\
  (~ (dict_get incomplete_items "seed" = None \/
      dict_get incomplete_items "window" = None \/
      dict_get incomplete_items "version" = None) ->
   load_config toy_yaml "config.yaml" headers_only_world
   = (Ok (PDict incomplete_items), headers_only_world)) /\
  ((df_len headers_only_df = 0%nat \/
    columns_get (df_columns headers_only_df) "close" = None) <->
   (exists e, load_data toy_csv "data.csv" headers_only_world
              = (Raise e, headers_only_world))) /\
  ((df_len headers_only_df = 0%nat \/
    columns_get (df_columns headers_only_df) "close" = None) ->
   exists msg, load_data toy_csv "data.csv" headers_only_world
               = (Raise (Exn ValueError msg), headers_only_world)) /\
  (~ (df_len headers_only_df = 0%nat \/
      columns_get (df_columns headers_only_df) "close" = None) ->
   load_data toy_csv "data.csv" headers_only_world
   = (Ok headers_only_df, headers_only_world)).
Proof.
  apply (loaders_validate toy_yaml toy_csv "config.yaml" "data.csv"
           incomplete_yaml headers_only_csv incomplete_items headers_only_df
           headers_only_world);
    vm_compute; reflexivity.
Defined.

(** C6, the counterexample.  The claim speaks of every configuration
    document that exists and parses.  The empty document exists and parses,
    to [None]; none of the three keys is present in it; and the loader does
    not fail with a ValueError: the membership test itself raises a
    TypeError. *)
Lemma empty_document_is_no_validation_error :
  files (disk "" scenario_csv) !! "config.yaml" = Some "" /\
  demo_yaml "" = Ok PNone /\
  field PNone "seed" = None /\
  field PNone "window" = None /\
  field PNone "version" = None /\
  load_config demo_yaml "config.yaml" (disk "" scenario_csv) =
    (Raise (Exn TypeError "argument of type 'NoneType' is not iterable"),
     disk "" scenario_csv).
Proof.
  repeat split; vm_compute; reflexivity.
Qed.

Section MissingInput.

Variable yaml_safe_load : string -> result pyval.
Variable read_csv : string -> result DataFrame.
Variable args : Args.

(** With a configuration that loads and a seed NumPy accepts, the failure
    of a run without its input file is the data loader's. *)
Lemma pipeline_input_missing_valid (w : World) (ctext : string)
    (items : list (string * pyval)) (seed window version : pyval) :
  files w !! arg_input args = None ->
  files w !! arg_config args = Some ctext ->
  yaml_safe_load ctext = Ok (PDict items) ->
  dict_get items "seed" = Some seed ->
  dict_get items "window" = Some window ->
  dict_get items "version" = Some version ->
  seed_ok seed = true ->
  exists w1,
    main_pipeline yaml_safe_load read_csv args w =
      (Raise (Exn FileNotFoundError ("Input file not found: " +:+ arg_input args)), w1).
Proof.
  intros Hin Hc Hdoc Hseed Hwin Hver Hok.
  unfold main_pipeline, py_bind.
  destruct (logger_info Job_started w) as [[[]|e0] w0] eqn:E0;
    [|discriminate E0].
  assert (Hf0 : files w0 = files w) by (injection E0 as <-; reflexivity).
  rewrite (load_config_dict yaml_safe_load (arg_config args) ctext items w0)
    by (rewrite ?Hf0; assumption).
  rewrite (missing_keys_nil items seed window version) by assumption.
  unfold py_lift, py_getitem. rewrite Hseed, Hwin, Hver.
  destruct (logger_info (Config_loaded seed window version) w0)
    as [[[]|e1] w2] eqn:E2; [|discriminate E2].
  assert (Hf2 : files w2 = files w0) by (injection E2 as <-; reflexivity).
  rewrite (np_random_seed_ok seed w2 Hok).
  rewrite (load_data_missing read_csv (arg_input args))
    by (simpl; rewrite Hf2, Hf0; exact Hin).
  eexists. reflexivity.
Qed.

End MissingInput.



Section StageFailures.

Variable yaml_safe_load : string -> result pyval.
Variable read_csv : string -> result DataFrame.
Variable args : Args.

(** After an accepted configuration, a failure of the data loader or of the
    processor is the failure of the pipeline. *)
Lemma pipeline_later_failure (w : World) (ctext : string)
    (items : list (string * pyval)) (seed window version : pyval) (e : exn) :
  files w !! arg_config args = Some ctext ->
  yaml_safe_load ctext = Ok (PDict items) ->
  dict_get items "seed" = Some seed ->
  dict_get items "window" = Some window ->
  dict_get items "version" = Some version ->
  seed_ok seed = true ->
  (load_data read_csv (arg_input args) w).1 = Raise e \/
  (exists df, (load_data read_csv (arg_input args) w).1 = Ok df /\
              (process_data df seed window w).1 = Raise e) ->
  exists w1, main_pipeline yaml_safe_load read_csv args w = (Raise e, w1).
Proof.
  intros Hc Hdoc Hseed Hwin Hver Hok Hfail.
  unfold main_pipeline, py_bind.
  destruct (logger_info Job_started w) as [[[]|e0] w0] eqn:E0;
    [|discriminate E0].
  assert (Hf0 : files w0 = files w) by (injection E0 as <-; reflexivity).
  rewrite (load_config_dict yaml_safe_load (arg_config args) ctext items w0)
    by (rewrite ?Hf0; assumption).
  rewrite (missing_keys_nil items seed window version) by assumption.
  unfold py_lift, py_getitem. rewrite Hseed, Hwin, Hver.
  destruct (logger_info (Config_loaded seed window version) w0)
    as [[[]|e1] w2] eqn:E2; [|discriminate E2].
  assert (Hf2 : files w2 = files w0) by (injection E2 as <-; reflexivity).
  rewrite (np_random_seed_ok seed w2 Hok).
  assert (Hsame : forall w', files w' = files w -> same_inputs args w' w).
  { intros w' Hw'. apply (same_inputs_files args w w); auto. split; reflexivity. }
  assert (Hdata : (load_data read_csv (arg_input args)
                     (set_np_seed w2 (seed_state seed))).1
                  = (load_data read_csv (arg_input args) w).1).
  { apply (stage_load_data read_csv args). apply Hsame. simpl. congruence. }
  pose proof (load_data_world read_csv (arg_input args)
                (set_np_seed w2 (seed_state seed))) as Hw3.
  destruct (load_data read_csv (arg_input args) (set_np_seed w2 (seed_state seed)))
    as [[df|e3] w3]; simpl in Hdata, Hw3; subst w3.
  - destruct Hfail as [Hd | (df' & Hd & Hproc)]; [congruence|].
    assert (df' = df) by congruence. subst df'.
    destruct (logger_info (Data_loaded (df_len df)) (set_np_seed w2 (seed_state seed)))
      as [[[]|e4] w4] eqn:E4; [|discriminate E4].
    destruct (logger_info (Rolling_mean_calculated window) w4)
      as [[[]|e5] w5] eqn:E5; [|discriminate E5].
    assert (Hf5 : files w5 = files w).
    { injection E5 as <-. injection E4 as <-. simpl. congruence. }
    assert (Hres : (process_data df seed window w5).1 = Raise e).
    { rewrite <- Hproc. apply (stage_process_data args). apply Hsame. exact Hf5. }
    destruct (process_data df seed window w5) as [r w6]. simpl in Hres. subst r.
    eexists. reflexivity.
  - destruct Hfail as [Hd | (df' & Hd & _)]; [|congruence].
    assert (e3 = e) by congruence. subst e3. eexists. reflexivity.
Qed.

End StageFailures.

(** C8. Whatever the [try] block raises (the failure of the configuration
    loader, of the data loader or of the processor, see
    [pipeline_config_failure] and [pipeline_later_failure]), the handler runs
    once: one ERROR record is logged, the record with exactly the fields
    [version] = "v1", [status] = "error" and [error_message] = the text of
    the error is written to the output path and printed last, and the exit
    status is 1.  The record has no [rows_processed] and no [value]. *)
Theorem failure_yields_error_record
    (yaml_safe_load : string -> result pyval)
    (read_csv : string -> result DataFrame)
    (json_dumps : pyval -> string)
    (args : Args) (t0 t1 : Q) (w w1 : World) (e : exn) :
  main_try yaml_safe_load read_csv json_dumps args t0 t1 w = (Raise e, w1) ->
  (main yaml_safe_load read_csv json_dumps args t0 t1 w).1 = 1%Z /\
  exists r : pyval,
    r = PDict [("version", PStr "v1"); ("status", PStr "error");
               ("error_message", PStr (exn_str e))] /\
    files (main yaml_safe_load read_csv json_dumps args t0 t1 w).2 !! arg_output args
      = Some (json_dumps r) /\
    last (stdout (main yaml_safe_load read_csv json_dumps args t0 t1 w).2)
      = Some (Printed (json_dumps r)) /\
    error_records (log_file (main yaml_safe_load read_csv json_dumps args t0 t1 w).2)
      = (error_records (log_file w) ++ [LogRecord ERROR (Job_failed (exn_str e))])%list /\
    py_getitem r "rows_processed" = Raise (Exn KeyError "'rows_processed'") /\
    py_getitem r "value" = Raise (Exn KeyError "'value'").
Proof.
  intros Htry. apply main_try_raises in Htry.
  destruct (main_failure yaml_safe_load read_csv json_dumps args t0 t1 w w1 e Htry)
    as (Hcode & Hfiles & Hout & Hlog).
  split; [exact Hcode|].
  eexists. split; [reflexivity|].
  split; [rewrite Hfiles; apply lookup_insert_eq|].
  split; [exact Hout|]. split; [exact Hlog|]. split; reflexivity.
Qed.

Lemma failure_record_witness :
  (main toy_yaml toy_csv toy_dumps scenario_args 10 11 headers_only_world).1 = 1%Z /\
  exists r : pyval,
    r = PDict [("version", PStr "v1"); ("status", PStr "error");
               ("error_message", PStr "Missing required config key: window")] /\
    files (main toy_yaml toy_csv toy_dumps scenario_args 10 11 headers_only_world).2
      !! arg_output scenario_args = Some (toy_dumps r) /\
    last (stdout (main toy_yaml toy_csv toy_dumps scenario_args 10 11 headers_only_world).2)
      = Some (Printed (toy_dumps r)) /\
    error_records
      (log_file (main toy_yaml toy_csv toy_dumps scenario_args 10 11 headers_only_world).2)
      = (error_records (log_file headers_only_world) ++
         [LogRecord ERROR (Job_failed "Missing required config key: window")])%list /\
    py_getitem r "rows_processed" = Raise (Exn KeyError "'rows_processed'") /\
    py_getitem r "value" = Raise (Exn KeyError "'value'").
Proof.
  apply (failure_yields_error_record toy_yaml toy_csv toy_dumps scenario_args
           10 11 headers_only_world
           (main_try toy_yaml toy_csv toy_dumps scenario_args 10 11 headers_only_world).2
           (Exn ValueError "Missing required config key: window")).
  vm_compute. reflexivity.
Defined.



(** The loader's check is Python's [in]: a document that parses to something
    else than a mapping is outside C6.  The empty document parses to [None]
    and the check itself raises a TypeError; a plain string passes the check
    when it contains the three words. *)
Remark load_config_not_a_mapping
    (yaml_safe_load : string -> result pyval) (p text : string) (w : World) :
  files w !! p = Some text ->
  (yaml_safe_load text = Ok PNone ->
   load_config yaml_safe_load p w =
     (Raise (Exn TypeError "argument of type 'NoneType' is not iterable"), w)) /\
  (yaml_safe_load text = Ok (PStr "seed window version") ->
   load_config yaml_safe_load p w = (Ok (PStr "seed window version"), w)).
Proof.
  intros Hp. split; intros Hdoc;
    unfold load_config, py_bind, os_path_exists, read_file, py_lift;
    rewrite Hp; simpl; rewrite Hp, Hdoc; reflexivity.
Qed.

(* ================================================================== *)
(** * Further properties of the code *)

(* ------------------------------------------------------------------ *)
(** ** The signal series *)

Lemma Zsum_app (l1 l2 : list Z) : Zsum (l1 ++ l2) = (Zsum l1 + Zsum l2)%Z.
Proof. induction l1 as [|x l1 IH]; simpl; [reflexivity | rewrite IH; lia]. Qed.

Lemma Zsum_zeros (l : list Z) : Forall (fun s => s = 0%Z) l -> Zsum l = 0%Z.
Proof. induction 1 as [|s l -> _ IH]; simpl; [reflexivity | exact IH]. Qed.

Lemma series_mean_zeros (l : list Z) :
  l <> [] -> Forall (fun s => s = 0%Z) l ->
  exists r, series_mean l = Some r /\ (r == 0)%Q.
Proof.
  intros Hne Hz. destruct l as [|s l]; [congruence|].
  eexists. split; [reflexivity|].
  rewrite (Zsum_zeros _ Hz). unfold Qdiv. apply Qmult_0_l.
Qed.

(** A window that holds fewer observations than [w] has no mean. *)
Lemma mean_obs_few (w : nat) (win : list cell) :
  (length (observations win) < w)%nat -> mean_obs w win = None.
Proof.
  intros Hlt. unfold mean_obs. cbv zeta.
  destruct (Nat.leb_spec w (length (observations win))) as [?|_]; [lia|].
  reflexivity.
Qed.

Lemma observations_with_nan (win : list cell) :
  None ∈ win -> (length (observations win) < length win)%nat.
Proof.
  induction win as [|[x|] win IH]; intros Hin.
  - inversion Hin.
  - apply elem_of_cons in Hin. destruct Hin as [Hin|Hin]; [discriminate|].
    specialize (IH Hin).
    change (observations (Some x :: win)) with (x :: observations win).
    simpl. lia.
  - pose proof (length_observations win).
    change (observations (None :: win)) with (observations win).
    simpl. lia.
Qed.

(** The rows of a window are rows of the column, none later than the row
    the window ends at. *)
Lemma window_at_elem {A} (w : nat) (xs : list A) (i : nat) (x : A) :
  x ∈ window_at w xs i ->
  exists j, (S i - w <= j)%nat /\ (j <= i)%nat /\ xs !! j = Some x.
Proof.
  intros Hin. apply list_elem_of_lookup in Hin. destruct Hin as [k Hk].
  unfold window_at in Hk. rewrite lookup_drop in Hk.
  apply lookup_take_Some in Hk. destruct Hk as [Hx Hlt].
  exists (S i - w + k)%nat. split; [lia|]. split; [lia|exact Hx].
Qed.

Lemma window_at_lookup {A} (w : nat) (xs : list A) (i j : nat) (x : A) :
  (S i - w <= j)%nat -> (j <= i)%nat -> xs !! j = Some x ->
  x ∈ window_at w xs i.
Proof.
  intros Hlo Hhi Hx. apply list_elem_of_lookup.
  exists (j - (S i - w))%nat. unfold window_at.
  rewrite lookup_drop.
  replace (S i - w + (j - (S i - w)))%nat with j by lia.
  rewrite lookup_take_lt by lia. exact Hx.
Qed.

Lemma window_at_fmap {A B} (f : A -> B) (w : nat) (xs : list A) (i : nat) :
  window_at w (f <$> xs) i = f <$> window_at w xs i.
Proof. unfold window_at. rewrite fmap_drop, fmap_take. reflexivity. Qed.

(** A row whose window reaches back to a NaN has signal 0. *)
Lemma signal_after_nan (w : nat) (xs : list cell) (i j : nat) :
  xs !! j = Some None -> (j <= i)%nat -> (i < j + w)%nat -> (i < length xs)%nat ->
  signal_series w xs !! i = Some 0%Z.
Proof.
  intros Hj Hji Hiw Hi.
  destruct (lookup_lt_is_Some_2 xs i Hi) as [c Hc].
  rewrite (signal_series_lookup w xs i c Hc).
  rewrite mean_obs_few; [destruct c; reflexivity|].
  pose proof (observations_with_nan (window_at w xs i)) as Hobs.
  pose proof (length_window_at w xs i Hi) as Hlen.
  assert (Hin : None ∈ window_at w xs i)
    by (apply (window_at_lookup w xs i j); [lia | lia | exact Hj]).
  specialize (Hobs Hin). lia.
Qed.

(** The warm-up rows are zeros, so at most the other rows count. *)
Lemma Zsum_signal_series_le (w : nat) (xs : list cell) :
  (Zsum (signal_series w xs) <= Z.of_nat (length xs - (w - 1)))%Z.
Proof.
  rewrite <- (take_drop (w - 1) (signal_series w xs)), Zsum_app.
  assert (Hzero : Forall (fun s => s = 0%Z) (take (w - 1) (signal_series w xs))).
  { apply Forall_lookup. intros k s Hk.
    apply lookup_take_Some in Hk. destruct Hk as [Hs Hlt].
    assert (Hlen : (k < length xs)%nat).
    { rewrite <- (length_signal_series w xs). eapply lookup_lt_Some. exact Hs. }
    destruct (lookup_lt_is_Some_2 xs k Hlen) as [c Hc].
    rewrite (signal_series_lookup w xs k c Hc) in Hs.
    rewrite mean_obs_warm_up in Hs by (try exact Hlen; lia).
    destruct c; simpl in Hs; congruence. }
  rewrite (Zsum_zeros _ Hzero).
  assert (Hbin : Forall binary (drop (w - 1) (signal_series w xs))).
  { apply Forall_drop. apply gt_astype_int_binary. }
  destruct (Zsum_binary _ Hbin) as [_ [_ Hhi]].
  rewrite length_drop, length_signal_series in Hhi. lia.
Qed.

Lemma cell_gt_proper (a a' b b' : cell) :
  cell_eq a a' -> cell_eq b b' -> cell_gt a b = cell_gt a' b'.
Proof.
  destruct a as [x|], a' as [x'|], b as [y|], b' as [y'|]; simpl;
    try contradiction; try reflexivity.
  intros Hx Hy. unfold Qlt_bool. f_equal.
  apply Bool.eq_true_iff_eq. rewrite !Qle_bool_iff, Hx, Hy. reflexivity.
Qed.

Lemma inject_Z_succ (n : nat) :
  (inject_Z (Z.of_nat (S n)) == inject_Z (Z.of_nat n) + 1)%Q.
Proof. rewrite Nat2Z.inj_succ. unfold Z.succ. rewrite inject_Z_plus. reflexivity. Qed.

Lemma inject_Z_length_pos {A} (l : list A) :
  l <> [] -> (0 < inject_Z (Z.of_nat (length l)))%Q.
Proof.
  intros Hne. rewrite <- (Zlt_Qlt 0). destruct l; [congruence|]. simpl length. lia.
Qed.

Lemma observations_affine (a k : Q) (win : list cell) :
  observations (cell_affine a k <$> win) = (fun x => a * x + k)%Q <$> observations win.
Proof.
  induction win as [|[x|] win IH]; [reflexivity| |].
  - rewrite fmap_cons.
    change (observations (cell_affine a k (Some x) :: (cell_affine a k <$> win)))
      with ((a * x + k)%Q :: observations (cell_affine a k <$> win)).
    rewrite IH. reflexivity.
  - rewrite fmap_cons.
    change (observations (cell_affine a k None :: (cell_affine a k <$> win)))
      with (observations (cell_affine a k <$> win)).
    exact IH.
Qed.

Lemma Qsum_affine (a k : Q) (l : list Q) :
  (Qsum ((fun x => a * x + k) <$> l) ==
   a * Qsum l + inject_Z (Z.of_nat (length l)) * k)%Q.
Proof.
  induction l as [|x l IH].
  - simpl. ring.
  - rewrite fmap_cons. cbn [Qsum foldr length].
    fold (Qsum ((fun x0 => a * x0 + k)%Q <$> l)). fold (Qsum l).
    rewrite IH, inject_Z_succ. ring.
Qed.

(** Rescaling the window rescales its mean. *)
Lemma mean_obs_affine (a k : Q) (w : nat) (win : list cell) :
  cell_eq (mean_obs w (cell_affine a k <$> win)) (cell_affine a k (mean_obs w win)).
Proof.
  unfold mean_obs. cbv zeta.
  rewrite observations_affine, length_fmap.
  destruct ((w <=? length (observations win))%nat
            && (0 <? length (observations win))%nat) eqn:E; [|exact I].
  apply andb_true_iff in E. destruct E as [_ Hpos]. apply Nat.ltb_lt in Hpos.
  assert (Hn : ~ (inject_Z (Z.of_nat (length (observations win))) == 0)%Q).
  { intros E. apply (Qlt_irrefl 0). rewrite <- E at 2.
    apply inject_Z_length_pos. intros E'. rewrite E' in Hpos. simpl in Hpos. lia. }
  unfold cell_affine. cbn [fmap option_fmap option_map cell_eq].
  rewrite Qsum_affine. field. exact Hn.
Qed.

Lemma cell_gt_affine (a k : Q) (c m : cell) :
  (0 < a)%Q -> cell_gt (cell_affine a k c) (cell_affine a k m) = cell_gt c m.
Proof.
  intros Ha. destruct c as [x|], m as [y|]; try reflexivity.
  simpl. unfold Qlt_bool. f_equal.
  apply Bool.eq_true_iff_eq. rewrite !Qle_bool_iff.
  rewrite Qplus_le_l. apply Qmult_le_l. exact Ha.
Qed.

Lemma signal_series_affine (a k : Q) (w : nat) (xs : list cell) :
  (0 < a)%Q -> signal_series w (cell_affine a k <$> xs) = signal_series w xs.
Proof.
  intros Ha. apply list_eq. intros i.
  destruct (xs !! i) as [c|] eqn:Hc.
  - rewrite (signal_series_lookup w _ i (cell_affine a k c))
      by (rewrite list_lookup_fmap, Hc; reflexivity).
    rewrite (signal_series_lookup w xs i c Hc).
    rewrite window_at_fmap.
    rewrite (cell_gt_proper _ (cell_affine a k c) _
               (cell_affine a k (mean_obs w (window_at w xs i))));
      [| destruct c; simpl; [reflexivity | exact I] | apply mean_obs_affine].
    rewrite cell_gt_affine by exact Ha. reflexivity.
  - apply lookup_ge_None in Hc.
    rewrite !lookup_ge_None_2;
      rewrite ?length_signal_series, ?length_fmap; auto.
Qed.

Lemma Qsum_lower (x : Q) (l : list Q) :
  Forall (fun y => (x <= y)%Q) l ->
  (x * inject_Z (Z.of_nat (length l)) <= Qsum l)%Q.
Proof.
  induction 1 as [|y l Hy _ IH].
  - simpl. rewrite Qmult_0_r. apply Qle_refl.
  - cbn [Qsum foldr length]. fold (Qsum l). rewrite inject_Z_succ.
    setoid_replace (x * (inject_Z (Z.of_nat (length l)) + 1))%Q
      with (x + x * inject_Z (Z.of_nat (length l)))%Q using relation Qeq by ring.
    apply Qplus_le_compat; assumption.
Qed.

Lemma Qsum_upper (x : Q) (l : list Q) :
  Forall (fun y => (y <= x)%Q) l ->
  (Qsum l <= x * inject_Z (Z.of_nat (length l)))%Q.
Proof.
  induction 1 as [|y l Hy _ IH].
  - simpl. rewrite Qmult_0_r. apply Qle_refl.
  - cbn [Qsum foldr length]. fold (Qsum l). rewrite inject_Z_succ.
    setoid_replace (x * (inject_Z (Z.of_nat (length l)) + 1))%Q
      with (x + x * inject_Z (Z.of_nat (length l)))%Q using relation Qeq by ring.
    apply Qplus_le_compat; assumption.
Qed.

(** A value that no value of its window exceeds from below is not above the
    window's mean. *)
Lemma cell_gt_mean_lower (x : Q) (l : list Q) :
  l <> [] -> Forall (fun y => (x <= y)%Q) l ->
  cell_gt (Some x) (Some (arithmetic_mean l)) = false.
Proof.
  intros Hne Hall. simpl. unfold Qlt_bool.
  assert (Hle : (x <= arithmetic_mean l)%Q).
  { unfold arithmetic_mean. apply Qle_shift_div_l.
    - apply inject_Z_length_pos. exact Hne.
    - apply Qsum_lower. exact Hall. }
  apply Qle_bool_iff in Hle. rewrite Hle. reflexivity.
Qed.

(** A value above the first value of its window and not below the others is
    above the window's mean. *)
Lemma cell_gt_mean_upper (x y : Q) (l : list Q) :
  (y < x)%Q -> Forall (fun y' => (y' <= x)%Q) l ->
  cell_gt (Some x) (Some (arithmetic_mean (y :: l))) = true.
Proof.
  intros Hy Hall. apply cell_gt_spec. exists x, (arithmetic_mean (y :: l)).
  split; [reflexivity|]. split; [reflexivity|].
  unfold arithmetic_mean. apply Qlt_shift_div_r.
  - apply inject_Z_length_pos. discriminate.
  - cbn [Qsum foldr length]. fold (Qsum l). rewrite inject_Z_succ.
    setoid_replace (x * (inject_Z (Z.of_nat (length l)) + 1))%Q
      with (x + x * inject_Z (Z.of_nat (length l)))%Q using relation Qeq by ring.
    apply Qplus_lt_le_compat; [exact Hy|]. apply Qsum_upper. exact Hall.
Qed.

Lemma signal_series_never_rises (w : nat) (qs : list Q) :
  (0 < w)%nat -> never_rises qs ->
  signal_series w (Some <$> qs) = replicate (length qs) 0%Z.
Proof.
  intros Hw Hmono. apply list_eq. intros i.
  destruct (qs !! i) as [q|] eqn:Hq.
  - assert (Hi : (i < length qs)%nat) by (eapply lookup_lt_Some; exact Hq).
    rewrite (signal_series_lookup w _ i (Some q))
      by (rewrite list_lookup_fmap, Hq; reflexivity).
    rewrite (lookup_replicate_2 _ _ _ Hi). f_equal.
    destruct (Nat.ltb_spec (S i) w) as [Hwarm|Hfull].
    + rewrite mean_obs_warm_up by (rewrite ?length_fmap; assumption).
      reflexivity.
    + destruct (mean_obs_numbers w qs i Hw Hfull Hi) as [-> Hlen].
      rewrite cell_gt_mean_lower; [reflexivity| |].
      * intros E. rewrite E in Hlen. simpl in Hlen. lia.
      * apply Forall_forall. intros y Hy.
        apply window_at_elem in Hy. destruct Hy as (j & _ & Hji & Hj).
        exact (Hmono j i y q Hji Hj Hq).
  - apply lookup_ge_None in Hq.
    rewrite !lookup_ge_None_2;
      rewrite ?length_signal_series, ?length_fmap, ?length_replicate; auto.
Qed.

Lemma signal_series_always_rises (w : nat) (qs : list Q) (i : nat) (q : Q) :
  (2 <= w)%nat -> always_rises qs -> qs !! i = Some q ->
  signal_series w (Some <$> qs) !! i = Some (if (S i <? w)%nat then 0%Z else 1%Z).
Proof.
  intros Hw Hmono Hq.
  assert (Hi : (i < length qs)%nat) by (eapply lookup_lt_Some; exact Hq).
  rewrite (signal_series_lookup w _ i (Some q))
    by (rewrite list_lookup_fmap, Hq; reflexivity).
  f_equal.
  destruct (Nat.ltb_spec (S i) w) as [Hwarm|Hfull].
  - rewrite mean_obs_warm_up by (rewrite ?length_fmap; assumption).
    reflexivity.
  - destruct (mean_obs_numbers w qs i) as [-> Hlen]; [lia|exact Hfull|exact Hi|].
    assert (Hall : Forall (fun y => (y <= q)%Q) (window_at w qs i)).
    { apply Forall_forall. intros y Hy.
      apply window_at_elem in Hy. destruct Hy as (j & _ & Hji & Hj).
      destruct (decide (j = i)) as [->|Hne].
      - assert (y = q) by congruence. subst y. apply Qle_refl.
      - apply Qlt_le_weak. apply (Hmono j i y q); [lia|exact Hj|exact Hq]. }
    assert (Hhead : window_at w qs i !! 0%nat = qs !! (S i - w)%nat).
    { unfold window_at. rewrite lookup_drop, lookup_take_lt by lia.
      f_equal. lia. }
    destruct (window_at w qs i) as [|y l] eqn:Ewin; [simpl in Hlen; lia|].
    simpl in Hhead. symmetry in Hhead.
    rewrite cell_gt_mean_upper; [reflexivity| |].
    + apply (Hmono (S i - w)%nat i y q); [lia|exact Hhead|exact Hq].
    + inversion Hall; assumption.
Qed.

Lemma signal_series_zero_window (xs : list cell) :
  signal_series 0 xs = replicate (length xs) 0%Z.
Proof.
  apply list_eq. intros i.
  destruct (xs !! i) as [c|] eqn:Hc.
  - assert (Hi : (i < length xs)%nat) by (eapply lookup_lt_Some; exact Hc).
    rewrite (signal_series_lookup 0 xs i c Hc).
    rewrite (lookup_replicate_2 _ _ _ Hi). f_equal.
    pose proof (length_window_at 0 xs i Hi) as Hlen.
    destruct (window_at 0 xs i); [|simpl in Hlen; lia].
    destruct c; reflexivity.
  - apply lookup_ge_None in Hc.
    rewrite !lookup_ge_None_2;
      rewrite ?length_signal_series, ?length_replicate; auto.
Qed.

Lemma signal_series_short_column (w : nat) (xs : list cell) :
  (length xs < w)%nat -> signal_series w xs = replicate (length xs) 0%Z.
Proof.
  intros Hshort. apply list_eq. intros i.
  destruct (xs !! i) as [c|] eqn:Hc.
  - assert (Hi : (i < length xs)%nat) by (eapply lookup_lt_Some; exact Hc).
    rewrite (signal_series_lookup w xs i c Hc).
    rewrite (lookup_replicate_2 _ _ _ Hi). f_equal.
    rewrite mean_obs_warm_up by (try exact Hi; lia).
    destruct c; reflexivity.
  - apply lookup_ge_None in Hc.
    rewrite !lookup_ge_None_2;
      rewrite ?length_signal_series, ?length_replicate; auto.
Qed.

Lemma replicate_zeros (n : nat) : Forall (fun s => s = 0%Z) (replicate n 0%Z).
Proof. induction n; simpl; constructor; auto. Qed.

Lemma replicate_nonempty {A} (n : nat) (x : A) : n <> 0%nat -> replicate n x <> [].
Proof. destruct n; [congruence | discriminate]. Qed.

(** X1. A missing close value (NaN) silences the signal of its own row and of
    the [window - 1] rows after it: for a positive window below [2 ** 63],
    every row whose window holds the NaN gets signal 0, and the processor
    still returns. *)
Theorem nan_silences_following_rows (df : DataFrame) (seed : pyval) (z : Z)
    (vals : list cell) (j : nat) (w : World) :
  df_wf df ->
  seed_ok seed = true ->
  columns_get (df_columns df) "close" = Some (NumCol vals) ->
  (0 < z < 2 ^ 63)%Z ->
  vals !! j = Some None ->
  exists (rate : cell) (signals : list Z) (w' : World),
    process_data df seed (PInt z) w = (Ok (df_len df, rate, signals), w') /\
    forall i : nat,
      (j <= i)%nat -> (Z.of_nat i < Z.of_nat j + z)%Z -> (i < length vals)%nat ->
      signals !! i = Some 0%Z.
Proof.
  intros Hwf Hseed Hclose Hz Hj.
  assert (Hrows : df_len df <> 0%nat).
  { rewrite <- (df_wf_column df "close" _ Hwf Hclose). simpl.
    apply lookup_lt_Some in Hj. unfold cell in *. lia. }
  eexists _, _, _. split.
  - apply (process_data_numeric df seed z vals w Hseed Hrows Hclose). lia.
  - intros i Hji Hiw Hi. apply (signal_after_nan _ vals i j); try assumption. lia.
Qed.

Lemma nan_silences_witness :
  exists (rate : cell) (signals : list Z) (w' : World),
    process_data gap_df (PInt 42) (PInt 3) scenario_world
      = (Ok (df_len gap_df, rate, signals), w') /\
    forall i : nat,
      (1 <= i)%nat -> (Z.of_nat i < Z.of_nat 1 + 3)%Z -> (i < 5)%nat ->
      signals !! i = Some 0%Z.
Proof.
  apply (nan_silences_following_rows gap_df (PInt 42) 3
           [Some 1%Q; None; Some 3%Q; Some 2%Q; Some 5%Q] 1 scenario_world);
    [repeat constructor | reflexivity | reflexivity | lia | reflexivity].
Defined.

(** X2. Only rows with a full window can signal: on a non-empty table and
    for a positive window below [2 ** 63], the number of rows with signal 1
    is at most [rows - (window - 1)], so the signal rate is at most
    [(rows - (window - 1)) / rows]. *)
Theorem signal_rate_bounded_by_full_windows (df : DataFrame) (seed : pyval)
    (z : Z) (vals : list cell) (w : World) :
  df_wf df ->
  df_len df <> 0%nat ->
  seed_ok seed = true ->
  columns_get (df_columns df) "close" = Some (NumCol vals) ->
  (0 < z < 2 ^ 63)%Z ->
  exists (r : Q) (signals : list Z) (w' : World),
    process_data df seed (PInt z) w = (Ok (df_len df, Some r, signals), w') /\
    (Zsum signals <= Z.of_nat (df_len df - (Z.to_nat z - 1)))%Z /\
    (r <= inject_Z (Z.of_nat (df_len df - (Z.to_nat z - 1)))
          / inject_Z (Z.of_nat (df_len df)))%Q.
Proof.
  intros Hwf Hrows Hseed Hclose Hz.
  pose proof (df_wf_column df "close" _ Hwf Hclose) as Hlen. simpl in Hlen.
  pose proof (length_signal_series (Z.to_nat z) vals) as Hsig.
  pose proof (Zsum_signal_series_le (Z.to_nat z) vals) as Hsum.
  assert (Hne : signal_series (Z.to_nat z) vals <> []).
  { intros E. rewrite E in Hsig. simpl in Hsig. lia. }
  destruct (series_mean_binary _ Hne (gt_astype_int_binary _ _))
    as (r & Hr & Hval & _ & _).
  exists r, (signal_series (Z.to_nat z) vals), (set_np_seed w (seed_state seed)).
  split; [|split].
  - rewrite <- Hr.
    apply (process_data_numeric df seed z vals w Hseed Hrows Hclose). lia.
  - rewrite <- Hlen. exact Hsum.
  - rewrite Hval, Hsig, Hlen. unfold Qdiv. apply Qmult_le_r.
    + apply Qinv_lt_0_compat. rewrite <- (Zlt_Qlt 0). lia.
    + rewrite <- Zle_Qle. rewrite <- Hlen. exact Hsum.
Qed.

Lemma signal_rate_bound_witness :
  exists (r : Q) (signals : list Z) (w' : World),
    process_data scenario_df (PInt 42) (PInt 3) scenario_world
      = (Ok (df_len scenario_df, Some r, signals), w') /\
    (Zsum signals <= Z.of_nat (df_len scenario_df - (Z.to_nat 3 - 1)))%Z /\
    (r <= inject_Z (Z.of_nat (df_len scenario_df - (Z.to_nat 3 - 1)))
          / inject_Z (Z.of_nat (df_len scenario_df)))%Q.
Proof.
  apply (signal_rate_bounded_by_full_windows scenario_df (PInt 42) 3
           (map Q2c [1; 2; 3; 2; 5]%Z) scenario_world);
    [repeat constructor | discriminate | reflexivity | reflexivity | lia].
Defined.

(** X3. A window longer than the table (and below [2 ** 63]) never fills:
    every signal is 0 and the signal rate is 0. *)
Theorem window_longer_than_table_never_signals (df : DataFrame) (seed : pyval)
    (z : Z) (vals : list cell) (w : World) :
  df_wf df ->
  df_len df <> 0%nat ->
  seed_ok seed = true ->
  columns_get (df_columns df) "close" = Some (NumCol vals) ->
  (Z.of_nat (df_len df) < z < 2 ^ 63)%Z ->
  exists (r : Q) (w' : World),
    process_data df seed (PInt z) w =
      (Ok (df_len df, Some r, replicate (df_len df) 0%Z), w') /\
    (r == 0)%Q.
Proof.
  intros Hwf Hrows Hseed Hclose Hz.
  pose proof (df_wf_column df "close" _ Hwf Hclose) as Hlen. simpl in Hlen.
  pose proof (process_data_numeric df seed z vals w Hseed Hrows Hclose) as Hrun.
  rewrite signal_series_short_column, Hlen in Hrun by lia.
  destruct (series_mean_zeros (replicate (df_len df) 0%Z)) as (r & Hr & Hr0);
    [apply replicate_nonempty; exact Hrows | apply replicate_zeros |].
  rewrite Hr in Hrun. exists r, (set_np_seed w (seed_state seed)).
  split; [apply Hrun; lia | exact Hr0].
Qed.

Lemma window_longer_witness :
  exists (r : Q) (w' : World),
    process_data scenario_df (PInt 42) (PInt 6) scenario_world =
      (Ok (df_len scenario_df, Some r, replicate (df_len scenario_df) 0%Z), w') /\
    (r == 0)%Q.
Proof.
  apply (window_longer_than_table_never_signals scenario_df (PInt 42) 6
           (map Q2c [1; 2; 3; 2; 5]%Z) scenario_world);
    [repeat constructor | discriminate | reflexivity | reflexivity | simpl; lia].
Defined.

(** X4. Window 0 is accepted (only negative windows are refused): every
    rolling window is empty, every signal is 0 and the signal rate is 0. *)
Theorem window_zero_never_signals (df : DataFrame) (seed : pyval)
    (vals : list cell) (w : World) :
  df_wf df ->
  df_len df <> 0%nat ->
  seed_ok seed = true ->
  columns_get (df_columns df) "close" = Some (NumCol vals) ->
  exists (r : Q) (w' : World),
    process_data df seed (PInt 0) w =
      (Ok (df_len df, Some r, replicate (df_len df) 0%Z), w') /\
    (r == 0)%Q.
Proof.
  intros Hwf Hrows Hseed Hclose.
  pose proof (df_wf_column df "close" _ Hwf Hclose) as Hlen. simpl in Hlen.
  pose proof (process_data_numeric df seed 0 vals w Hseed Hrows Hclose) as Hrun.
  change (Z.to_nat 0) with 0%nat in Hrun.
  rewrite signal_series_zero_window, Hlen in Hrun.
  destruct (series_mean_zeros (replicate (df_len df) 0%Z)) as (r & Hr & Hr0);
    [apply replicate_nonempty; exact Hrows | apply replicate_zeros |].
  rewrite Hr in Hrun. exists r, (set_np_seed w (seed_state seed)).
  split; [apply Hrun; lia | exact Hr0].
Qed.

Lemma window_zero_witness :
  exists (r : Q) (w' : World),
    process_data scenario_df (PInt 42) (PInt 0) scenario_world =
      (Ok (df_len scenario_df, Some r, replicate (df_len scenario_df) 0%Z), w') /\
    (r == 0)%Q.
Proof.
  apply (window_zero_never_signals scenario_df (PInt 42)
           (map Q2c [1; 2; 3; 2; 5]%Z) scenario_world);
    [repeat constructor | discriminate | reflexivity | reflexivity].
Defined.

(* ------------------------------------------------------------------ *)
(** ** float64 rounding and the comparisons *)

(** The nearest integer is within one half of the quotient. *)
Lemma round_half_even_near (n d : Z) :
  (0 < d)%Z ->
  (2 * n - d <= 2 * (round_half_even n d * d) <= 2 * n + d)%Z.
Proof.
  intros Hd. unfold round_half_even. cbv zeta.
  pose proof (Z.div_mod n d ltac:(lia)) as Hdm.
  pose proof (Z.mod_pos_bound n d Hd) as Hr.
  destruct (Z.compare_spec (2 * (n mod d)) d) as [E|E|E];
    [destruct (Z.even (n / d))| |]; nia.
Qed.

(** The binade of a quotient is not above it: [2 ^ k <= n / d]. *)
Lemma binade_le (n d : Z) :
  (0 < n)%Z -> (0 < d)%Z ->
  (d * 2 ^ Z.max 0 (binade n d) <= n * 2 ^ Z.max 0 (- binade n d))%Z.
Proof.
  intros Hn Hd. unfold binade. cbv zeta.
  set (k := (Z.log2 n - Z.log2 d)%Z).
  destruct (Z.ltb_spec (n * 2 ^ Z.max 0 (- k)) (d * 2 ^ Z.max 0 k)) as [Hlt|Hge];
    [|exact Hge].
  pose proof (Z.log2_spec n Hn) as [Hn1 Hn2].
  pose proof (Z.log2_spec d Hd) as [Hd1 Hd2].
  pose proof (Z.log2_nonneg n) as Ha. pose proof (Z.log2_nonneg d) as Hb.
  destruct (Z.le_gt_cases 1 k) as [Hk|Hk].
  - rewrite (Z.max_r 0 (k - 1)) by lia. rewrite (Z.max_l 0 (- (k - 1))) by lia.
    rewrite Z.pow_0_r, Z.mul_1_r.
    apply Z.lt_le_incl.
    apply Z.lt_le_trans with (2 ^ Z.succ (Z.log2 d) * 2 ^ (k - 1))%Z.
    + apply Z.mul_lt_mono_pos_r; [apply Z.pow_pos_nonneg; lia | exact Hd2].
    + rewrite <- Z.pow_add_r by lia.
      replace (Z.succ (Z.log2 d) + (k - 1))%Z with (Z.log2 n) by (unfold k; lia).
      exact Hn1.
  - rewrite (Z.max_l 0 (k - 1)) by lia. rewrite (Z.max_r 0 (- (k - 1))) by lia.
    rewrite Z.pow_0_r, Z.mul_1_r.
    apply Z.lt_le_incl.
    apply Z.lt_le_trans with (2 ^ Z.succ (Z.log2 d))%Z; [exact Hd2|].
    replace (Z.succ (Z.log2 d)) with (Z.log2 n + (- (k - 1)))%Z by (unfold k; lia).
    rewrite Z.pow_add_r by lia.
    apply Z.mul_le_mono_nonneg_r; [apply Z.pow_nonneg; lia | exact Hn1].
Qed.

Lemma Zmul_cancel_lt (a b c : Z) : (0 < c)%Z -> (a * c < b * c)%Z -> (a < b)%Z.
Proof. intros Hc H. nia. Qed.

Lemma Zmul_cancel_le (a b c : Z) : (0 < c)%Z -> (a * c <= b * c)%Z -> (a <= b)%Z.
Proof. intros Hc H. nia. Qed.

(** A quotient [S / w] with [S < 2 ** 53] and [w < 2 ** 63] is rounded at a
    scale [2 ^ - p] finer than [2 / w]. *)
Lemma round_pos_scale (n d S w : Z) :
  (0 < n)%Z -> (0 < d)%Z -> (0 < S < 2 ^ 53)%Z -> (0 < w < 2 ^ 63)%Z ->
  (n * w = S * d)%Z ->
  exists p : Z,
    (0 <= p)%Z /\ (w < 2 * 2 ^ p)%Z /\
    round_pos n d = (inject_Z (round_half_even (n * 2 ^ p) d) / inject_Z (2 ^ p))%Q.
Proof.
  intros Hn Hd HS Hw Hval.
  pose proof (binade_le n d Hn Hd) as Hk.
  set (k := binade n d) in *.
  assert (Hk52 : (k <= 52)%Z).
  { destruct (Z.le_gt_cases k 52) as [?|Hbig]; [assumption|exfalso].
    rewrite (Z.max_r 0 k), (Z.max_l 0 (- k)), Z.pow_0_r, Z.mul_1_r in Hk by lia.
    assert (H1 : (w * 2 ^ k <= S)%Z).
    { apply (Zmul_cancel_le _ _ d Hd).
      replace (w * 2 ^ k * d)%Z with (d * 2 ^ k * w)%Z by ring.
      rewrite <- Hval. apply Z.mul_le_mono_nonneg_r; lia. }
    assert (H2 : (2 ^ 53 <= 2 ^ k)%Z) by (apply Z.pow_le_mono_r; lia).
    assert (H3 : (2 ^ k <= w * 2 ^ k)%Z).
    { assert (0 < 2 ^ k)%Z by (apply Z.pow_pos_nonneg; lia). nia. }
    lia. }
  unfold round_pos. cbv zeta. fold k.
  set (e := Z.max (k - 52) (-1074)).
  assert (He : (e <= 0)%Z) by (unfold e; lia).
  exists (- e)%Z. rewrite (Z.max_l 0 e), (Z.max_r 0 (- e)) by lia.
  rewrite Z.pow_0_r, !Z.mul_1_r.
  split; [lia|]. split; [|reflexivity].
  destruct (Z.le_gt_cases (-1074) (k - 52)) as [Hnorm|Hsub].
  - replace (- e)%Z with (52 - k)%Z by (unfold e; lia).
    replace (2 * 2 ^ (52 - k))%Z with (2 ^ (53 - k))%Z
      by (replace (53 - k)%Z with (1 + (52 - k))%Z by lia;
          rewrite Z.pow_add_r by lia; reflexivity).
    destruct (Z.le_gt_cases 0 k) as [Hpos|Hneg].
    + rewrite (Z.max_r 0 k), (Z.max_l 0 (- k)), Z.pow_0_r, Z.mul_1_r in Hk by lia.
      assert (H1 : (w * 2 ^ k <= S)%Z).
      { apply (Zmul_cancel_le _ _ d Hd).
        replace (w * 2 ^ k * d)%Z with (d * 2 ^ k * w)%Z by ring.
        rewrite <- Hval. apply Z.mul_le_mono_nonneg_r; lia. }
      assert (H2 : (2 ^ 53 = 2 ^ (53 - k) * 2 ^ k)%Z).
      { rewrite <- Z.pow_add_r by lia. f_equal; lia. }
      assert (H3 : (0 < 2 ^ k)%Z) by (apply Z.pow_pos_nonneg; lia).
      apply (Zmul_cancel_lt _ _ (2 ^ k)%Z H3). lia.
    + rewrite (Z.max_l 0 k), (Z.max_r 0 (- k)), Z.pow_0_r, Z.mul_1_r in Hk by lia.
      assert (H1 : (w <= S * 2 ^ (- k))%Z).
      { apply (Zmul_cancel_le _ _ d Hd).
        replace (S * 2 ^ (- k) * d)%Z with (S * d * 2 ^ (- k))%Z by ring.
        rewrite <- Hval.
        replace (n * w * 2 ^ (- k))%Z with (n * 2 ^ (- k) * w)%Z by ring.
        rewrite (Z.mul_comm w d). apply Z.mul_le_mono_nonneg_r; lia. }
      assert (H2 : (2 ^ (53 - k) = 2 ^ 53 * 2 ^ (- k))%Z).
      { rewrite <- Z.pow_add_r by lia. f_equal; lia. }
      assert (H3 : (0 < 2 ^ (- k))%Z) by (apply Z.pow_pos_nonneg; lia).
      rewrite H2. nia.
  - replace (- e)%Z with 1074%Z by (unfold e; lia).
    assert (H : (2 ^ 63 <= 2 ^ 1074)%Z) by (apply Z.pow_le_mono_r; lia).
    lia.
Qed.

(** Such a quotient is rounded to the same side of every integer [y] as it
    lies itself. *)
Lemma round_pos_vs_integer (n d S w y : Z) :
  (0 < n)%Z -> (0 < d)%Z -> (0 < S < 2 ^ 53)%Z -> (0 < w < 2 ^ 63)%Z ->
  (n * w = S * d)%Z ->
  ((y * w <= S)%Z -> (inject_Z y <= round_pos n d)%Q) /\
  ((S <= y * w)%Z -> (round_pos n d <= inject_Z y)%Q) /\
  ((S < y * w)%Z -> (round_pos n d < inject_Z y)%Q) /\
  ((y * w < S)%Z -> (inject_Z y < round_pos n d)%Q).
Proof.
  intros Hn Hd HS Hw Hval.
  destruct (round_pos_scale n d S w Hn Hd HS Hw Hval) as (p & Hp & Hfine & ->).
  assert (HP : (0 < 2 ^ p)%Z) by (apply Z.pow_pos_nonneg; lia).
  pose proof (round_half_even_near (n * 2 ^ p) d Hd) as Hnear.
  set (m := round_half_even (n * 2 ^ p) d) in *.
  set (P := (2 ^ p)%Z) in *.
  assert (HPq : (0 < inject_Z P)%Q) by (rewrite <- (Zlt_Qlt 0); exact HP).
  assert (Hdw : (0 < d * w)%Z) by nia.
  assert (Hscale : (2 * (S * P) * d = 2 * (n * P) * w)%Z).
  { replace (2 * (S * P) * d)%Z with (2 * P * (S * d))%Z by ring.
    rewrite <- Hval. ring. }
  assert (Hlo : (2 * (S * P) * d - d * w <= 2 * m * (d * w))%Z)
    by (rewrite Hscale; nia).
  assert (Hhi : (2 * m * (d * w) <= 2 * (S * P) * d + d * w)%Z)
    by (rewrite Hscale; nia).
  repeat split; intros Hy.
  - apply Qle_shift_div_l; [exact HPq|].
    rewrite <- inject_Z_mult, <- Zle_Qle.
    assert (H : (2 * (y * P) * (d * w) - d * w <= 2 * m * (d * w))%Z) by nia.
    assert (H' : ((2 * (y * P) - 1) * (d * w) <= 2 * m * (d * w))%Z) by lia.
    apply Zmul_cancel_le in H'; lia.
  - apply Qle_shift_div_r; [exact HPq|].
    rewrite <- inject_Z_mult, <- Zle_Qle.
    assert (H : (2 * m * (d * w) <= 2 * (y * P) * (d * w) + d * w)%Z) by nia.
    assert (H' : (2 * m * (d * w) <= (2 * (y * P) + 1) * (d * w))%Z) by lia.
    apply Zmul_cancel_le in H'; lia.
  - apply Qlt_shift_div_r; [exact HPq|].
    rewrite <- inject_Z_mult, <- Zlt_Qlt.
    assert (H1 : (S + 1 <= y * w)%Z) by lia.
    assert (H : (2 * m * (d * w) < 2 * (y * P) * (d * w))%Z) by nia.
    apply (Zmul_cancel_lt _ _ (2 * (d * w))%Z); lia.
  - apply Qlt_shift_div_l; [exact HPq|].
    rewrite <- inject_Z_mult, <- Zlt_Qlt.
    assert (H1 : (y * w + 1 <= S)%Z) by lia.
    assert (H : (2 * (y * P) * (d * w) < 2 * m * (d * w))%Z) by nia.
    apply (Zmul_cancel_lt _ _ (2 * (d * w))%Z); lia.
Qed.

(** Rounding a mean [S / w] of the range to float64 moves it across no
    integer. *)
Lemma round_f64_keeps_side (q : Q) (S w y : Z) :
  (q * inject_Z w == inject_Z S)%Q ->
  (Z.abs S < 2 ^ 53)%Z -> (0 < w < 2 ^ 63)%Z ->
  (inject_Z y <= round_f64 q)%Q <-> (inject_Z y <= q)%Q.
Proof.
  intros Hq HS Hw.
  assert (Hval : (Qnum q * w = S * Zpos (Qden q))%Z).
  { unfold Qeq in Hq. simpl in Hq. lia. }
  assert (Hside : (inject_Z y <= q)%Q <-> (y * w <= S)%Z).
  { unfold Qle. simpl. split; intros H; nia. }
  rewrite Hside. unfold round_f64.
  destruct q as [[|n|n] d]; cbn [Qnum Qden] in *.
  - assert (S = 0)%Z by lia. subst S.
    unfold Qle. simpl. split; intros H; nia.
  - destruct (round_pos_vs_integer (Zpos n) (Zpos d) S w y) as (H1 & _ & H3 & _);
      try lia.
    split; [|exact H1].
    intros Hle. destruct (Z.le_gt_cases (y * w) S) as [?|Hgt]; [assumption|].
    exfalso. apply (Qlt_not_le _ _ (H3 ltac:(lia)) Hle).
  - destruct (round_pos_vs_integer (Zpos n) (Zpos d) (- S) w (- y))
      as (_ & H2 & _ & H4); try lia.
    rewrite inject_Z_opp in H2, H4.
    split.
    + intros Hle. destruct (Z.le_gt_cases (y * w) S) as [?|Hgt]; [assumption|].
      exfalso. assert (Hlt : (- inject_Z y < round_pos (Zpos n) (Zpos d))%Q)
        by (apply H4; lia).
      apply Qopp_le_compat in Hle. rewrite Qopp_involutive in Hle.
      apply (Qlt_not_le _ _ Hlt Hle).
    + intros Hle. assert (H : (round_pos (Zpos n) (Zpos d) <= - inject_Z y)%Q)
        by (apply H2; lia).
      apply Qopp_le_compat in H. rewrite Qopp_involutive in H. exact H.
Qed.

Lemma round_f64_keeps_side_above (q : Q) (S w y : Z) :
  (q * inject_Z w == inject_Z S)%Q ->
  (Z.abs S < 2 ^ 53)%Z -> (0 < w < 2 ^ 63)%Z ->
  (round_f64 q <= inject_Z y)%Q <-> (q <= inject_Z y)%Q.
Proof.
  intros Hq HS Hw.
  assert (Hval : (Qnum q * w = S * Zpos (Qden q))%Z).
  { unfold Qeq in Hq. simpl in Hq. lia. }
  assert (Hside : (q <= inject_Z y)%Q <-> (S <= y * w)%Z).
  { unfold Qle. simpl. split; intros H; nia. }
  rewrite Hside. unfold round_f64.
  destruct q as [[|n|n] d]; cbn [Qnum Qden] in *.
  - assert (S = 0)%Z by lia. subst S.
    unfold Qle. simpl. split; intros H; nia.
  - destruct (round_pos_vs_integer (Zpos n) (Zpos d) S w y) as (_ & H2 & _ & H4);
      try lia.
    split; [|exact H2].
    intros Hle. destruct (Z.le_gt_cases S (y * w)) as [?|Hgt]; [assumption|].
    exfalso. apply (Qlt_not_le _ _ (H4 ltac:(lia)) Hle).
  - destruct (round_pos_vs_integer (Zpos n) (Zpos d) (- S) w (- y))
      as (H1 & _ & H3 & _); try lia.
    rewrite inject_Z_opp in H1, H3.
    split.
    + intros Hle. destruct (Z.le_gt_cases S (y * w)) as [?|Hgt]; [assumption|].
      exfalso. assert (Hlt : (round_pos (Zpos n) (Zpos d) < - inject_Z y)%Q)
        by (apply H3; lia).
      apply Qopp_le_compat in Hle. rewrite Qopp_involutive in Hle.
      apply (Qlt_not_le _ _ Hlt Hle).
    + intros Hle. assert (H : (- inject_Z y <= round_pos (Zpos n) (Zpos d))%Q)
        by (apply H1; lia).
      apply Qopp_le_compat in H. rewrite Qopp_involutive in H. exact H.
Qed.

(** float64 holds every integer below [2 ** 53] as it is: an addition or a
    subtraction of a running sum whose exact result is such an integer is
    exact. *)
Lemma round_f64_integer (q : Q) (n : Z) :
  (q == inject_Z n)%Q -> (Z.abs n < 2 ^ 53)%Z -> (round_f64 q == q)%Q.
Proof.
  intros Hq Hn.
  assert (Hq1 : (q * inject_Z 1 == inject_Z n)%Q) by (rewrite Hq; ring).
  assert (H1 : (0 < 1 < 2 ^ 63)%Z) by lia.
  apply Qle_antisym.
  - rewrite Hq at 2.
    apply (round_f64_keeps_side_above q n 1 n Hq1 Hn H1).
    rewrite Hq. apply Qle_refl.
  - rewrite Hq at 1.
    apply (round_f64_keeps_side q n 1 n Hq1 Hn H1).
    rewrite Hq. apply Qle_refl.
Qed.

(* ------------------------------------------------------------------ *)
(** ** Exact prices *)

Lemma exact_price_value (z : Z) (q : Q) :
  exact_price z (Some q) = true ->
  exists n : Z, (q == inject_Z n)%Q /\ (Z.abs n * z < 2 ^ 53)%Z.
Proof.
  unfold exact_price. intros H. apply andb_true_iff in H. destruct H as [Hint Hbound].
  apply Z.eqb_eq in Hint. apply Z.ltb_lt in Hbound.
  exists (Qnum q / Zpos (Qden q))%Z. split; [|exact Hbound].
  unfold Qeq. simpl.
  pose proof (Z.div_mod (Qnum q) (Zpos (Qden q)) ltac:(lia)) as Hdm.
  rewrite Hint in Hdm. lia.
Qed.

Lemma exact_prices_Forall (z : Z) (vals : list cell) :
  exact_prices z vals = true -> Forall (fun c => exact_price z c = true) vals.
Proof.
  unfold exact_prices. induction vals as [|c vals IH]; simpl; intros H.
  - constructor.
  - apply andb_true_iff in H. destruct H as [Hc Hrest].
    constructor; [exact Hc | exact (IH Hrest)].
Qed.

Lemma observations_exact (z : Z) (win : list cell) :
  Forall (fun c => exact_price z c = true) win ->
  Forall (fun q => exact_price z (Some q) = true) (observations win).
Proof.
  induction 1 as [|[x|] win Hc _ IH].
  - constructor.
  - change (observations (Some x :: win)) with (x :: observations win).
    constructor; assumption.
  - exact IH.
Qed.

(** The sum of exact prices is an integer, and small when they are few. *)
Lemma Qsum_exact (z : Z) (obs : list Q) :
  (0 <= z)%Z ->
  Forall (fun q => exact_price z (Some q) = true) obs ->
  exists S : Z,
    (Qsum obs == inject_Z S)%Q /\
    (Z.abs S * z <= Z.of_nat (length obs) * (2 ^ 53 - 1))%Z.
Proof.
  intros Hz. induction 1 as [|q obs Hq _ (S & HS & Hbound)].
  - exists 0%Z. split; [reflexivity | simpl; lia].
  - destruct (exact_price_value z q Hq) as (n & Hn & Hnb).
    exists (n + S)%Z. split.
    + change (Qsum (q :: obs)) with (q + Qsum obs)%Q.
      rewrite Hn, HS, inject_Z_plus. reflexivity.
    + cbn [length]. rewrite Nat2Z.inj_succ.
      pose proof (Z.abs_triangle n S) as Htri.
      assert (H : (Z.abs (n + S) * z <= Z.abs n * z + Z.abs S * z)%Z) by nia.
      lia.
Qed.

(** On a window of exact prices, rounding the mean to float64 changes no
    comparison with an exact price. *)
Lemma cell_gt_mean_rounded (z : Z) (win : list cell) (c : cell) :
  (0 < z < 2 ^ 63)%Z ->
  (length win <= Z.to_nat z)%nat ->
  Forall (fun x => exact_price z x = true) win ->
  exact_price z c = true ->
  cell_gt c (cell_f64 (mean_obs (Z.to_nat z) win)) =
  cell_gt c (mean_obs (Z.to_nat z) win).
Proof.
  intros Hz Hlen Hwin Hc.
  destruct c as [x|]; [|reflexivity].
  unfold mean_obs. cbv zeta.
  pose proof (length_observations win) as Hobs.
  destruct (Nat.leb_spec (Z.to_nat z) (length (observations win))) as [Hfull|Hshort];
    [|reflexivity].
  destruct (Nat.ltb_spec 0 (length (observations win))) as [Hpos|?]; [|lia].
  unfold cell_f64. cbn [andb fmap option_fmap option_map cell_gt].
  assert (Hcount : Z.of_nat (length (observations win)) = z) by lia.
  destruct (Qsum_exact z (observations win)) as (S & HS & Hbound);
    [lia | apply observations_exact; exact Hwin |].
  rewrite Hcount in *.
  destruct (exact_price_value z x Hc) as (y & Hy & _).
  set (q := (Qsum (observations win) / inject_Z z)%Q).
  assert (Hq : (q * inject_Z z == inject_Z S)%Q).
  { unfold q. rewrite <- HS. field.
    intros E. unfold Qeq in E. simpl in E. lia. }
  assert (HSb : (Z.abs S < 2 ^ 53)%Z) by nia.
  pose proof (round_f64_keeps_side q S z y Hq HSb Hz) as Hside.
  unfold Qlt_bool. f_equal.
  destruct (Qle_bool x (round_f64 q)) eqn:E1; destruct (Qle_bool x q) eqn:E2;
    try reflexivity.
  - apply Qle_bool_iff in E1. rewrite Hy in E1. apply Hside in E1.
    rewrite <- Hy in E1. apply Qle_bool_iff in E1. congruence.
  - apply Qle_bool_iff in E2. rewrite Hy in E2. apply Hside in E2.
    rewrite <- Hy in E2. apply Qle_bool_iff in E2. congruence.
Qed.

(** On exact prices the signals computed against the float64 means are the
    signals computed against the exact means. *)
Lemma rounded_means_keep_signals (z : Z) (vals : list cell) :
  (0 < z < 2 ^ 63)%Z ->
  exact_prices z vals = true ->
  gt_astype_int vals (roll_mean_f64 (Z.to_nat z) vals) = signal_series (Z.to_nat z) vals.
Proof.
  intros Hz Hexact. apply exact_prices_Forall in Hexact.
  apply list_eq. intros i.
  unfold signal_series, gt_astype_int, roll_mean_f64.
  rewrite !lookup_zip_with, list_lookup_fmap.
  destruct (vals !! i) as [c|] eqn:Hc; [|reflexivity].
  rewrite (roll_mean_lookup _ vals i c Hc). cbn [fmap option_fmap option_map mbind option_bind].
  assert (Hi : (i < length vals)%nat) by (eapply lookup_lt_Some; exact Hc).
  rewrite (cell_gt_mean_rounded z (window_at (Z.to_nat z) vals i) c); try assumption.
  - reflexivity.
  - rewrite length_window_at by exact Hi. lia.
  - unfold window_at. apply Forall_drop, Forall_take. exact Hexact.
  - exact (Forall_lookup_1 (fun c => exact_price z c = true) vals i c Hexact Hc).
Qed.

(** Beyond exact prices rounding can silence a signal: the mean of
    [2 ** 53 + 2] and [2 ** 53 + 4] is [2 ** 53 + 3], which float64 holds as
    [2 ** 53 + 4]; the second price is above the mean and not above its
    float64. *)
Example rounding_can_silence_a_signal :
  exact_prices 2 (map Q2c [2 ^ 53 + 2; 2 ^ 53 + 4]%Z) = false /\
  signal_series 2 (map Q2c [2 ^ 53 + 2; 2 ^ 53 + 4]%Z) = [0; 1]%Z /\
  gt_astype_int (map Q2c [2 ^ 53 + 2; 2 ^ 53 + 4]%Z)
    (roll_mean_f64 2 (map Q2c [2 ^ 53 + 2; 2 ^ 53 + 4]%Z)) = [0; 0]%Z.
Proof. repeat split; vm_compute; reflexivity. Qed.

(** X5. The signals depend on the shape of the prices only: rescaling every
    close value to [a * x + k] with [a > 0] (NaN stays NaN) changes neither
    the signal series nor the signal rate, as long as float64 arithmetic is
    exact on the prices and on the rescaled prices (beyond that, rounding
    can merge a price with its mean): there the signals are also those of
    the float64 means, before and after the rescaling. *)
Theorem signals_unchanged_by_rescaling (df df' : DataFrame) (seed : pyval)
    (z : Z) (vals : list cell) (a k : Q) (w : World) :
  seed_ok seed = true ->
  df_len df <> 0%nat ->
  columns_get (df_columns df) "close" = Some (NumCol vals) ->
  columns_get (df_columns df') "close" = Some (NumCol (cell_affine a k <$> vals)) ->
  df_len df' = df_len df ->
  (0 < z < 2 ^ 63)%Z ->
  (0 < a)%Q ->
  exact_prices z vals = true ->
  exact_prices z (cell_affine a k <$> vals) = true ->
  exists (rate : cell) (signals : list Z) (w' : World),
    process_data df seed (PInt z) w = (Ok (df_len df, rate, signals), w') /\
    process_data df' seed (PInt z) w = (Ok (df_len df, rate, signals), w') /\
    gt_astype_int vals (roll_mean_f64 (Z.to_nat z) vals) = signals /\
    gt_astype_int (cell_affine a k <$> vals)
      (roll_mean_f64 (Z.to_nat z) (cell_affine a k <$> vals)) = signals.
Proof.
  intros Hseed Hrows Hclose Hclose' Hlen Hz Ha Hexact Hexact'.
  assert (Hrows' : df_len df' <> 0%nat) by (rewrite Hlen; exact Hrows).
  eexists _, _, _. split; [|split; [|split]].
  - apply (process_data_numeric df seed z vals w Hseed Hrows Hclose). lia.
  - rewrite (process_data_numeric df' seed z _ w Hseed Hrows' Hclose') by lia.
    rewrite signal_series_affine by exact Ha. rewrite Hlen. reflexivity.
  - apply rounded_means_keep_signals; assumption.
  - rewrite (rounded_means_keep_signals z _ Hz Hexact').
    apply signal_series_affine. exact Ha.
Qed.

Lemma rescaling_witness :
  exists (rate : cell) (signals : list Z) (w' : World),
    process_data scenario_df (PInt 42) (PInt 3) scenario_world
      = (Ok (df_len scenario_df, rate, signals), w') /\
    process_data rescaled_df (PInt 42) (PInt 3) scenario_world
      = (Ok (df_len scenario_df, rate, signals), w') /\
    gt_astype_int (map Q2c [1; 2; 3; 2; 5]%Z)
      (roll_mean_f64 (Z.to_nat 3) (map Q2c [1; 2; 3; 2; 5]%Z)) = signals /\
    gt_astype_int (cell_affine 2 10 <$> map Q2c [1; 2; 3; 2; 5]%Z)
      (roll_mean_f64 (Z.to_nat 3) (cell_affine 2 10 <$> map Q2c [1; 2; 3; 2; 5]%Z))
      = signals.
Proof.
  apply (signals_unchanged_by_rescaling scenario_df rescaled_df (PInt 42) 3
           (map Q2c [1; 2; 3; 2; 5]%Z) 2 10 scenario_world);
    [reflexivity | discriminate | reflexivity | reflexivity | reflexivity | lia
    | reflexivity | reflexivity | reflexivity].
Defined.

(** X6. Prices that never rise never signal: on a close column without NaN
    in which no value is above an earlier one (a constant column included),
    every signal is 0 and the signal rate is 0, for every positive window
    below [2 ** 63], as long as float64 arithmetic is exact on the prices:
    there no price is above its float64 mean either. *)
Theorem falling_prices_never_signal (df : DataFrame) (seed : pyval) (z : Z)
    (qs : list Q) (w : World) :
  df_wf df ->
  df_len df <> 0%nat ->
  seed_ok seed = true ->
  columns_get (df_columns df) "close" = Some (NumCol (Some <$> qs)) ->
  (0 < z < 2 ^ 63)%Z ->
  never_rises qs ->
  exact_prices z (Some <$> qs) = true ->
  exists (r : Q) (w' : World),
    process_data df seed (PInt z) w =
      (Ok (df_len df, Some r, replicate (df_len df) 0%Z), w') /\
    (r == 0)%Q /\
    gt_astype_int (Some <$> qs) (roll_mean_f64 (Z.to_nat z) (Some <$> qs))
      = replicate (df_len df) 0%Z.
Proof.
  intros Hwf Hrows Hseed Hclose Hz Hmono Hexact.
  pose proof (df_wf_column df "close" _ Hwf Hclose) as Hlen.
  simpl in Hlen. rewrite length_fmap in Hlen.
  pose proof (process_data_numeric df seed z _ w Hseed Hrows Hclose) as Hrun.
  pose proof (rounded_means_keep_signals z _ Hz Hexact) as Hfloat.
  rewrite signal_series_never_rises, Hlen in Hrun, Hfloat by (try exact Hmono; lia).
  destruct (series_mean_zeros (replicate (df_len df) 0%Z)) as (r & Hr & Hr0);
    [apply replicate_nonempty; exact Hrows | apply replicate_zeros |].
  rewrite Hr in Hrun. exists r, (set_np_seed w (seed_state seed)).
  split; [apply Hrun; lia | split; [exact Hr0 | exact Hfloat]].
Qed.

Lemma falling_prices_witness :
  exists (r : Q) (w' : World),
    process_data falling_df (PInt 42) (PInt 2) scenario_world =
      (Ok (df_len falling_df, Some r, replicate (df_len falling_df) 0%Z), w') /\
    (r == 0)%Q /\
    gt_astype_int (Some <$> falling_prices)
      (roll_mean_f64 (Z.to_nat 2) (Some <$> falling_prices))
      = replicate (df_len falling_df) 0%Z.
Proof.
  apply (falling_prices_never_signal falling_df (PInt 42) 2 falling_prices
           scenario_world);
    [repeat constructor | discriminate | reflexivity | reflexivity | lia
    | | reflexivity].
  intros [|[|[|[|j]]]] [|[|[|[|i]]]] qj qi Hji Hj Hi; simpl in Hj, Hi;
    try discriminate; try lia;
    injection Hj as <-; injection Hi as <-; unfold Qle; simpl; lia.
Defined.

(** X7. Prices that always rise signal on every row with a full window: on a
    close column without NaN in which every value is above all earlier ones,
    with a window of at least 2 and below [2 ** 63], the signal of row [i]
    is 0 for [i < window - 1] and 1 from there on, as long as float64
    arithmetic is exact on the prices: there the signals are also those of
    the float64 means. *)
Theorem rising_prices_always_signal (df : DataFrame) (seed : pyval) (z : Z)
    (qs : list Q) (w : World) :
  seed_ok seed = true ->
  df_len df <> 0%nat ->
  columns_get (df_columns df) "close" = Some (NumCol (Some <$> qs)) ->
  (2 <= z < 2 ^ 63)%Z ->
  always_rises qs ->
  exact_prices z (Some <$> qs) = true ->
  exists (rate : cell) (signals : list Z) (w' : World),
    process_data df seed (PInt z) w = (Ok (df_len df, rate, signals), w') /\
    length signals = length qs /\
    gt_astype_int (Some <$> qs) (roll_mean_f64 (Z.to_nat z) (Some <$> qs)) = signals /\
    forall i : nat,
      (i < length qs)%nat ->
      signals !! i = Some (if (Z.of_nat i <? z - 1)%Z then 0%Z else 1%Z).
Proof.
  intros Hseed Hrows Hclose Hz Hmono Hexact.
  eexists _, _, _. split; [|split; [|split]].
  - apply (process_data_numeric df seed z _ w Hseed Hrows Hclose). lia.
  - rewrite length_signal_series, length_fmap. reflexivity.
  - apply rounded_means_keep_signals; [lia | exact Hexact].
  - intros i Hi. destruct (lookup_lt_is_Some_2 qs i Hi) as [q Hq].
    rewrite (signal_series_always_rises (Z.to_nat z) qs i q) by (try assumption; lia).
    f_equal.
    destruct (Nat.ltb_spec (S i) (Z.to_nat z));
      destruct (Z.ltb_spec (Z.of_nat i) (z - 1)); try reflexivity; lia.
Qed.

Lemma rising_prices_witness :
  exists (rate : cell) (signals : list Z) (w' : World),
    process_data rising_df (PInt 42) (PInt 2) scenario_world
      = (Ok (df_len rising_df, rate, signals), w') /\
    length signals = length rising_prices /\
    gt_astype_int (Some <$> rising_prices)
      (roll_mean_f64 (Z.to_nat 2) (Some <$> rising_prices)) = signals /\
    forall i : nat,
      (i < length rising_prices)%nat ->
      signals !! i = Some (if (Z.of_nat i <? 2 - 1)%Z then 0%Z else 1%Z).
Proof.
  apply (rising_prices_always_signal rising_df (PInt 42) 2 rising_prices
           scenario_world);
    [reflexivity | discriminate | reflexivity | lia | | reflexivity].
  intros [|[|[|[|j]]]] [|[|[|[|i]]]] qj qi Hji Hj Hi; simpl in Hj, Hi;
    try discriminate; try lia;
    injection Hj as <-; injection Hi as <-; unfold Qlt; simpl; lia.
Defined.

(** X23. On close values where float64 arithmetic is exact, the signal
    series of the processor is the one the specification words: for a
    positive window below [2 ** 63], the signal of a row is 1 exactly when
    its close value is strictly greater than the arithmetic mean of the
    close values of the [window] rows that end there, and 0 on the first
    [window - 1] rows and wherever a value of the window is missing.  The
    float64 means give the same signals: rounding moves no mean across a
    price. *)
Theorem signals_meet_spec_on_exact_prices (df : DataFrame) (seed : pyval) (z : Z)
    (vals : list cell) (w : World) :
  df_wf df ->
  df_len df <> 0%nat ->
  seed_ok seed = true ->
  columns_get (df_columns df) "close" = Some (NumCol vals) ->
  (0 < z < 2 ^ 63)%Z ->
  exact_prices z vals = true ->
  exists (rate : cell) (signals : list Z) (w' : World),
    process_data df seed (PInt z) w = (Ok (df_len df, rate, signals), w') /\
    length signals = df_len df /\
    gt_astype_int vals (roll_mean_f64 (Z.to_nat z) vals) = signals /\
    forall i : nat,
      (i < df_len df)%nat ->
      signals !! i = Some (spec_signal (Z.to_nat z) vals i) /\
      ((Z.of_nat i < z - 1)%Z -> spec_signal (Z.to_nat z) vals i = 0%Z).
Proof.
  intros Hwf Hrows Hseed Hclose Hz Hexact.
  pose proof (df_wf_column df "close" _ Hwf Hclose) as Hlen. simpl in Hlen.
  eexists _, _, _. split; [|split; [|split]].
  - apply (process_data_numeric df seed z vals w Hseed Hrows Hclose). lia.
  - rewrite length_signal_series. exact Hlen.
  - apply rounded_means_keep_signals; assumption.
  - intros i Hi. rewrite <- Hlen in Hi.
    destruct (lookup_lt_is_Some_2 vals i Hi) as [c Hc].
    rewrite (signal_series_lookup _ vals i c Hc).
    rewrite (spec_signal_correct _ vals i c) by (try exact Hc; lia).
    split; [reflexivity|].
    intros Hwarm. unfold spec_signal, spec_rolling_mean.
    destruct (Nat.ltb_spec (S i) (Z.to_nat z)) as [_|?]; [|lia].
    destruct (vals !! i) as [[x|]|]; reflexivity.
Qed.

Lemma signals_meet_spec_witness :
  exists (rate : cell) (signals : list Z) (w' : World),
    process_data scenario_df (PInt 42) (PInt 3) scenario_world
      = (Ok (df_len scenario_df, rate, signals), w') /\
    length signals = df_len scenario_df /\
    gt_astype_int (map Q2c [1; 2; 3; 2; 5]%Z)
      (roll_mean_f64 (Z.to_nat 3) (map Q2c [1; 2; 3; 2; 5]%Z)) = signals /\
    forall i : nat,
      (i < df_len scenario_df)%nat ->
      signals !! i = Some (spec_signal (Z.to_nat 3) (map Q2c [1; 2; 3; 2; 5]%Z) i) /\
      ((Z.of_nat i < 3 - 1)%Z ->
       spec_signal (Z.to_nat 3) (map Q2c [1; 2; 3; 2; 5]%Z) i = 0%Z).
Proof.
  apply (signals_meet_spec_on_exact_prices scenario_df (PInt 42) 3
           (map Q2c [1; 2; 3; 2; 5]%Z) scenario_world);
    [repeat constructor | discriminate | reflexivity | reflexivity | lia
    | reflexivity].
Defined.

(* ------------------------------------------------------------------ *)
(** ** The run, stage by stage *)

Lemma logger_info_run (m : log_msg) (w : World) :
  logger_info m w = (Ok tt, log_world w [LogRecord INFO m]).
Proof. reflexivity. Qed.

Lemma log_world_app (w : World) (l1 l2 : list log_record) :
  log_world (log_world w l1) l2 = log_world w (l1 ++ l2).
Proof.
  unfold log_world. simpl. rewrite fmap_app, !app_assoc. reflexivity.
Qed.

Lemma process_data_world (df : DataFrame) (seed window : pyval) (w : World) :
  seed_ok seed = true ->
  (process_data df seed window w).2 = set_np_seed w (seed_state seed).
Proof.
  intros Hok. unfold process_data, py_bind.
  rewrite (np_random_seed_ok seed w Hok). unfold py_lift.
  destruct (df_getitem df "close") as [close|e]; [|reflexivity].
  destruct (series_rolling close window) as [r|e]; [|reflexivity].
  destruct (rolling_obj_mean r) as [m|e]; reflexivity.
Qed.

(** The first value the processor returns is the row count of the table. *)
Lemma process_data_rows (df : DataFrame) (seed window : pyval) (w : World)
    (rows : nat) (rate : cell) (signals : list Z) :
  (process_data df seed window w).1 = Ok (rows, rate, signals) -> rows = df_len df.
Proof.
  unfold process_data, py_bind.
  destruct (np_random_seed seed w) as [[[]|e] w1]; [|discriminate].
  unfold py_lift.
  destruct (df_getitem df "close") as [close|e]; [|discriminate].
  destruct (series_rolling close window) as [r|e]; [|discriminate].
  destruct (rolling_obj_mean r) as [m|e]; [|discriminate].
  unfold py_ret. cbn [fst]. intros [= <- _ _]. reflexivity.
Qed.

(** The processor's result does not depend on the world. *)
Lemma process_data_result (df : DataFrame) (seed window : pyval) (w w' : World) :
  (process_data df seed window w).1 = (process_data df seed window w').1.
Proof.
  assert (Hseed : (np_random_seed seed w).1 = (np_random_seed seed w').1).
  { unfold np_random_seed. destruct seed as [| [|] |z| | |]; simpl; try reflexivity;
      destruct ((z <? 0)%Z || (2 ^ 32 - 1 <? z)%Z); reflexivity. }
  unfold process_data, py_bind.
  destruct (np_random_seed seed w) as [[[]|e] w1],
           (np_random_seed seed w') as [[[]|e'] w1']; simpl in Hseed;
    try discriminate Hseed;
    [|injection Hseed as ->; reflexivity].
  unfold py_lift.
  destruct (df_getitem df "close") as [close|e]; [|reflexivity].
  destruct (series_rolling close window) as [r|e]; [|reflexivity].
  destruct (rolling_obj_mean r) as [m|e]; reflexivity.
Qed.

Section Run.

Variable yaml_safe_load : string -> result pyval.
Variable read_csv : string -> result DataFrame.
Variable json_dumps : pyval -> string.
Variable args : Args.

(** The data loader's result is a function of the files. *)
Lemma load_data_result (w w' : World) :
  files w' = files w ->
  load_data read_csv (arg_input args) w' =
    ((load_data read_csv (arg_input args) w).1, w').
Proof.
  intros Hf.
  pose proof (load_data_world read_csv (arg_input args) w') as Hw.
  assert (Hres : (load_data read_csv (arg_input args) w').1
                 = (load_data read_csv (arg_input args) w).1).
  { apply (stage_load_data read_csv args).
    apply (same_inputs_files args w w); auto. split; reflexivity. }
  destruct (load_data read_csv (arg_input args) w') as [r w1].
  simpl in *. congruence.
Qed.

Lemma load_config_result (w w' : World) :
  files w' = files w ->
  load_config yaml_safe_load (arg_config args) w' =
    ((load_config yaml_safe_load (arg_config args) w).1, w').
Proof.
  intros Hf.
  pose proof (load_config_world yaml_safe_load (arg_config args) w') as Hw.
  assert (Hres : (load_config yaml_safe_load (arg_config args) w').1
                 = (load_config yaml_safe_load (arg_config args) w).1).
  { apply (stage_load_config yaml_safe_load args).
    apply (same_inputs_files args w w); auto. split; reflexivity. }
  destruct (load_config yaml_safe_load (arg_config args) w') as [r w1].
  simpl in *. congruence.
Qed.

(** The pipeline, by the result of the configuration loader. *)
Lemma main_pipeline_run (w : World) :
  main_pipeline yaml_safe_load read_csv args w =
    match (load_config yaml_safe_load (arg_config args) w).1 with
    | Raise e => (Raise e, log_world w [LogRecord INFO Job_started])
    | Ok config =>
        match py_getitem config "seed", py_getitem config "window",
              py_getitem config "version" with
        | Ok seed, Ok window, Ok version =>
            pipeline_after_config read_csv args seed window version
              (log_world w [LogRecord INFO Job_started;
                            LogRecord INFO (Config_loaded seed window version)])
        | Raise e, _, _ | Ok _, Raise e, _ | Ok _, Ok _, Raise e =>
            (Raise e, log_world w [LogRecord INFO Job_started])
        end
    end.
Proof.
  unfold main_pipeline. unfold py_bind at 1. rewrite logger_info_run.
  unfold py_bind at 1.
  rewrite (load_config_result w) by reflexivity.
  destruct (load_config yaml_safe_load (arg_config args) w).1 as [config|e];
    [|reflexivity].
  unfold py_bind at 1. unfold py_lift at 1.
  destruct (py_getitem config "seed") as [seed|e]; [|reflexivity].
  unfold py_bind at 1. unfold py_lift at 1.
  destruct (py_getitem config "window") as [window|e]; [|reflexivity].
  unfold py_bind at 1. unfold py_lift at 1.
  destruct (py_getitem config "version") as [version|e]; [|reflexivity].
  unfold py_bind at 1. rewrite logger_info_run, log_world_app.
  reflexivity.
Qed.

(** The rest of the pipeline, by the results of its stages. *)
Lemma pipeline_after_config_run (seed window version : pyval) (w : World) :
  seed_ok seed = true ->
  pipeline_after_config read_csv args seed window version w =
    match (load_data read_csv (arg_input args) w).1 with
    | Raise e => (Raise e, set_np_seed w (seed_state seed))
    | Ok df =>
        match (process_data df seed window w).1 with
        | Raise e =>
            (Raise e,
             set_np_seed
               (log_world (set_np_seed w (seed_state seed))
                  [LogRecord INFO (Data_loaded (df_len df));
                   LogRecord INFO (Rolling_mean_calculated window)])
               (seed_state seed))
        | Ok (rows_processed, signal_rate, _) =>
            (Ok (version, seed, rows_processed, signal_rate),
             log_world
               (set_np_seed
                  (log_world (set_np_seed w (seed_state seed))
                     [LogRecord INFO (Data_loaded (df_len df));
                      LogRecord INFO (Rolling_mean_calculated window)])
                  (seed_state seed))
               [LogRecord INFO Signals_generated])
        end
    end.
Proof.
  intros Hok. unfold pipeline_after_config. unfold py_bind at 1.
  rewrite (np_random_seed_ok seed w Hok).
  unfold py_bind at 1.
  rewrite (load_data_result w) by reflexivity.
  destruct (load_data read_csv (arg_input args) w).1 as [df|e]; [|reflexivity].
  unfold py_bind at 1. rewrite logger_info_run.
  unfold py_bind at 1. rewrite logger_info_run, log_world_app.
  unfold py_bind at 1.
  pose proof (process_data_world df seed window
                (log_world (set_np_seed w (seed_state seed))
                   ([LogRecord INFO (Data_loaded (df_len df))] ++
                    [LogRecord INFO (Rolling_mean_calculated window)])) Hok) as Hw.
  pose proof (process_data_result df seed window
                (log_world (set_np_seed w (seed_state seed))
                   ([LogRecord INFO (Data_loaded (df_len df))] ++
                    [LogRecord INFO (Rolling_mean_calculated window)])) w) as Hr.
  destruct (process_data df seed window
              (log_world (set_np_seed w (seed_state seed))
                 ([LogRecord INFO (Data_loaded (df_len df))] ++
                  [LogRecord INFO (Rolling_mean_calculated window)])))
    as [r w2].
  simpl in Hw, Hr. subst w2. rewrite <- Hr.
  destruct r as [[[rows rate] sigs]|e]; reflexivity.
Qed.

(** A seed NumPy refuses stops the pipeline before the input is read. *)
Lemma pipeline_after_config_bad_seed (seed window version : pyval) (w : World) :
  seed_ok seed = false ->
  exists e, np_random_seed seed w = (Raise e, w) /\
            pipeline_after_config read_csv args seed window version w = (Raise e, w).
Proof.
  intros Hbad. destruct (np_random_seed_bad seed w Hbad) as [e He].
  exists e. split; [exact He|].
  unfold pipeline_after_config. unfold py_bind at 1. rewrite He. reflexivity.
Qed.

End Run.

Section RunFacts.

Variable yaml_safe_load : string -> result pyval.
Variable read_csv : string -> result DataFrame.
Variable json_dumps : pyval -> string.
Variable args : Args.

Lemma main_pipeline_config_read (w : World) (seed window version : pyval) :
  config_read yaml_safe_load args w seed window version ->
  main_pipeline yaml_safe_load read_csv args w =
    pipeline_after_config read_csv args seed window version
      (log_world w [LogRecord INFO Job_started;
                    LogRecord INFO (Config_loaded seed window version)]).
Proof.
  intros (ctext & items & Hc & Hdoc & Hseed & Hwin & Hver).
  rewrite main_pipeline_run.
  rewrite (load_config_dict yaml_safe_load (arg_config args) ctext items w Hc Hdoc).
  rewrite (missing_keys_nil items seed window version) by assumption.
  cbn [fst py_getitem]. rewrite Hseed, Hwin, Hver. reflexivity.
Qed.

(** When the pipeline succeeds on a table, the row count it hands to the
    report is the table's. *)
Lemma main_pipeline_rows (w w1 : World) (version seed : pyval) (rows : nat)
    (rate : cell) (df : DataFrame) :
  table_read read_csv args w df ->
  main_pipeline yaml_safe_load read_csv args w = (Ok (version, seed, rows, rate), w1) ->
  rows = df_len df.
Proof.
  intros (dtext & Hd & Htab). rewrite main_pipeline_run.
  destruct (load_config yaml_safe_load (arg_config args) w).1 as [config|e];
    [|discriminate].
  destruct (py_getitem config "seed") as [s|e]; [|discriminate].
  destruct (py_getitem config "window") as [win|e]; [|discriminate].
  destruct (py_getitem config "version") as [ver|e]; [|discriminate].
  destruct (seed_ok s) eqn:Hok.
  - rewrite pipeline_after_config_run by exact Hok.
    rewrite (load_data_result read_csv args w) by reflexivity.
    cbn [fst]. rewrite (load_data_parsed read_csv _ dtext df w Hd Htab). cbn [fst].
    destruct (df_empty df); [discriminate|].
    destruct (df_has_column df "close"); [|discriminate].
    destruct (process_data df s win _).1 as [[[rows' rate'] sigs]|e] eqn:E;
      [|discriminate].
    intros [= _ _ <- _ _]. apply process_data_rows in E. exact E.
  - destruct (pipeline_after_config_bad_seed read_csv args s win ver
                (log_world w [LogRecord INFO Job_started;
                              LogRecord INFO (Config_loaded s win ver)])
                Hok) as (e & _ & ->).
    discriminate.
Qed.

(** The world a run leaves, by the outcome of its pipeline. *)
Lemma main_world (t0 t1 : Q) (w : World) :
  main yaml_safe_load read_csv json_dumps args t0 t1 w =
    match main_pipeline yaml_safe_load read_csv args w with
    | (Ok (version, seed, rows, rate), w1) =>
        let latency := latency_of t0 t1 in
        let text := json_dumps (success_metrics version rows rate latency seed) in
        (0%Z,
         mkWorld (<[arg_output args := text]> (files w1))
           (stdout w1 ++ [LogLine (LogRecord INFO (Metrics_computed rate rows));
                          LogLine (LogRecord INFO (Job_completed latency));
                          Printed text])
           (log_file w1 ++ [LogRecord INFO (Metrics_computed rate rows);
                            LogRecord INFO (Job_completed latency)])
           (np_seed w1))
    | (Raise e, w1) =>
        let text := json_dumps (error_metrics e) in
        (1%Z,
         mkWorld (<[arg_output args := text]> (files w1))
           (stdout w1 ++ [LogLine (LogRecord ERROR (Job_failed (exn_str e)));
                          Printed text])
           (log_file w1 ++ [LogRecord ERROR (Job_failed (exn_str e))])
           (np_seed w1))
    end.
Proof.
  unfold main, main_try, py_bind.
  destruct (main_pipeline yaml_safe_load read_csv args w)
    as [[[[[version seed] rows] rate]|e] w1]; simpl;
    rewrite <- ?app_assoc; reflexivity.
Qed.

(** The pipeline only logs: it starts with "Job started" and goes on with
    INFO records, each sent to the log file and to standard output. *)
Lemma pipeline_world (w : World) :
  exists l : list log_record,
    log_file (main_pipeline yaml_safe_load read_csv args w).2
      = (log_file w ++ LogRecord INFO Job_started :: l)%list /\
    stdout (main_pipeline yaml_safe_load read_csv args w).2
      = (stdout w ++ (LogLine <$> LogRecord INFO Job_started :: l))%list /\
    files (main_pipeline yaml_safe_load read_csv args w).2 = files w /\
    Forall (fun r => levelname r = INFO) l.
Proof.
  rewrite main_pipeline_run.
  destruct (load_config yaml_safe_load (arg_config args) w).1 as [config|e];
    [|exists []; repeat split; constructor].
  destruct (py_getitem config "seed") as [seed|e];
    [|exists []; repeat split; constructor].
  destruct (py_getitem config "window") as [window|e];
    [|exists []; repeat split; constructor].
  destruct (py_getitem config "version") as [version|e];
    [|exists []; repeat split; constructor].
  destruct (seed_ok seed) eqn:Hok.
  - rewrite pipeline_after_config_run by exact Hok.
    destruct (load_data read_csv (arg_input args) _).1 as [df|e].
    + destruct (process_data df seed window _).1 as [[[rows rate] sigs]|e];
        eexists; (split; [simpl; rewrite <- ?app_assoc; reflexivity|]);
        (split; [simpl; rewrite <- ?app_assoc; reflexivity|]);
        (split; [reflexivity|]); repeat constructor.
    + eexists; (split; [simpl; rewrite <- ?app_assoc; reflexivity|]);
        (split; [simpl; rewrite <- ?app_assoc; reflexivity|]);
        (split; [reflexivity|]); repeat constructor.
  - destruct (pipeline_after_config_bad_seed read_csv args seed window version
                (log_world w [LogRecord INFO Job_started;
                              LogRecord INFO (Config_loaded seed window version)])
                Hok) as (e & _ & ->).
    eexists; (split; [simpl; rewrite <- ?app_assoc; reflexivity|]);
      (split; [simpl; rewrite <- ?app_assoc; reflexivity|]);
      (split; [reflexivity|]); repeat constructor.
Qed.

(** What a failing pipeline means for the run: the record of the error. *)
Lemma main_reports (t0 t1 : Q) (w : World) (e : exn) :
  (main_pipeline yaml_safe_load read_csv args w).1 = Raise e ->
  (main yaml_safe_load read_csv json_dumps args t0 t1 w).1 = 1%Z /\
  files (main yaml_safe_load read_csv json_dumps args t0 t1 w).2 !! arg_output args
    = Some (json_dumps (error_metrics e)) /\
  last (stdout (main yaml_safe_load read_csv json_dumps args t0 t1 w).2)
    = Some (Printed (json_dumps (error_metrics e))).
Proof.
  intros Hp.
  destruct (main_pipeline yaml_safe_load read_csv args w) as [r w1] eqn:E.
  simpl in Hp. subst r.
  destruct (main_failure yaml_safe_load read_csv json_dumps args t0 t1 w w1 e E)
    as (Hcode & Hfiles & Hout & _).
  split; [exact Hcode|]. split; [|exact Hout].
  rewrite Hfiles. apply lookup_insert_eq.
Qed.

End RunFacts.

(* ------------------------------------------------------------------ *)
(** ** How a run fails *)

Lemma filter_all_present (items : list (string * pyval)) (keys : list string) :
  Forall (fun k => is_Some (dict_get items k)) keys ->
  filter (fun k => dict_get items k = None) keys = [].
Proof.
  induction 1 as [|k keys [v Hk] _ IH]; [reflexivity|].
  rewrite filter_cons, IH. rewrite Hk.
  destruct (decide (Some v = None)) as [?|_]; [discriminate|reflexivity].
Qed.

Lemma process_data_bad_window (df : DataFrame) (seed window : pyval)
    (c : column) (w : World) :
  seed_ok seed = true ->
  columns_get (df_columns df) "close" = Some c ->
  window_ok window = false ->
  (process_data df seed window w).1 =
    Raise (Exn ValueError "window must be an integer 0 or greater").
Proof.
  intros Hok Hclose Hwin. unfold process_data, py_bind.
  rewrite (np_random_seed_ok seed w Hok).
  unfold py_lift, df_getitem. rewrite Hclose. unfold series_rolling.
  destruct window as [| | z | | |]; try reflexivity.
  simpl in Hwin. apply Z.leb_gt in Hwin.
  destruct (Z.ltb_spec z 0) as [_|?]; [reflexivity|lia].
Qed.

Lemma process_data_object_column (df : DataFrame) (seed window : pyval)
    (texts : list string) (w : World) :
  seed_ok seed = true ->
  df_len df <> 0%nat ->
  columns_get (df_columns df) "close" = Some (ObjCol texts) ->
  window_ok window = true ->
  exists msg, (process_data df seed window w).1 = Raise (Exn DataError msg).
Proof.
  intros Hok Hrows Hclose Hwin. unfold process_data, py_bind.
  rewrite (np_random_seed_ok seed w Hok).
  unfold py_lift, df_getitem. rewrite Hclose. unfold series_rolling.
  destruct window as [| | z | | |]; try discriminate Hwin.
  simpl in Hwin. apply Z.leb_le in Hwin.
  destruct (Z.ltb_spec z 0) as [?|_]; [lia|].
  unfold rolling_obj_mean. cbn [fst snd sr_len sr_values].
  destruct (Nat.eqb_spec (df_len df) 0) as [?|_]; [contradiction|].
  eexists. reflexivity.
Qed.



Section RunFailures.

Variable yaml_safe_load : string -> result pyval.
Variable read_csv : string -> result DataFrame.
Variable json_dumps : pyval -> string.
Variable args : Args.

Lemma pipeline_fails_with (t0 t1 : Q) (w : World) (e : exn) :
  (main_pipeline yaml_safe_load read_csv args w).1 = Raise e ->
  fails_with json_dumps args
    (main yaml_safe_load read_csv json_dumps args t0 t1 w) e.
Proof. intros Hp. unfold fails_with. apply main_reports. exact Hp. Qed.

Lemma load_data_unparsed (p text : string) (e : exn) (w : World) :
  files w !! p = Some text -> read_csv text = Raise e ->
  load_data read_csv p w = (Raise e, w).
Proof.
  intros Hp He. unfold load_data, py_bind, os_path_exists, read_file, py_lift.
  rewrite Hp. simpl. rewrite Hp, He. reflexivity.
Qed.

(** With the configuration read and the seed accepted, the pipeline fails as
    the data loader does. *)
Lemma pipeline_data_failure (w : World) (seed window version : pyval) (e : exn) :
  config_read yaml_safe_load args w seed window version ->
  seed_ok seed = true ->
  (load_data read_csv (arg_input args) w).1 = Raise e ->
  (main_pipeline yaml_safe_load read_csv args w).1 = Raise e.
Proof.
  intros Hcfg Hok Hdata.
  rewrite (main_pipeline_config_read yaml_safe_load read_csv args w _ _ _ Hcfg).
  rewrite pipeline_after_config_run by exact Hok.
  rewrite (load_data_result read_csv args w) by reflexivity.
  cbn [fst]. rewrite Hdata. reflexivity.
Qed.

(** With the configuration read, the seed accepted and the table loaded, the
    pipeline fails as the processor does. *)
Lemma pipeline_process_failure (w : World) (seed window version : pyval)
    (df : DataFrame) (e : exn) :
  config_read yaml_safe_load args w seed window version ->
  seed_ok seed = true ->
  (load_data read_csv (arg_input args) w).1 = Ok df ->
  (process_data df seed window w).1 = Raise e ->
  (main_pipeline yaml_safe_load read_csv args w).1 = Raise e.
Proof.
  intros Hcfg Hok Hdata Hproc.
  rewrite (main_pipeline_config_read yaml_safe_load read_csv args w _ _ _ Hcfg).
  rewrite pipeline_after_config_run by exact Hok.
  rewrite (load_data_result read_csv args w) by reflexivity.
  cbn [fst]. rewrite Hdata.
  rewrite (process_data_result df seed window _ w), Hproc. reflexivity.
Qed.

Lemma load_data_usable (w : World) (df : DataFrame) (c : column) :
  table_read read_csv args w df ->
  df_empty df = false ->
  columns_get (df_columns df) "close" = Some c ->
  (load_data read_csv (arg_input args) w).1 = Ok df.
Proof.
  intros (dtext & Hd & Hdoc) Hne Hclose.
  rewrite (load_data_parsed read_csv (arg_input args) dtext df w Hd Hdoc).
  rewrite Hne, (df_has_close df c Hclose). reflexivity.
Qed.

End RunFailures.













(** X24. A window of [2 ** 63] or more passes the configuration loader and
    [rolling], and fails the run in the processor: on a table with rows and
    a numeric close column the bounds of the windows overflow int64, the
    rolling mean raises an OverflowError and the run exits 1 with its error
    record. *)
Theorem huge_window_fails_the_run
    (yaml_safe_load : string -> result pyval)
    (read_csv : string -> result DataFrame)
    (json_dumps : pyval -> string)
    (args : Args) (t0 t1 : Q) (w : World)
    (seed version : pyval) (z : Z) (df : DataFrame) (vals : list cell) :
  log_file_apart args = true ->
  config_read yaml_safe_load args w seed (PInt z) version ->
  seed_ok seed = true ->
  table_read read_csv args w df ->
  df_empty df = false ->
  columns_get (df_columns df) "close" = Some (NumCol vals) ->
  (2 ^ 63 <= z)%Z ->
  series_rolling (mkSeries (df_len df) (NumCol vals)) (PInt z)
    = Ok (mkSeries (df_len df) (NumCol vals), z) /\
  exists msg : string,
    fails_with json_dumps args
      (main yaml_safe_load read_csv json_dumps args t0 t1 w)
      (Exn OverflowError msg).
Proof.
  intros _ Hcfg Hok Htab Hne Hclose Hz. split.
  - unfold series_rolling.
    destruct (Z.ltb_spec z 0) as [?|_]; [lia | reflexivity].
  - destruct (process_data_overflow df seed z vals w Hok (df_empty_rows df Hne)
                Hclose Hz) as [msg Hmsg].
    exists msg. apply pipeline_fails_with.
    apply (pipeline_process_failure yaml_safe_load read_csv args w seed (PInt z)
             version df); try assumption.
    apply (load_data_usable read_csv args w df (NumCol vals)); assumption.
Qed.

Lemma huge_window_witness :
  series_rolling (mkSeries (df_len scenario_df) (NumCol (map Q2c [1; 2; 3; 2; 5]%Z)))
    (PInt (2 ^ 63))
    = Ok (mkSeries (df_len scenario_df) (NumCol (map Q2c [1; 2; 3; 2; 5]%Z)), 2 ^ 63)%Z /\
  exists msg : string,
    fails_with toy_dumps scenario_args
      (main demo_yaml demo_csv toy_dumps scenario_args 10 11
         (disk huge_window_yaml scenario_csv))
      (Exn OverflowError msg).
Proof.
  apply (huge_window_fails_the_run demo_yaml demo_csv toy_dumps scenario_args
           10 11 (disk huge_window_yaml scenario_csv) (PInt 42) (PStr "v1")
           (2 ^ 63) scenario_df (map Q2c [1; 2; 3; 2; 5]%Z)).
  - reflexivity.
  - exists huge_window_yaml,
      [("seed", PInt 42); ("window", PInt (2 ^ 63)); ("version", PStr "v1")].
    repeat split; vm_compute; reflexivity.
  - reflexivity.
  - exists scenario_csv. split; vm_compute; reflexivity.
  - reflexivity.
  - reflexivity.
  - lia.
Defined.

(* ------------------------------------------------------------------ *)
(** ** What every run leaves behind *)

(** X15. A run changes no file but its output file and its log file: every
    other path keeps its content, or its absence, whatever the inputs and
    however the run ends. *)
Theorem run_writes_only_the_output
    (yaml_safe_load : string -> result pyval)
    (read_csv : string -> result DataFrame)
    (json_dumps : pyval -> string)
    (args : Args) (t0 t1 : Q) (w : World) (p : string) :
  p <> arg_output args ->
  p <> arg_log_file args ->
  files (main yaml_safe_load read_csv json_dumps args t0 t1 w).2 !! p
    = files w !! p.
Proof.
  intros Hout _.
  destruct (pipeline_world yaml_safe_load read_csv args w) as (l & _ & _ & Hfiles & _).
  rewrite main_world.
  destruct (main_pipeline yaml_safe_load read_csv args w)
    as [[[[[version seed] rows] rate]|e] w1]; simpl in Hfiles |- *;
    rewrite Hfiles; apply lookup_insert_ne; congruence.
Qed.

Lemma run_writes_only_the_output_witness :
  files (main toy_yaml toy_csv toy_dumps scenario_args 10 11 scenario_world).2
    !! "data.csv" = files scenario_world !! "data.csv".
Proof.
  apply (run_writes_only_the_output toy_yaml toy_csv toy_dumps scenario_args
           10 11 scenario_world "data.csv");
    discriminate.
Defined.

(** X16. With a log path that is none of the other three paths, every run
    ends in one of two ways.  Either it exits 0 and the record it wrote and
    printed last has status "success", a [rows_processed] field and no
    [error_message]; or it exits 1 and the record has status "error", an
    [error_message] and no [rows_processed] or [value]. *)
Theorem exit_status_matches_record
    (yaml_safe_load : string -> result pyval)
    (read_csv : string -> result DataFrame)
    (json_dumps : pyval -> string)
    (args : Args) (t0 t1 : Q) (w : World) :
  log_file_apart args = true ->
  exists r : pyval,
    files (main yaml_safe_load read_csv json_dumps args t0 t1 w).2 !! arg_output args
      = Some (json_dumps r) /\
    last (stdout (main yaml_safe_load read_csv json_dumps args t0 t1 w).2)
      = Some (Printed (json_dumps r)) /\
    (((main yaml_safe_load read_csv json_dumps args t0 t1 w).1 = 0%Z /\
      field r "status" = Some (PStr "success") /\
      is_Some (field r "rows_processed") /\
      field r "error_message" = None) \/
     ((main yaml_safe_load read_csv json_dumps args t0 t1 w).1 = 1%Z /\
      field r "status" = Some (PStr "error") /\
      is_Some (field r "error_message") /\
      field r "rows_processed" = None /\
      field r "value" = None)).
Proof.
  intros _. rewrite main_world.
  destruct (main_pipeline yaml_safe_load read_csv args w)
    as [[[[[version seed] rows] rate]|e] w1]; cbv zeta; cbn [fst snd files stdout].
  - eexists. split; [apply lookup_insert_eq|]. split.
    + change (stdout w1 ++ [LogLine (LogRecord INFO (Metrics_computed rate rows));
                LogLine (LogRecord INFO (Job_completed (latency_of t0 t1)));
                Printed (json_dumps (success_metrics version rows rate
                                       (latency_of t0 t1) seed))])%list
        with (stdout w1 ++ ([LogLine (LogRecord INFO (Metrics_computed rate rows));
                LogLine (LogRecord INFO (Job_completed (latency_of t0 t1)))]
                ++ [Printed (json_dumps (success_metrics version rows rate
                                       (latency_of t0 t1) seed))]))%list.
      rewrite app_assoc. apply last_snoc.
    + left. repeat split; try reflexivity. eexists. reflexivity.
  - eexists. split; [apply lookup_insert_eq|]. split.
    + change (stdout w1 ++ [LogLine (LogRecord ERROR (Job_failed (exn_str e)));
                Printed (json_dumps (error_metrics e))])%list
        with (stdout w1 ++ ([LogLine (LogRecord ERROR (Job_failed (exn_str e)))]
                ++ [Printed (json_dumps (error_metrics e))]))%list.
      rewrite app_assoc. apply last_snoc.
    + right. repeat split; try reflexivity. eexists. reflexivity.
Qed.

Lemma exit_status_witness :
  exists r : pyval,
    files (main toy_yaml toy_csv toy_dumps scenario_args 10 11 headers_only_world).2
      !! arg_output scenario_args = Some (toy_dumps r) /\
    last (stdout (main toy_yaml toy_csv toy_dumps scenario_args 10 11
                    headers_only_world).2)
      = Some (Printed (toy_dumps r)) /\
    (((main toy_yaml toy_csv toy_dumps scenario_args 10 11 headers_only_world).1 = 0%Z /\
      field r "status" = Some (PStr "success") /\
      is_Some (field r "rows_processed") /\
      field r "error_message" = None) \/
     ((main toy_yaml toy_csv toy_dumps scenario_args 10 11 headers_only_world).1 = 1%Z /\
      field r "status" = Some (PStr "error") /\
      is_Some (field r "error_message") /\
      field r "rows_processed" = None /\
      field r "value" = None)).
Proof.
  apply (exit_status_matches_record toy_yaml toy_csv toy_dumps scenario_args
           10 11 headers_only_world).
  reflexivity.
Defined.

(** X17. With a log path that is none of the other three paths, every run
    logs "Job started" first and one closing record last: "Job completed"
    (INFO), with the latency computed from the two float64 readings of the
    clock, when it exits 0, and "Job failed" (the only ERROR record) when it
    exits 1, with INFO records in between.  Each record goes to the log file
    and, in the same order, to standard output, where the printed record
    follows the last log line. *)
Theorem run_log_shape
    (yaml_safe_load : string -> result pyval)
    (read_csv : string -> result DataFrame)
    (json_dumps : pyval -> string)
    (args : Args) (t0 t1 : Q) (w : World) :
  log_file_apart args = true ->
  exists (middle : list log_record) (closing : log_record) (r : pyval),
    log_file (main yaml_safe_load read_csv json_dumps args t0 t1 w).2
      = (log_file w ++ LogRecord INFO Job_started :: middle ++ [closing])%list /\
    stdout (main yaml_safe_load read_csv json_dumps args t0 t1 w).2
      = (stdout w ++ (LogLine <$> LogRecord INFO Job_started :: middle ++ [closing])
           ++ [Printed (json_dumps r)])%list /\
    Forall (fun rec => levelname rec = INFO) middle /\
    (((main yaml_safe_load read_csv json_dumps args t0 t1 w).1 = 0%Z /\
      closing = LogRecord INFO (Job_completed (latency_of t0 t1))) \/
     ((main yaml_safe_load read_csv json_dumps args t0 t1 w).1 = 1%Z /\
      exists e : exn, closing = LogRecord ERROR (Job_failed (exn_str e)))).
Proof.
  intros _.
  destruct (pipeline_world yaml_safe_load read_csv args w)
    as (l & Hlog & Hout & _ & Hinfo).
  rewrite main_world.
  destruct (main_pipeline yaml_safe_load read_csv args w)
    as [[[[[version seed] rows] rate]|e] w1]; cbv zeta;
    cbn [fst snd log_file stdout] in Hlog, Hout |- *; rewrite Hlog, Hout.
  - exists (l ++ [LogRecord INFO (Metrics_computed rate rows)])%list,
      (LogRecord INFO (Job_completed (latency_of t0 t1))),
      (success_metrics version rows rate (latency_of t0 t1) seed).
    split; [|split; [|split]].
    + rewrite <- ?app_assoc. simpl. rewrite <- ?app_assoc. reflexivity.
    + rewrite !fmap_cons, !fmap_app. simpl. rewrite <- ?app_assoc. simpl.
      rewrite <- ?app_assoc. reflexivity.
    + apply Forall_app. split; [exact Hinfo | repeat constructor].
    + left. split; reflexivity.
  - exists l, (LogRecord ERROR (Job_failed (exn_str e))), (error_metrics e).
    split; [|split; [|split]].
    + rewrite <- ?app_assoc. reflexivity.
    + rewrite !fmap_cons, !fmap_app. simpl. rewrite <- ?app_assoc. simpl.
      rewrite <- ?app_assoc. reflexivity.
    + exact Hinfo.
    + right. split; [reflexivity|]. eexists. reflexivity.
Qed.

Lemma run_log_shape_witness :
  exists (middle : list log_record) (closing : log_record) (r : pyval),
    log_file (main toy_yaml toy_csv toy_dumps scenario_args 10 11 scenario_world).2
      = (log_file scenario_world
           ++ LogRecord INFO Job_started :: middle ++ [closing])%list /\
    stdout (main toy_yaml toy_csv toy_dumps scenario_args 10 11 scenario_world).2
      = (stdout scenario_world
           ++ (LogLine <$> LogRecord INFO Job_started :: middle ++ [closing])
           ++ [Printed (toy_dumps r)])%list /\
    Forall (fun rec => levelname rec = INFO) middle /\
    (((main toy_yaml toy_csv toy_dumps scenario_args 10 11 scenario_world).1 = 0%Z /\
      closing = LogRecord INFO (Job_completed (latency_of 10 11))) \/
     ((main toy_yaml toy_csv toy_dumps scenario_args 10 11 scenario_world).1 = 1%Z /\
      exists e : exn, closing = LogRecord ERROR (Job_failed (exn_str e)))).
Proof.
  apply (run_log_shape toy_yaml toy_csv toy_dumps scenario_args 10 11
           scenario_world).
  reflexivity.
Defined.

(** C5. For every run that finds an input table, with a log path that is
    none of the other three paths: whenever the run succeeds (exit status
    0), the record it writes to the output path and prints last has status
    "success" and, as [rows_processed], the number of data rows of the
    table, warm-up rows included.  And the run does succeed for every valid
    configuration (a mapping with the three keys, a seed NumPy accepts, a
    positive integer window below [2 ** 63], from where on pandas refuses
    the window) and every non-empty table with a numeric close column. *)
Theorem rows_processed_is_row_count
    (yaml_safe_load : string -> result pyval)
    (read_csv : string -> result DataFrame)
    (json_dumps : pyval -> string)
    (args : Args) (t0 t1 : Q) (w : World) (df : DataFrame) :
  table_read read_csv args w df ->
  log_file_apart args = true ->
  ((main yaml_safe_load read_csv json_dumps args t0 t1 w).1 = 0%Z ->
   exists r : pyval,
     files (main yaml_safe_load read_csv json_dumps args t0 t1 w).2 !! arg_output args
       = Some (json_dumps r) /\
     last (stdout (main yaml_safe_load read_csv json_dumps args t0 t1 w).2)
       = Some (Printed (json_dumps r)) /\
     py_getitem r "status" = Ok (PStr "success") /\
     py_getitem r "rows_processed" = Ok (PInt (Z.of_nat (df_len df)))) /\
  (forall (seed version : pyval) (z : Z) (vals : list cell),
     config_read yaml_safe_load args w seed (PInt z) version ->
     seed_ok seed = true ->
     (0 < z < 2 ^ 63)%Z ->
     df_empty df = false ->
     columns_get (df_columns df) "close" = Some (NumCol vals) ->
     (main yaml_safe_load read_csv json_dumps args t0 t1 w).1 = 0%Z).
Proof.
  intros Htab _. split.
  - intros Hcode.
    destruct (main_pipeline yaml_safe_load read_csv args w)
      as [[[[[version seed] rows] rate]|e] w1] eqn:Hp.
    + pose proof (main_pipeline_rows yaml_safe_load read_csv args w w1
                    version seed rows rate df Htab Hp) as Hrows.
      destruct (main_success yaml_safe_load read_csv json_dumps args t0 t1 w w1
                  _ _ _ _ Hp) as (_ & Hfiles & Hout & _).
      eexists. split; [|split; [exact Hout|split; [reflexivity|]]].
      * rewrite Hfiles. apply lookup_insert_eq.
      * rewrite Hrows. reflexivity.
    + destruct (main_failure yaml_safe_load read_csv json_dumps args t0 t1 w w1
                  e Hp) as (Hone & _).
      rewrite Hone in Hcode. discriminate Hcode.
  - intros seed version z vals (ctext & items & Hc & Hdoc & Hseed & Hwin & Hver)
      Hok Hz Hne Hclose.
    destruct Htab as (dtext & Hd & Hparsed).
    destruct (pipeline_valid yaml_safe_load read_csv args w ctext dtext items
                seed version z df vals) as [w1 Hp]; try assumption; [lia|].
    apply (main_success yaml_safe_load read_csv json_dumps args t0 t1 w w1
             _ _ _ _ Hp).
Qed.

Lemma rows_processed_witness :
  ((main toy_yaml toy_csv toy_dumps scenario_args 10 11 scenario_world).1 = 0%Z ->
   exists r : pyval,
     files (main toy_yaml toy_csv toy_dumps scenario_args 10 11 scenario_world).2
       !! arg_output scenario_args = Some (toy_dumps r) /\
     last (stdout (main toy_yaml toy_csv toy_dumps scenario_args 10 11
                     scenario_world).2)
       = Some (Printed (toy_dumps r)) /\
     py_getitem r "status" = Ok (PStr "success") /\
     py_getitem r "rows_processed" = Ok (PInt (Z.of_nat (df_len scenario_df)))) /\
  (forall (seed version : pyval) (z : Z) (vals : list cell),
     config_read toy_yaml scenario_args scenario_world seed (PInt z) version ->
     seed_ok seed = true ->
     (0 < z < 2 ^ 63)%Z ->
     df_empty scenario_df = false ->
     columns_get (df_columns scenario_df) "close" = Some (NumCol vals) ->
     (main toy_yaml toy_csv toy_dumps scenario_args 10 11 scenario_world).1 = 0%Z).
Proof.
  apply (rows_processed_is_row_count toy_yaml toy_csv toy_dumps scenario_args
           10 11 scenario_world scenario_df).
  - exists scenario_csv. split; vm_compute; reflexivity.
  - reflexivity.
Defined.

(* ------------------------------------------------------------------ *)
(** ** The latency *)

Lemma py_int_nonneg (x : Q) :
  (0 <= x)%Q ->
  (0 <= py_int x)%Z /\ (inject_Z (py_int x) <= x)%Q /\ (x < inject_Z (py_int x + 1))%Q.
Proof.
  intros Hx.
  assert (Hnum : (0 <= Qnum x)%Z).
  { unfold Qle in Hx. simpl in Hx. lia. }
  assert (Hfloor : py_int x = Qfloor x).
  { unfold py_int. destruct x as [n d]. simpl in *.
    apply Z.quot_div_nonneg; lia. }
  rewrite Hfloor. split; [|split].
  - rewrite <- (Qfloor_Z 0). apply Qfloor_resp_le. exact Hx.
  - apply Qfloor_le.
  - apply Qlt_floor.
Qed.

Lemma round_half_even_nonneg (n d : Z) :
  (0 <= n)%Z -> (0 < d)%Z -> (0 <= round_half_even n d)%Z.
Proof.
  intros Hn Hd. unfold round_half_even. cbv zeta.
  pose proof (Z.div_pos n d Hn Hd) as Hq.
  destruct (2 * (n mod d) ?= d)%Z; [destruct (Z.even (n / d))| |]; lia.
Qed.

Lemma round_pos_nonneg (n d : Z) :
  (0 < n)%Z -> (0 < d)%Z -> (0 <= round_pos n d)%Q.
Proof.
  intros Hn Hd. unfold round_pos. cbv zeta.
  set (e := Z.max (binade n d - 52) (-1074)).
  assert (Hup : (0 < 2 ^ Z.max 0 e)%Z) by (apply Z.pow_pos_nonneg; lia).
  assert (Hdown : (0 < 2 ^ Z.max 0 (- e))%Z) by (apply Z.pow_pos_nonneg; lia).
  apply Qle_shift_div_l.
  - rewrite <- (Zlt_Qlt 0). exact Hdown.
  - rewrite Qmult_0_l. rewrite <- (Zle_Qle 0).
    apply Z.mul_nonneg_nonneg; [|lia].
    apply round_half_even_nonneg; [|apply Z.mul_pos_pos; assumption].
    apply Z.mul_nonneg_nonneg; lia.
Qed.

(** Rounding to float64 keeps the sign of a number that is not negative. *)
Lemma round_f64_nonneg (x : Q) : (0 <= x)%Q -> (0 <= round_f64 x)%Q.
Proof.
  intros Hx. unfold round_f64. destruct x as [[|n|n] d]; cbn [Qnum Qden].
  - apply Qle_refl.
  - apply round_pos_nonneg; reflexivity.
  - unfold Qle in Hx. simpl in Hx. lia.
Qed.

Lemma latency_of_nonneg (t0 t1 : Q) : (t0 <= t1)%Q -> (0 <= latency_of t0 t1)%Z.
Proof.
  intros Ht. unfold latency_of, f64_mul, f64_sub.
  apply py_int_nonneg. apply round_f64_nonneg.
  apply Qmult_le_0_compat; [|discriminate].
  apply round_f64_nonneg.
  unfold Qminus. rewrite <- (Qplus_opp_r t0). apply Qplus_le_l. exact Ht.
Qed.

(** The float64 product decides the millisecond: between the readings 0.0
    and 0.009 the latency is 9, although the float64 nearest to 0.009 lies
    below 9/1000. *)
Example latency_of_nine_milliseconds :
  latency_of 0 (round_f64 (9 # 1000)) = 9%Z /\
  (round_f64 (9 # 1000) * 1000 < 9)%Q.
Proof. split; vm_compute; reflexivity. Qed.

(** X19. The latency of a successful run is computed as the program does,
    in float64: the difference of the two readings of the clock, times
    1000, cut to an integer.  The [latency_ms] field of the record holds
    that number, the closing log record reports the same one, and it is not
    negative when the clock has not gone back between the two readings. *)
Theorem latency_is_truncated_elapsed_time
    (yaml_safe_load : string -> result pyval)
    (read_csv : string -> result DataFrame)
    (json_dumps : pyval -> string)
    (args : Args) (t0 t1 : Q) (w : World) :
  (main yaml_safe_load read_csv json_dumps args t0 t1 w).1 = 0%Z ->
  log_file_apart args = true ->
  exists r : pyval,
    files (main yaml_safe_load read_csv json_dumps args t0 t1 w).2 !! arg_output args
      = Some (json_dumps r) /\
    field r "latency_ms" = Some (PInt (latency_of t0 t1)) /\
    last (log_file (main yaml_safe_load read_csv json_dumps args t0 t1 w).2)
      = Some (LogRecord INFO (Job_completed (latency_of t0 t1))) /\
    ((t0 <= t1)%Q -> (0 <= latency_of t0 t1)%Z).
Proof.
  intros Hcode _. rewrite main_world in Hcode |- *.
  destruct (main_pipeline yaml_safe_load read_csv args w)
    as [[[[[version seed] rows] rate]|e] w1]; [|discriminate Hcode].
  cbv zeta. cbn [snd files log_file].
  eexists. split; [apply lookup_insert_eq|].
  split; [reflexivity|]. split; [|apply latency_of_nonneg].
  change (log_file w1 ++ [LogRecord INFO (Metrics_computed rate rows);
            LogRecord INFO (Job_completed (latency_of t0 t1))])%list
    with (log_file w1 ++ ([LogRecord INFO (Metrics_computed rate rows)]
            ++ [LogRecord INFO (Job_completed (latency_of t0 t1))]))%list.
  rewrite app_assoc. apply last_snoc.
Qed.

Lemma latency_witness :
  exists r : pyval,
    files (main demo_yaml demo_csv toy_dumps scenario_args 10 (10 + (2469 # 2000))
             (disk scenario_yaml scenario_csv)).2 !! arg_output scenario_args
      = Some (toy_dumps r) /\
    field r "latency_ms" = Some (PInt (latency_of 10 (10 + (2469 # 2000)))) /\
    last (log_file (main demo_yaml demo_csv toy_dumps scenario_args 10
                      (10 + (2469 # 2000)) (disk scenario_yaml scenario_csv)).2)
      = Some (LogRecord INFO (Job_completed (latency_of 10 (10 + (2469 # 2000))))) /\
    ((10 <= 10 + (2469 # 2000))%Q -> (0 <= latency_of 10 (10 + (2469 # 2000)))%Z).
Proof.
  apply (latency_is_truncated_elapsed_time demo_yaml demo_csv toy_dumps
           scenario_args 10 (10 + (2469 # 2000)) (disk scenario_yaml scenario_csv)).
  - vm_compute. reflexivity.
  - reflexivity.
Defined.

Lemma np_random_seed_result (seed : pyval) (w w' : World) :
  (np_random_seed seed w).1 = (np_random_seed seed w').1.
Proof.
  unfold np_random_seed. destruct seed as [| [|] |z| | |]; simpl; try reflexivity;
    destruct ((z <? 0)%Z || (2 ^ 32 - 1 <? z)%Z); reflexivity.
Qed.

Lemma load_data_same_input (read_csv : string -> result DataFrame)
    (p : string) (w w' : World) :
  files w !! p = files w' !! p ->
  (load_data read_csv p w).1 = (load_data read_csv p w').1.
Proof.
  intros Hsame.
  destruct (files w !! p) as [text|] eqn:Hp; symmetry in Hsame.
  - destruct (read_csv text) as [df|e] eqn:Hdoc.
    + rewrite (load_data_parsed read_csv p text df w Hp Hdoc).
      rewrite (load_data_parsed read_csv p text df w' Hsame Hdoc). reflexivity.
    + rewrite (load_data_unparsed read_csv p text e w Hp Hdoc).
      rewrite (load_data_unparsed read_csv p text e w' Hsame Hdoc). reflexivity.
  - rewrite (load_data_missing read_csv p w Hp).
    rewrite (load_data_missing read_csv p w' Hsame). reflexivity.
Qed.

(** Once the configuration is read, the pipeline's result depends on the
    three values and on the input file only. *)
Lemma pipeline_after_config_result (read_csv : string -> result DataFrame)
    (args : Args) (seed window version : pyval) (w w' : World) :
  files w !! arg_input args = files w' !! arg_input args ->
  (pipeline_after_config read_csv args seed window version w).1 =
  (pipeline_after_config read_csv args seed window version w').1.
Proof.
  intros Hsame. destruct (seed_ok seed) eqn:Hok.
  - rewrite !pipeline_after_config_run by exact Hok.
    rewrite (load_data_same_input read_csv _ w w' Hsame).
    destruct (load_data read_csv (arg_input args) w').1 as [df|e]; [|reflexivity].
    rewrite (process_data_result df seed window w w').
    destruct (process_data df seed window w').1 as [[[rows rate] sigs]|e];
      reflexivity.
  - destruct (pipeline_after_config_bad_seed read_csv args seed window version w Hok)
      as (e & He & ->).
    destruct (pipeline_after_config_bad_seed read_csv args seed window version w' Hok)
      as (e' & He' & ->).
    pose proof (np_random_seed_result seed w w') as Hres.
    rewrite He, He' in Hres. simpl in Hres. injection Hres as ->. reflexivity.
Qed.



Lemma load_config_returns_checked (yaml_safe_load : string -> result pyval)
    (p : string) (w : World) (items : list (string * pyval)) :
  (load_config yaml_safe_load p w).1 = Ok (PDict items) ->
  missing_keys items = [].
Proof.
  intros Hload.
  destruct (files w !! p) as [text|] eqn:Hp;
    [|rewrite (load_config_missing yaml_safe_load p w Hp) in Hload; discriminate].
  destruct (yaml_safe_load text) as [cfg|e] eqn:Hdoc;
    [|rewrite (load_config_unparsed yaml_safe_load p text e w Hp Hdoc) in Hload;
      discriminate].
  assert (Hcfg : (load_config yaml_safe_load p w).1 = Ok (PDict items) ->
                 cfg = PDict items).
  { unfold load_config, py_bind, os_path_exists, read_file, py_lift.
    rewrite Hp. simpl. rewrite Hp, Hdoc.
    unfold required_keys, py_for, py_bind, py_ret, py_raise.
    destruct (py_contains "seed" cfg) as [[|]|]; simpl; try discriminate.
    destruct (py_contains "window" cfg) as [[|]|]; simpl; try discriminate.
    destruct (py_contains "version" cfg) as [[|]|]; simpl; try discriminate.
    congruence. }
  specialize (Hcfg Hload). subst cfg.
  rewrite (load_config_dict yaml_safe_load p text items w Hp Hdoc) in Hload.
  destruct (missing_keys items); [reflexivity | discriminate].
Qed.

Lemma load_data_returns_checked (read_csv : string -> result DataFrame)
    (p : string) (w : World) (df : DataFrame) :
  (load_data read_csv p w).1 = Ok df ->
  df_empty df = false /\ df_has_column df "close" = true.
Proof.
  intros Hload.
  destruct (files w !! p) as [text|] eqn:Hp;
    [|rewrite (load_data_missing read_csv p w Hp) in Hload; discriminate].
  destruct (read_csv text) as [df'|e] eqn:Hdoc.
  - rewrite (load_data_parsed read_csv p text df' w Hp Hdoc) in Hload.
    destruct (df_empty df') eqn:He; [discriminate|].
    destruct (df_has_column df' "close") eqn:Hc; [|discriminate].
    simpl in Hload. injection Hload as <-. split; assumption.
  - unfold load_data, py_bind, os_path_exists, read_file, py_lift in Hload.
    rewrite Hp in Hload. simpl in Hload. rewrite Hp, Hdoc in Hload. discriminate.
Qed.

(** X21. What the loaders return is safe for the reads that follow in [main]
    and in the processor: a mapping returned by the configuration loader
    holds the three keys, so none of [config['seed']], [config['window']],
    [config['version']] raises; a table returned by the data loader has at
    least one row and a close column, so [df['close']] does not raise. *)
Theorem loaders_guarantee_later_reads
    (yaml_safe_load : string -> result pyval)
    (read_csv : string -> result DataFrame)
    (cpath ipath : string) (w : World)
    (items : list (string * pyval)) (df : DataFrame) :
  (load_config yaml_safe_load cpath w).1 = Ok (PDict items) ->
  (load_data read_csv ipath w).1 = Ok df ->
  (exists seed window version : pyval,
     py_getitem (PDict items) "seed" = Ok seed /\
     py_getitem (PDict items) "window" = Ok window /\
     py_getitem (PDict items) "version" = Ok version) /\
  df_len df <> 0%nat /\
  exists c : column, df_getitem df "close" = Ok (mkSeries (df_len df) c).
Proof.
  intros Hcfg Hdata.
  apply load_config_returns_checked in Hcfg.
  apply load_data_returns_checked in Hdata. destruct Hdata as [Hne Hcol].
  split; [|split].
  - unfold missing_keys, required_keys in Hcfg. rewrite !filter_cons in Hcfg.
    destruct (dict_get items "seed") as [v1|] eqn:H1; [|discriminate Hcfg].
    destruct (dict_get items "window") as [v2|] eqn:H2; [|discriminate Hcfg].
    destruct (dict_get items "version") as [v3|] eqn:H3; [|discriminate Hcfg].
    exists v1, v2, v3. unfold py_getitem. rewrite H1, H2, H3.
    repeat split; reflexivity.
  - unfold df_empty in Hne. apply orb_false_iff in Hne. destruct Hne as [Hne _].
    apply Nat.eqb_neq in Hne. exact Hne.
  - unfold df_has_column in Hcol. unfold df_getitem.
    destruct (columns_get (df_columns df) "close") as [c|]; [|discriminate Hcol].
    exists c. reflexivity.
Qed.

Lemma loaders_guarantee_witness :
  (exists seed window version : pyval,
     py_getitem scenario_config "seed" = Ok seed /\
     py_getitem scenario_config "window" = Ok window /\
     py_getitem scenario_config "version" = Ok version) /\
  df_len scenario_df <> 0%nat /\
  exists c : column,
    df_getitem scenario_df "close" = Ok (mkSeries (df_len scenario_df) c).
Proof.
  apply (loaders_guarantee_later_reads demo_yaml demo_csv "config.yaml" "data.csv"
           (disk scenario_yaml scenario_csv)
           [("seed", PInt 42); ("window", PInt 3); ("version", PStr "v1")]
           scenario_df);
    vm_compute; reflexivity.
Defined.

(** X22. The loaders and the processor have no effect on the outside: the two
    loaders leave the world as it is, whatever they return or raise, and the
    processor changes nothing but the seed of NumPy's generator: it writes no
    file, prints nothing and logs nothing. *)
Theorem loaders_and_processor_are_silent
    (yaml_safe_load : string -> result pyval)
    (read_csv : string -> result DataFrame)
    (p : string) (df : DataFrame) (seed window : pyval) (w : World) :
  (load_config yaml_safe_load p w).2 = w /\
  (load_data read_csv p w).2 = w /\
  files (process_data df seed window w).2 = files w /\
  stdout (process_data df seed window w).2 = stdout w /\
  log_file (process_data df seed window w).2 = log_file w.
Proof.
  split; [apply load_config_world|]. split; [apply load_data_world|].
  destruct (seed_ok seed) eqn:Hok.
  - rewrite (process_data_world df seed window w Hok). repeat split.
  - destruct (np_random_seed_bad seed w Hok) as [e He].
    unfold process_data, py_bind. rewrite He. repeat split.
Qed.
